(** * project-loved-web: the nomination, review and consent routes

    A shallow embedding of the request handlers of
    [server/src/routers/anyone.ts] and [server/src/router.ts].

    - SQL tables are lists of row records; a query is a [filter], [find] or
      [map] over the list, an [AUTO_INCREMENT] key is a counter in the
      database record.
    - A handler is a function from the world before the request to a
      response and the world after it.  The world holds the tables, the
      store of the osu! collaborator and the chronological trace of the
      side effects of the handlers (SQL writes, collaborator calls, cache
      invalidations).
    - [db.transact] runs a body that may throw; a throw restores the tables
      (ROLLBACK) and surfaces as the 500 answer of the Express error
      handler.
    - Code that is not under [server/src] of this snapshot (the osu!
      collaborator, the guards, the settings) is a parameter. *)

From Stdlib Require Import ZArith List String Bool Lia DecimalString Sorted Permutation.
Import ListNotations.
Local Open Scope string_scope.
Local Open Scope list_scope.
Local Open Scope Z_scope.

Set Implicit Arguments.

(** ** JavaScript values of a request body *)

Inductive JsValue :=
| JUndefined
| JNull
| JBool (b : bool)
| JInt (z : Z)            (* a number that is an integer *)
| JFraction               (* any other number *)
| JString (s : string)
| JObject.                (* objects and arrays *)

(** [typeof x === 'string'] *)
Definition as_string (v : JsValue) : option string :=
  match v with JString s => Some s | _ => None end.

(** Modelled from the spec: [isInteger] of type-guards.js, which is not among
    the sources verified here ("Score domain: integers -4..3"). *)
Definition isInteger (v : JsValue) : option Z :=
  match v with JInt z => Some z | _ => None end.

(** Modelled from the spec: [isGameMode] of type-guards.js; the supported game
    modes are 0, 1, 2 and 3, as in /add-round of router.ts. *)
Definition gameModes : list Z := [0; 1; 2; 3].

Definition isGameMode (v : JsValue) : option Z :=
  match v with
  | JInt z => if existsb (Z.eqb z) gameModes then Some z else None
  | _ => None
  end.

(** [a === b] on values that may be null. *)
Definition option_eqb {A} (eqb : A -> A -> bool) (a b : option A) : bool :=
  match a, b with
  | Some x, Some y => eqb x y
  | None, None => true
  | _, _ => false
  end.

(** Template-literal rendering of a number. *)
Definition string_of_Z (z : Z) : string := NilZero.string_of_int (Z.to_int z).

(** ** Responses *)

Inductive Response (A : Type) :=
| Json (body : A)                            (* res.json(body) *)
| ErrorJson (status : Z) (error : string)    (* res.status(s).json({ error }) *)
| Empty (status : Z).                        (* res.status(s).send() *)
Arguments Json {A} body.
Arguments ErrorJson {A} status error.
Arguments Empty {A} status.

Definition status_of {A} (r : Response A) : Z :=
  match r with Json _ => 200 | ErrorJson s _ => s | Empty s => s end.

Definition json_of {A} (r : Response A) : option A :=
  match r with Json body => Some body | _ => None end.

(** The Express error handler, reached by every throw of a handler. *)
Definition serverError {A} : Response A := ErrorJson 500 "Server error".

(** ** The osu! collaborator *)

(** Modelled from the spec: [RankedStatus.pending] of loved-bridge, the osu!
    status code below Ranked, Approved, Qualified and Loved. *)
Definition RankedStatus_pending : Z := 0.

Record Beatmapset := mkBeatmapset {
  beatmapset_id : Z;
  ranked_status : Z;
  game_modes : list Z
}.

Record User := mkUser { user_id : Z; user_name : string }.

Record Beatmap := mkBeatmap { beatmap_id : Z }.

Inductive UserKey := ById (id : Z) | ByName (name : string).

(** [osu.ts] is not among the sources verified here.  The collaborator is a
    parameter: a store of its own (the remote API together with the
    [beatmapsets] and [users] tables it maintains) and the operations the
    handlers call on it. *)
Record Collaborator (S : Type) := mkCollaborator {
  createOrRefreshBeatmapset : Z -> bool -> S -> option Beatmapset * S;
  createOrRefreshUser : UserKey -> S -> option User * S;
  (* SELECT * FROM beatmapsets WHERE id = ? *)
  select_beatmapset : S -> Z -> option Beatmapset;
  (* SELECT * FROM users WHERE id = ? *)
  select_user : S -> Z -> option User;
  (* SELECT * FROM beatmaps WHERE beatmapset_id = ? AND game_mode = ?
     ORDER BY key_count ASC, star_rating ASC *)
  select_beatmaps : S -> Z -> Z -> list Beatmap
}.

(** ** Effects *)

Inductive Table :=
| t_mapper_consents | t_mapper_consent_beatmapsets | t_reviews | t_submissions
| t_logs | t_nominations | t_nomination_nominators | t_nomination_assignees
| t_nomination_excluded_beatmaps | t_beatmapset_creators | t_rounds
| t_round_game_modes.

Inductive Event :=
| SqlInsert (t : Table)
| SqlUpdate (t : Table)
| SqlDelete (t : Table)
| OsuBeatmapset (id : Z) (forceUpdate : bool)
| OsuUser (key : UserKey)
| CacheDeleted (key : string).

Record World (DB S : Type) := mkWorld {
  db : DB;
  osu_store : S;
  trace : list Event
}.

Inductive Outcome (A : Type) :=
| Ret (a : A)
| Thrown (e : string).
Arguments Ret {A} a.
Arguments Thrown {A} e.

Section Effects.
Context {DB S : Type}.

(** A computation on a connection. *)
Definition Tx (A : Type) : Type := World DB S -> Outcome A * World DB S.

Definition ret {A} (a : A) : Tx A := fun w => (Ret a, w).
Definition throw {A} (e : string) : Tx A := fun w => (Thrown e, w).
Definition bind {A B} (m : Tx A) (k : A -> Tx B) : Tx B :=
  fun w => match m w with
           | (Ret a, w') => k a w'
           | (Thrown e, w') => (Thrown e, w')
           end.

Definition emit (e : Event) (w : World DB S) : World DB S :=
  mkWorld (db w) (osu_store w) (trace w ++ [e]).

(** A read of the tables. *)
Definition query {A} (q : DB -> A) : Tx A := fun w => (Ret (q (db w)), w).

(** A write statement: the tables change and the statement is traced. *)
Definition execute (e : Event) (f : DB -> DB) : Tx unit :=
  fun w => (Ret tt, emit e (mkWorld (f (db w)) (osu_store w) (trace w))).

(** An insert into an [AUTO_INCREMENT] table answers with its [insertId]. *)
Definition insert {A} (t : Table) (f : DB -> A * DB) : Tx A :=
  fun w => let (a, d) := f (db w) in
           (Ret a, emit (SqlInsert t) (mkWorld d (osu_store w) (trace w))).

(** A read of the tables the collaborator maintains. *)
Definition query_osu {A} (q : S -> A) : Tx A := fun w => (Ret (q (osu_store w)), w).

(** A query that joins the tables of the handlers with those of the
    collaborator. *)
Definition query_join {A} (q : S -> DB -> A) : Tx A :=
  fun w => (Ret (q (osu_store w) (db w)), w).

Definition deleteCache (key : string) : Tx unit :=
  fun w => (Ret tt, emit (CacheDeleted key) w).

(** A call of the collaborator: its store moves, the tables of the
    handlers do not. *)
Definition call {A} (e : Event) (f : S -> A * S) : Tx A :=
  fun w => let (a, s) := f (osu_store w) in
           (Ret a, emit e (mkWorld (db w) s (trace w))).

(** [db.transact]: COMMIT when the body returns, ROLLBACK and rethrow when
    it throws.  What the body did outside the connection stays. *)
Definition transact {A} (body : Tx A) : Tx A :=
  fun w => match body w with
           | (Ret a, w') => (Ret a, w')
           | (Thrown e, w') => (Thrown e, mkWorld (db w) (osu_store w') (trace w'))
           end.

Fixpoint forEach {A} (l : list A) (body : A -> Tx unit) : Tx unit :=
  match l with
  | [] => ret tt
  | x :: l' => bind (body x) (fun _ => forEach l' body)
  end.

(** A handler is a computation that answers with a response; what it throws
    reaches the error handler of the application. *)
Definition handle {A} (h : Tx (Response A)) (w : World DB S)
  : Response A * World DB S :=
  match h w with
  | (Ret r, w') => (r, w')
  | (Thrown _, w') => (serverError, w')
  end.
End Effects.

Notation "x <- m ;; k" := (bind m (fun x => k))
  (at level 61, m at next level, right associativity).
Notation "m ;;; k" := (bind m (fun _ => k))
  (at level 61, right associativity).

(** * routers/anyone.ts *)

Module Anyone.

(** ** Tables (loved-bridge/tables) *)

Inductive ConsentValue := no | yes | unreachable.

Definition ConsentValue_eqb (a b : ConsentValue) : bool :=
  match a, b with
  | no, no | yes, yes | unreachable, unreachable => true
  | _, _ => false
  end.

Record Consent := mkConsent {
  consent_user_id : Z;
  consent : option ConsentValue;
  consent_reason : option string;
  updated_at : Z;
  updater_id : Z
}.

Record ConsentBeatmapset := mkConsentBeatmapset {
  cb_beatmapset_id : Z;
  cb_user_id : Z;
  cb_consent : bool;
  cb_consent_reason : option string
}.

Record Review := mkReview {
  review_id : Z;
  review_beatmapset_id : Z;
  review_game_mode : Z;
  review_reason : string;
  reviewed_at : Z;
  reviewer_id : Z;
  review_score : Z
}.

Record Submission := mkSubmission {
  submission_id : Z;
  submission_beatmapset_id : Z;
  submission_game_mode : Z;
  submission_reason : option string;
  submitter_id : Z
}.

(** The audit records of [dbLog]; users and beatmapsets are logged by id. *)
Inductive LogEntry :=
| mapperConsentCreated (actor : Z) (c : option ConsentValue) (reason : option string) (user : Z)
| mapperConsentUpdated (actor : Z) (from to : option ConsentValue * option string) (user : Z)
| mapperConsentBeatmapsetCreated (actor beatmapset : Z) (c : bool) (reason : option string) (user : Z)
| mapperConsentBeatmapsetUpdated (actor beatmapset : Z) (from to : bool * option string) (user : Z)
| mapperConsentBeatmapsetDeleted (actor beatmapset : Z) (c : bool) (reason : option string) (user : Z)
| reviewCreated (beatmapset : Z) (review : Review) (user : Z)
| reviewUpdated (beatmapset : Z) (from to : Review) (user : Z)
| reviewDeleted (actor beatmapset : Z) (review : Review) (user : Z)
| submissionDeleted (actor beatmapset : Z) (submission : Submission) (user : Z).

Definition is_reviewUpdated (l : LogEntry) : bool :=
  match l with reviewUpdated _ _ _ _ => true | _ => false end.

Record DB := mkDB {
  mapper_consents : list Consent;
  mapper_consent_beatmapsets : list ConsentBeatmapset;
  reviews : list Review;
  reviews_auto_increment : Z;
  submissions : list Submission;
  logs : list LogEntry
}.

Definition set_mapper_consents (f : list Consent -> list Consent) (d : DB) : DB :=
  mkDB (f (mapper_consents d)) (mapper_consent_beatmapsets d) (reviews d)
       (reviews_auto_increment d) (submissions d) (logs d).

Definition set_mapper_consent_beatmapsets
  (f : list ConsentBeatmapset -> list ConsentBeatmapset) (d : DB) : DB :=
  mkDB (mapper_consents d) (f (mapper_consent_beatmapsets d)) (reviews d)
       (reviews_auto_increment d) (submissions d) (logs d).

Definition set_reviews (f : list Review -> list Review) (d : DB) : DB :=
  mkDB (mapper_consents d) (mapper_consent_beatmapsets d) (f (reviews d))
       (reviews_auto_increment d) (submissions d) (logs d).

Definition set_submissions (f : list Submission -> list Submission) (d : DB) : DB :=
  mkDB (mapper_consents d) (mapper_consent_beatmapsets d) (reviews d)
       (reviews_auto_increment d) (f (submissions d)) (logs d).

(** ** The acting user *)

Inductive Role := captain | otherRole (role_id : Z).

Definition Role_eqb (a b : Role) : bool :=
  match a, b with
  | captain, captain => true
  | otherRole x, otherRole y => x =? y
  | _, _ => false
  end.

Record UserRole := mkUserRole {
  role_game_mode : Z;
  role_id : Role;
  alumni : bool
}.

(** [res.typedLocals.user], the [hasRole] of [currentUserRoles(req, res)]
    (guards.ts is not among the sources verified here) and the clock read by
    [new Date()]. *)
Record Context := mkContext {
  actor_id : Z;
  actor_roles : list UserRole;
  hasRole : Role -> option Z -> bool;
  now : Z
}.

Section Handlers.
Variable S : Type.
Variable osu : Collaborator S.
Variable ctx : Context.

(** [await dbLog(type, values, connection)] *)
Definition dbLog (entry : LogEntry) : Tx (DB := DB) (S := S) unit :=
  execute (SqlInsert t_logs)
    (fun d => mkDB (mapper_consents d) (mapper_consent_beatmapsets d) (reviews d)
                   (reviews_auto_increment d) (submissions d) (logs d ++ [entry])).

(** ** POST /review *)

Record ReviewBody := mkReviewBody {
  body_beatmapsetId : JsValue;
  body_gameMode : JsValue;
  body_reason : JsValue;
  body_score : JsValue
}.

(** [{ ...newReview, active_captain }] *)
Record ReviewJson := mkReviewJson {
  json_review : Review;
  active_captain : option bool
}.

(** SELECT * FROM reviews
    WHERE beatmapset_id = ? AND reviewer_id = ? AND game_mode = ? *)
Definition select_review (beatmapsetId reviewerId gameMode : Z) (d : DB) : option Review :=
  find (fun r => (review_beatmapset_id r =? beatmapsetId)
                 && (reviewer_id r =? reviewerId)
                 && (review_game_mode r =? gameMode)) (reviews d).

(** SELECT * FROM reviews WHERE id = ? *)
Definition select_review_by_id (id : Z) (d : DB) : option Review :=
  find (fun r => review_id r =? id) (reviews d).

(** UPDATE reviews SET reason = ?, reviewed_at = ?, score = ? WHERE id = ? *)
Definition update_review (reason : string) (at_ : Z) (score id : Z) : DB -> DB :=
  set_reviews (map (fun r =>
    if review_id r =? id
    then mkReview (review_id r) (review_beatmapset_id r) (review_game_mode r)
                  reason at_ (reviewer_id r) score
    else r)).

(** INSERT INTO reviews SET ? *)
Definition insert_review (beatmapsetId gameMode : Z) (reason : string)
  (at_ reviewerId score : Z) (d : DB) : Z * DB :=
  let insertId := reviews_auto_increment d in
  (insertId,
   mkDB (mapper_consents d) (mapper_consent_beatmapsets d)
        (reviews d ++ [mkReview insertId beatmapsetId gameMode reason at_ reviewerId score])
        (insertId + 1) (submissions d) (logs d)).

(** SELECT * FROM submissions
    WHERE beatmapset_id = ? AND game_mode = ? AND reason IS NULL
      AND submitter_id = ? *)
Definition select_open_submission (beatmapsetId gameMode submitterId : Z) (d : DB)
  : option Submission :=
  find (fun s => (submission_beatmapset_id s =? beatmapsetId)
                 && (submission_game_mode s =? gameMode)
                 && match submission_reason s with None => true | Some _ => false end
                 && (submitter_id s =? submitterId)) (submissions d).

Definition deleteExistingSubmission (beatmapset : Beatmapset) (beatmapsetId gameMode : Z)
  : Tx (DB := DB) (S := S) unit :=
  submissionToDelete <- query (select_open_submission beatmapsetId gameMode (actor_id ctx)) ;;
  match submissionToDelete with
  | Some submission =>
      execute (SqlDelete t_submissions)
        (set_submissions (filter (fun s => negb (submission_id s =? submission_id submission)))) ;;;
      dbLog (submissionDeleted (actor_id ctx) (beatmapset_id beatmapset) submission (actor_id ctx))
  | None => ret tt
  end.

Definition reviewsCacheKey (gameMode : Z) : string :=
  String.append "submissions:" (String.append (string_of_Z gameMode) ":reviews").

(** The transaction of the update path. *)
Definition updateTransaction (beatmapset : Beatmapset) (beatmapsetId gameMode : Z)
  (reason : string) (score : Z) (activeCaptain : option bool) (existingReview : Review)
  : Tx (DB := DB) (S := S) (Response ReviewJson) :=
  execute (SqlUpdate t_reviews)
          (update_review reason (now ctx) score (review_id existingReview)) ;;;
  newReview <- query (select_review_by_id (review_id existingReview)) ;;
  match newReview with
  | None => throw "Missing review immediately after update"
  | Some newReview =>
      (if negb (String.eqb (review_reason existingReview) reason)
          || negb (review_score existingReview =? score)
       then dbLog (reviewUpdated (beatmapset_id beatmapset) existingReview newReview
                                 (actor_id ctx))
       else ret tt) ;;;
      deleteExistingSubmission beatmapset beatmapsetId gameMode ;;;
      deleteCache (reviewsCacheKey gameMode) ;;;
      ret (Json (mkReviewJson newReview activeCaptain))
  end.

(** The transaction of the create path. *)
Definition createTransaction (beatmapset : Beatmapset) (beatmapsetId gameMode : Z)
  (reason : string) (score : Z) (activeCaptain : option bool)
  : Tx (DB := DB) (S := S) (Response ReviewJson) :=
  insertId <- insert t_reviews
                (insert_review beatmapsetId gameMode reason (now ctx) (actor_id ctx) score) ;;
  newReview <- query (select_review_by_id insertId) ;;
  match newReview with
  | None => throw "Missing review immediately after create"
  | Some newReview =>
      dbLog (reviewCreated (beatmapset_id beatmapset) newReview (actor_id ctx)) ;;;
      deleteExistingSubmission beatmapset beatmapsetId gameMode ;;;
      deleteCache (reviewsCacheKey gameMode) ;;;
      ret (Json (mkReviewJson newReview activeCaptain))
  end.

Definition review (body : ReviewBody) : Tx (DB := DB) (S := S) (Response ReviewJson) :=
  match isInteger (body_beatmapsetId body) with
  | None => ret (ErrorJson 422 "Invalid beatmapset ID")
  | Some beatmapsetId =>
  match isGameMode (body_gameMode body) with
  | None => ret (ErrorJson 422 "Invalid game mode")
  | Some gameMode =>
  match as_string (body_reason body) with
  | None => ret (ErrorJson 422 "Invalid reason")
  | Some reason =>
  match isInteger (body_score body) with
  | None => ret (ErrorJson 422 "Invalid score")
  | Some score =>
  if (score <? -4) || (score >? 3) then ret (ErrorJson 422 "Invalid score") else
  if existsb (Z.eqb score) [-4; 0] && negb (hasRole ctx captain (Some gameMode))
  then ret (ErrorJson 403 (String.append "Must be a captain to use review score "
                                         (string_of_Z score)))
  else
  existingReview <- query (select_review beatmapsetId (actor_id ctx) gameMode) ;;
  (* "Support" and "Rejection" are no longer selectable, unless the review
     was already set to the same score *)
  if ((score =? -2) || (score =? 2))
     && negb (option_eqb Z.eqb (Some score) (option_map review_score existingReview))
  then ret (ErrorJson 422 "Invalid score")
  else
  beatmapset <- call (OsuBeatmapset beatmapsetId true)
                     (createOrRefreshBeatmapset osu beatmapsetId true) ;;
  match beatmapset with
  | None => ret (ErrorJson 422 "Invalid beatmapset ID")
  | Some beatmapset =>
  (* TODO: This should allow cases where the set is Loved but at least one
     difficulty in the requested mode is Pending/WIP/Graveyard *)
  if ranked_status beatmapset >? RankedStatus_pending
  then ret (ErrorJson 422 "Beatmapset is already Ranked/Loved/Qualified")
  else
  if negb (existsb (Z.eqb gameMode) (game_modes beatmapset))
  then ret (ErrorJson 422 (String.append "Beatmapset has no beatmaps in game mode "
                                         (string_of_Z gameMode)))
  else
  let captainRole :=
    find (fun role => (role_game_mode role =? gameMode) && Role_eqb (role_id role) captain)
         (actor_roles ctx) in
  let activeCaptain := option_map (fun role => negb (alumni role)) captainRole in
  match existingReview with
  | Some existingReview =>
      transact (updateTransaction beatmapset beatmapsetId gameMode reason score
                                  activeCaptain existingReview)
  | None =>
      transact (createTransaction beatmapset beatmapsetId gameMode reason score activeCaptain)
  end
  end
  end end end end.

(** ** POST /mapper-consent *)

(** The body fields after [isMapperConsent] and
    [isMapperConsentBeatmapsetArray] (type-guards.ts is outside the sources
    verified here): a field is [None] when its guard rejects it. *)
Record MapperConsent := mkMapperConsent {
  mc_user_id : Z;
  mc_consent : option ConsentValue;
  mc_consent_reason : option string
}.

Record MapperConsentBeatmapset := mkMapperConsentBeatmapset {
  mcb_beatmapset_id : Z;
  mcb_consent : bool;
  mcb_consent_reason : option string
}.

Record ConsentBody := mkConsentBody {
  body_consent : option MapperConsent;
  body_consentBeatmapsets : option (list MapperConsentBeatmapset)
}.

Record ConsentJson := mkConsentJson {
  json_consent : Consent;
  json_mapper : User;
  beatmapset_consents : list (ConsentBeatmapset * Beatmapset)
}.

Definition includes (l : list Z) (x : Z) : bool := existsb (Z.eqb x) l.

(** The loop over [beatmapsetIdsAdded]: the first id the collaborator cannot
    resolve ends the request. *)
Fixpoint validateAdded (beatmapsetIdsAdded : list Z) : Tx (DB := DB) (S := S) (option Z) :=
  match beatmapsetIdsAdded with
  | [] => ret None
  | beatmapsetId :: rest =>
      beatmapset <- call (OsuBeatmapset beatmapsetId false)
                         (createOrRefreshBeatmapset osu beatmapsetId false) ;;
      match beatmapset with
      | None => ret (Some beatmapsetId)
      | Some _ => validateAdded rest
      end
  end.

(** Modelled from the spec: the primary key [user_id] of [mapper_consents]
    ("one row per mapper"), whose schema is not among the sources verified
    here.

    INSERT INTO mapper_consents SET ? *)
Definition insert_mapper_consent (row : Consent) : Tx (DB := DB) (S := S) unit :=
  dup <- query (fun d => existsb (fun c => consent_user_id c =? consent_user_id row)
                                 (mapper_consents d)) ;;
  if dup then throw "ER_DUP_ENTRY"
  else execute (SqlInsert t_mapper_consents) (set_mapper_consents (fun l => l ++ [row])).

(** UPDATE mapper_consents SET ? WHERE user_id = ? *)
Definition update_mapper_consent (c : option ConsentValue) (reason : option string)
  (at_ updater userId : Z) : DB -> DB :=
  set_mapper_consents (map (fun r =>
    if consent_user_id r =? userId then mkConsent (consent_user_id r) c reason at_ updater
    else r)).

(** DELETE FROM mapper_consent_beatmapsets
    WHERE beatmapset_id IN (?) AND user_id = ? *)
Definition delete_consent_beatmapsets (beatmapsetIds : list Z) (userId : Z) : DB -> DB :=
  set_mapper_consent_beatmapsets
    (filter (fun r => negb (includes beatmapsetIds (cb_beatmapset_id r)
                            && (cb_user_id r =? userId)))).

(** Modelled from the spec: the primary key [(beatmapset_id, user_id)] of
    [mapper_consent_beatmapsets].

    INSERT INTO mapper_consent_beatmapsets SET ? *)
Definition insert_consent_beatmapset (row : ConsentBeatmapset) : Tx (DB := DB) (S := S) unit :=
  dup <- query (fun d => existsb (fun r => (cb_beatmapset_id r =? cb_beatmapset_id row)
                                           && (cb_user_id r =? cb_user_id row))
                                 (mapper_consent_beatmapsets d)) ;;
  if dup then throw "ER_DUP_ENTRY"
  else execute (SqlInsert t_mapper_consent_beatmapsets)
               (set_mapper_consent_beatmapsets (fun l => l ++ [row])).

(** UPDATE mapper_consent_beatmapsets SET ?
    WHERE beatmapset_id = ? AND user_id = ? *)
Definition update_consent_beatmapset (c : bool) (reason : option string)
  (beatmapsetId userId : Z) : DB -> DB :=
  set_mapper_consent_beatmapsets (map (fun r =>
    if (cb_beatmapset_id r =? beatmapsetId) && (cb_user_id r =? userId)
    then mkConsentBeatmapset (cb_beatmapset_id r) (cb_user_id r) c reason
    else r)).

Definition consentTransaction (newConsent : MapperConsent)
  (newConsentBeatmapsets : list MapperConsentBeatmapset) (logUser : Z)
  (currentConsent : option Consent) (currentConsentBeatmapsets : list ConsentBeatmapset)
  (beatmapsetIdsRemoved : list Z) : Tx (DB := DB) (S := S) unit :=
  let logActor := actor_id ctx in
  match currentConsent with
  | None =>
      insert_mapper_consent
        (mkConsent (mc_user_id newConsent) (mc_consent newConsent)
                   (mc_consent_reason newConsent) (now ctx) (actor_id ctx)) ;;;
      dbLog (mapperConsentCreated logActor (mc_consent newConsent)
                                  (mc_consent_reason newConsent) logUser)
  | Some currentConsent =>
      if negb (option_eqb ConsentValue_eqb (consent currentConsent) (mc_consent newConsent))
         || negb (option_eqb String.eqb (consent_reason currentConsent)
                             (mc_consent_reason newConsent))
      then
        execute (SqlUpdate t_mapper_consents)
          (update_mapper_consent (mc_consent newConsent) (mc_consent_reason newConsent)
                                 (now ctx) (actor_id ctx) (mc_user_id newConsent)) ;;;
        dbLog (mapperConsentUpdated logActor
                 (consent currentConsent, consent_reason currentConsent)
                 (mc_consent newConsent, mc_consent_reason newConsent) logUser)
      else ret tt
  end ;;;
  (if (0 <? Z.of_nat (List.length beatmapsetIdsRemoved))
   then execute (SqlDelete t_mapper_consent_beatmapsets)
          (delete_consent_beatmapsets beatmapsetIdsRemoved (mc_user_id newConsent))
   else ret tt) ;;;
  forEach beatmapsetIdsRemoved (fun beatmapsetId =>
    beatmapset <- query_osu (fun s => select_beatmapset osu s beatmapsetId) ;;
    match beatmapset with
    | None => throw "Missing beatmapset for logging consent beatmapset delete"
    | Some beatmapset =>
        match find (fun c => cb_beatmapset_id c =? beatmapsetId) currentConsentBeatmapsets with
        | None => throw "TypeError"
        | Some consentBeatmapset =>
            dbLog (mapperConsentBeatmapsetDeleted logActor (beatmapset_id beatmapset)
                     (cb_consent consentBeatmapset) (cb_consent_reason consentBeatmapset)
                     logUser)
        end
    end) ;;;
  forEach newConsentBeatmapsets (fun consentBeatmapset =>
    beatmapset <- query_osu (fun s => select_beatmapset osu s
                                        (mcb_beatmapset_id consentBeatmapset)) ;;
    match beatmapset with
    | None => throw "Missing beatmapset for logging consent beatmapset create or update"
    | Some beatmapset =>
        match find (fun c => cb_beatmapset_id c =? mcb_beatmapset_id consentBeatmapset)
                   currentConsentBeatmapsets with
        | None =>
            insert_consent_beatmapset
              (mkConsentBeatmapset (mcb_beatmapset_id consentBeatmapset)
                 (mc_user_id newConsent) (mcb_consent consentBeatmapset)
                 (mcb_consent_reason consentBeatmapset)) ;;;
            dbLog (mapperConsentBeatmapsetCreated logActor (beatmapset_id beatmapset)
                     (mcb_consent consentBeatmapset) (mcb_consent_reason consentBeatmapset)
                     logUser)
        | Some currentConsentBeatmapset =>
            if negb (Bool.eqb (cb_consent currentConsentBeatmapset)
                              (mcb_consent consentBeatmapset))
               || negb (option_eqb String.eqb (cb_consent_reason currentConsentBeatmapset)
                                   (mcb_consent_reason consentBeatmapset))
            then
              execute (SqlUpdate t_mapper_consent_beatmapsets)
                (update_consent_beatmapset (mcb_consent consentBeatmapset)
                   (mcb_consent_reason consentBeatmapset)
                   (mcb_beatmapset_id consentBeatmapset) (mc_user_id newConsent)) ;;;
              dbLog (mapperConsentBeatmapsetUpdated logActor (beatmapset_id beatmapset)
                       (cb_consent currentConsentBeatmapset,
                        cb_consent_reason currentConsentBeatmapset)
                       (mcb_consent consentBeatmapset, mcb_consent_reason consentBeatmapset)
                       logUser)
            else ret tt
        end
    end).

(** The two queries that build the answer: both are inner joins with a
    table of the collaborator. *)
Definition select_consent_with_mapper (userId : Z) (s : S) (d : DB) : option (Consent * User) :=
  match find (fun c => consent_user_id c =? userId) (mapper_consents d) with
  | None => None
  | Some c => option_map (fun u => (c, u)) (select_user osu s (consent_user_id c))
  end.

Definition select_beatmapset_consents (userId : Z) (s : S) (d : DB)
  : list (ConsentBeatmapset * Beatmapset) :=
  flat_map (fun r => match select_beatmapset osu s (cb_beatmapset_id r) with
                     | Some b => [(r, b)]
                     | None => []
                     end)
           (filter (fun r => cb_user_id r =? userId) (mapper_consent_beatmapsets d)).

Definition doubleQuote : string := String (Ascii.ascii_of_nat 34) EmptyString.

Definition unreachableMessage : string :=
  String.append "The "
    (String.append doubleQuote
       (String.append "unreachable"
          (String.append doubleQuote " consent option is no longer supported"))).

Definition notFoundMessage (beatmapsetId : Z) : string :=
  String.append "Beatmapset #" (String.append (string_of_Z beatmapsetId) " not found").

Definition mapper_consent (body : ConsentBody) : Tx (DB := DB) (S := S) (Response ConsentJson) :=
  match body_consent body with
  | None => ret (ErrorJson 422 "Invalid consent")
  | Some newConsent =>
  if option_eqb ConsentValue_eqb (mc_consent newConsent) (Some unreachable)
  then ret (ErrorJson 422 unreachableMessage)
  else
  match body_consentBeatmapsets body with
  | None => ret (ErrorJson 422 "Invalid mapper consent beatmapsets")
  | Some newConsentBeatmapsets =>
  user <- call (OsuUser (ById (mc_user_id newConsent)))
               (createOrRefreshUser osu (ById (mc_user_id newConsent))) ;;
  match user with
  | None => ret (ErrorJson 404 "User not found")
  | Some user =>
  if negb (user_id user =? actor_id ctx) && negb (hasRole ctx captain None)
  then ret (ErrorJson 403 "Must be a captain to update consents of other users")
  else
  currentConsent <- query (fun d => find (fun c => consent_user_id c =? user_id user)
                                         (mapper_consents d)) ;;
  currentConsentBeatmapsets <-
    query (fun d => filter (fun c => cb_user_id c =? user_id user)
                           (mapper_consent_beatmapsets d)) ;;
  let currentConsentBeatmapsetIds := map cb_beatmapset_id currentConsentBeatmapsets in
  let newConsentBeatmapsetIds := map mcb_beatmapset_id newConsentBeatmapsets in
  let beatmapsetIdsAdded :=
    filter (fun id => negb (includes currentConsentBeatmapsetIds id)) newConsentBeatmapsetIds in
  let beatmapsetIdsRemoved :=
    filter (fun id => negb (includes newConsentBeatmapsetIds id)) currentConsentBeatmapsetIds in
  unresolved <- validateAdded beatmapsetIdsAdded ;;
  match unresolved with
  | Some beatmapsetId => ret (ErrorJson 404 (notFoundMessage beatmapsetId))
  | None =>
  transact (consentTransaction newConsent newConsentBeatmapsets (user_id user)
              currentConsent currentConsentBeatmapsets beatmapsetIdsRemoved) ;;;
  deleteCache "mapper-consents" ;;;
  deleteCache "submissions:mapper-consent-beatmapsets" ;;;
  deleteCache "submissions:mapper-consents" ;;;
  consent <- query_join (select_consent_with_mapper (mc_user_id newConsent)) ;;
  match consent with
  | None => throw "TypeError"
  | Some (consent, mapper) =>
      beatmapset_consents <-
        query_join (select_beatmapset_consents (mc_user_id newConsent)) ;;
      ret (Json (mkConsentJson consent mapper beatmapset_consents))
  end
  end
  end
  end
  end.

(** ** DELETE /review *)

Definition deleteReviewTransaction (beatmapset : Beatmapset) (review : Review)
  : Tx (DB := DB) (S := S) unit :=
  execute (SqlDelete t_reviews)
          (set_reviews (filter (fun r => negb (review_id r =? review_id review)))) ;;;
  dbLog (reviewDeleted (actor_id ctx) (beatmapset_id beatmapset) review (actor_id ctx)).

(** The argument is [parseInt(req.query.reviewId ?? '', 10)]: the integer
    read from the query string, [None] when it is [NaN]. *)
Definition delete_review (reviewId : option Z) : Tx (DB := DB) (S := S) (Response unit) :=
  match reviewId with
  | None => ret (ErrorJson 422 "Invalid review ID")
  | Some reviewId =>
  review <- query (select_review_by_id reviewId) ;;
  match review with
  | None => ret (ErrorJson 404 "Review not found")
  | Some review =>
  if negb (reviewer_id review =? actor_id ctx)
  then ret (ErrorJson 403 "This isn't your review")
  else
  beatmapset <- query_osu (fun s => select_beatmapset osu s (review_beatmapset_id review)) ;;
  match beatmapset with
  | None => throw "Missing beatmapset attached to review"
  | Some beatmapset =>
  transact (deleteReviewTransaction beatmapset review) ;;;
  deleteCache (reviewsCacheKey (review_game_mode review)) ;;;
  ret (Empty 204)
  end
  end
  end.

(** ** POST /review-many *)

(** [body_gameModes] is [None] when [isGameModeArray] (type-guards.ts)
    rejects the field. *)
Record ReviewManyBody := mkReviewManyBody {
  many_beatmapsetId : JsValue;
  many_gameModes : option (list Z);
  many_reason : JsValue;
  many_score : JsValue
}.

(** [new Set(array)]: the elements in the order of their first occurrence. *)
Fixpoint newSet (seen l : list Z) : list Z :=
  match l with
  | [] => []
  | x :: l' => if includes seen x then newSet seen l' else x :: newSet (x :: seen) l'
  end.

(** The set of the requested game modes after the [delete] of every game
    mode of the beatmapset. *)
Definition missingGameModes (requested available : list Z) : list Z :=
  filter (fun gameMode => negb (includes available gameMode)) (newSet [] requested).

Definition noBeatmapsMessage (missing : list Z) : string :=
  String.append "Beatmapset has no beatmaps in game mode "
                (String.concat ", " (map string_of_Z missing)).

(** SELECT * FROM submissions
    WHERE beatmapset_id = ? AND game_mode IN (?) AND reason IS NULL
      AND submitter_id = ? *)
Definition select_open_submissions (beatmapsetId : Z) (requested : list Z) (submitterId : Z)
  (d : DB) : list Submission :=
  filter (fun s => (submission_beatmapset_id s =? beatmapsetId)
                   && includes requested (submission_game_mode s)
                   && match submission_reason s with None => true | Some _ => false end
                   && (submitter_id s =? submitterId)) (submissions d).

(** One turn of the loop over the requested game modes. *)
Definition reviewGameMode (beatmapset : Beatmapset) (reason : string) (score gameMode : Z)
  : Tx (DB := DB) (S := S) unit :=
  existingReview <- query (select_review (beatmapset_id beatmapset) (actor_id ctx) gameMode) ;;
  match existingReview with
  | Some existingReview =>
      execute (SqlUpdate t_reviews)
              (update_review reason (now ctx) score (review_id existingReview)) ;;;
      newReview <- query (select_review_by_id (review_id existingReview)) ;;
      match newReview with
      | None => throw "Missing review immediately after update"
      | Some newReview =>
          if negb (String.eqb (review_reason existingReview) reason)
             || negb (review_score existingReview =? score)
          then dbLog (reviewUpdated (beatmapset_id beatmapset) existingReview newReview
                                    (actor_id ctx))
          else ret tt
      end
  | None =>
      insertId <- insert t_reviews
                    (insert_review (beatmapset_id beatmapset) gameMode reason (now ctx)
                                   (actor_id ctx) score) ;;
      newReview <- query (select_review_by_id insertId) ;;
      match newReview with
      | None => throw "Missing review immediately after create"
      | Some newReview =>
          dbLog (reviewCreated (beatmapset_id beatmapset) newReview (actor_id ctx))
      end
  end ;;;
  deleteCache (reviewsCacheKey gameMode).

Definition reviewManyTransaction (beatmapset : Beatmapset) (requested : list Z)
  (reason : string) (score : Z) (submissionsToDelete : list Submission)
  : Tx (DB := DB) (S := S) unit :=
  (if 0 <? Z.of_nat (List.length submissionsToDelete)
   then
     execute (SqlDelete t_submissions)
       (set_submissions
          (filter (fun s => negb (includes (map submission_id submissionsToDelete)
                                           (submission_id s))))) ;;;
     forEach submissionsToDelete (fun submission =>
       dbLog (submissionDeleted (actor_id ctx) (beatmapset_id beatmapset) submission
                                (actor_id ctx)))
   else ret tt) ;;;
  forEach requested (reviewGameMode beatmapset reason score).

Definition review_many (body : ReviewManyBody) : Tx (DB := DB) (S := S) (Response unit) :=
  match isInteger (many_beatmapsetId body) with
  | None => ret (ErrorJson 422 "Invalid beatmapset ID")
  | Some beatmapsetId =>
  match many_gameModes body with
  | None => ret (ErrorJson 422 "Invalid game modes")
  | Some requested =>
  if Z.of_nat (List.length requested) =? 0 then ret (ErrorJson 422 "No game modes selected") else
  match as_string (many_reason body) with
  | None => ret (ErrorJson 422 "Invalid reason")
  | Some reason =>
  match many_score body with
  | JInt score =>
  if negb (score =? 1) && negb (score =? 3) then ret (ErrorJson 422 "Invalid score") else
  beatmapset <- call (OsuBeatmapset beatmapsetId false)
                     (createOrRefreshBeatmapset osu beatmapsetId false) ;;
  match beatmapset with
  | None => ret (ErrorJson 422 "Invalid beatmapset ID")
  | Some beatmapset =>
  (* TODO: This should allow cases where the set is Loved but at least one
     difficulty in each requested mode is Pending/WIP/Graveyard *)
  if ranked_status beatmapset >? RankedStatus_pending
  then ret (ErrorJson 422 "Beatmapset is already Ranked/Loved/Qualified")
  else
  let missing := missingGameModes requested (game_modes beatmapset) in
  if 0 <? Z.of_nat (List.length missing)
  then ret (ErrorJson 422 (noBeatmapsMessage missing))
  else
  submissionsToDelete <-
    query (select_open_submissions (beatmapset_id beatmapset) requested (actor_id ctx)) ;;
  transact (reviewManyTransaction beatmapset requested reason score submissionsToDelete) ;;;
  ret (Empty 204)
  end
  | _ => ret (ErrorJson 422 "Invalid score")
  end
  end
  end
  end.

End Handlers.
End Anyone.

(** * router.ts *)

Module Router.

(** ** Tables *)

Inductive DescriptionState := notReviewed | reviewed.
Inductive MetadataState := unchecked | needsChange | good.

Definition MetadataState_eqb (a b : MetadataState) : bool :=
  match a, b with
  | unchecked, unchecked | needsChange, needsChange | good, good => true
  | _, _ => false
  end.

Definition DescriptionState_eqb (a b : DescriptionState) : bool :=
  match a, b with
  | notReviewed, notReviewed | reviewed, reviewed => true
  | _, _ => false
  end.

Record Nomination := mkNomination {
  nomination_id : Z;
  round_id : Z;
  game_mode : Z;
  nomination_beatmapset_id : Z;
  parent_id : option Z;
  order : Z;
  description : option string;
  description_author_id : option Z;
  description_state : DescriptionState;
  metadata_state : MetadataState;
  overwrite_artist : option string;
  overwrite_title : option string;
  moderator_state : Z
}.

Record NominationNominator := mkNominator {
  nominator_nomination_id : Z;
  nominator_id : Z
}.

Record NominationAssignee := mkAssignee {
  assignee_id : Z;
  assignee_nomination_id : Z;
  assignee_type : Z
}.

Record NominationExcludedBeatmap := mkExcluded {
  excluded_beatmap_id : Z;
  excluded_nomination_id : Z
}.

Record BeatmapsetCreator := mkCreator {
  creator_beatmapset_id : Z;
  creator_id : Z;
  creator_game_mode : Z
}.

Record Round := mkRound {
  id : Z;
  name : string;
  news_intro : option string;
  news_intro_preview : option string;
  news_outro : option string;
  news_posted_at : option Z;
  done : bool
}.

Record RoundGameMode := mkRoundGameMode {
  rgm_round_id : Z;
  rgm_game_mode : Z;
  voting_threshold : Z;
  nominations_locked : bool
}.

Record DB := mkDB {
  nominations : list Nomination;
  nominations_auto_increment : Z;
  nomination_nominators : list NominationNominator;
  nomination_assignees : list NominationAssignee;
  nomination_excluded_beatmaps : list NominationExcludedBeatmap;
  beatmapset_creators : list BeatmapsetCreator;
  rounds : list Round;
  rounds_auto_increment : Z;
  round_game_modes : list RoundGameMode
}.

Definition set_nominations (f : list Nomination -> list Nomination) (d : DB) : DB :=
  mkDB (f (nominations d)) (nominations_auto_increment d) (nomination_nominators d)
       (nomination_assignees d) (nomination_excluded_beatmaps d) (beatmapset_creators d)
       (rounds d) (rounds_auto_increment d) (round_game_modes d).

Definition set_nomination_nominators
  (f : list NominationNominator -> list NominationNominator) (d : DB) : DB :=
  mkDB (nominations d) (nominations_auto_increment d) (f (nomination_nominators d))
       (nomination_assignees d) (nomination_excluded_beatmaps d) (beatmapset_creators d)
       (rounds d) (rounds_auto_increment d) (round_game_modes d).

Definition set_nomination_assignees
  (f : list NominationAssignee -> list NominationAssignee) (d : DB) : DB :=
  mkDB (nominations d) (nominations_auto_increment d) (nomination_nominators d)
       (f (nomination_assignees d)) (nomination_excluded_beatmaps d) (beatmapset_creators d)
       (rounds d) (rounds_auto_increment d) (round_game_modes d).

Definition set_nomination_excluded_beatmaps
  (f : list NominationExcludedBeatmap -> list NominationExcludedBeatmap) (d : DB) : DB :=
  mkDB (nominations d) (nominations_auto_increment d) (nomination_nominators d)
       (nomination_assignees d) (f (nomination_excluded_beatmaps d)) (beatmapset_creators d)
       (rounds d) (rounds_auto_increment d) (round_game_modes d).

Definition set_beatmapset_creators
  (f : list BeatmapsetCreator -> list BeatmapsetCreator) (d : DB) : DB :=
  mkDB (nominations d) (nominations_auto_increment d) (nomination_nominators d)
       (nomination_assignees d) (nomination_excluded_beatmaps d) (f (beatmapset_creators d))
       (rounds d) (rounds_auto_increment d) (round_game_modes d).

Definition set_round_game_modes
  (f : list RoundGameMode -> list RoundGameMode) (d : DB) : DB :=
  mkDB (nominations d) (nominations_auto_increment d) (nomination_nominators d)
       (nomination_assignees d) (nomination_excluded_beatmaps d) (beatmapset_creators d)
       (rounds d) (rounds_auto_increment d) (f (round_game_modes d)).

(** ** The acting user *)

(** [authRoles(req, res)] of guards.ts, which is outside the sources at
    hand: the capabilities of the acting user. *)
Record Roles := mkRoles {
  roles_gameModes : Z -> bool;
  roles_metadata : bool;
  roles_moderator : bool;
  roles_news : bool
}.

(** [res.typedLocals.user] with [user.roles.god], what [authRoles] answers
    for the request, and [accessSetting] of settings.ts (not among the
    sources verified here as well). *)
Record Context := mkContext {
  actor_id : Z;
  god : bool;
  authRoles : Roles;
  accessSetting : string -> option Z
}.

Section Handlers.
Variable S : Type.
Variable osu : Collaborator S.
Variable ctx : Context.

(** SELECT ... FROM nominations WHERE id = ? *)
Definition select_nomination (nominationId : Z) (d : DB) : option Nomination :=
  find (fun n => nomination_id n =? nominationId) (nominations d).

(** ** POST /nomination-submit *)

Record SubmitBody := mkSubmitBody {
  submit_beatmapsetId : JsValue;
  submit_gameMode : JsValue;
  submit_parentId : option Z;
  submit_roundId : Z
}.

Record NominationJson := mkNominationJson {
  json_nomination : Nomination;
  json_beatmaps : list Beatmap;
  json_beatmapset : Beatmapset;
  json_beatmapset_creators : list User;
  json_nominators : list User
}.

(** [typeof x === 'number']; ids are integers in this model. *)
Definition as_number (v : JsValue) : option Z :=
  match v with JInt z => Some z | _ => None end.

(** SELECT 1 FROM nominations
    WHERE round_id = ? AND game_mode = ? AND beatmapset_id = ? *)
Definition select_duplicate (roundId gameMode beatmapsetId : Z) (d : DB) : option Nomination :=
  find (fun n => (round_id n =? roundId) && (game_mode n =? gameMode)
                 && (nomination_beatmapset_id n =? beatmapsetId)) (nominations d).

(** SELECT COUNT( * ) AS count FROM nominations
    WHERE round_id = ? AND game_mode = ? *)
Definition count_nominations (roundId gameMode : Z) (d : DB) : Z :=
  Z.of_nat (List.length (filter (fun n => (round_id n =? roundId) && (game_mode n =? gameMode))
                                (nominations d))).

(** Modelled from the spec: the column defaults of [nominations], whose
    schema is not among the sources verified here: no description, no author,
    description not reviewed, metadata and moderation unchecked, no
    overwrites. *)
Definition new_nomination (insertId beatmapsetId gameMode order_ : Z) (parentId : option Z)
  (roundId : Z) : Nomination :=
  mkNomination insertId roundId gameMode beatmapsetId parentId order_
               None None notReviewed unchecked None None 0.

(** INSERT INTO nominations SET ? *)
Definition insert_nomination (beatmapsetId gameMode order_ : Z) (parentId : option Z)
  (roundId : Z) (d : DB) : Z * DB :=
  let insertId := nominations_auto_increment d in
  (insertId,
   mkDB (nominations d ++ [new_nomination insertId beatmapsetId gameMode order_ parentId roundId])
        (insertId + 1) (nomination_nominators d) (nomination_assignees d)
        (nomination_excluded_beatmaps d) (beatmapset_creators d)
        (rounds d) (rounds_auto_increment d) (round_game_modes d)).

(** The users a list of ids joins with (INNER JOIN users). *)
Definition join_users (s : S) (ids : list Z) : list User :=
  flat_map (fun i => match select_user osu s i with Some u => [u] | None => [] end) ids.

(** SELECT users.* FROM beatmapset_creators
    INNER JOIN nominations ON ... INNER JOIN users ON ...
    WHERE nominations.id = ? *)
Definition select_creators (nominationId : Z) (s : S) (d : DB) : list User :=
  join_users s
    (flat_map (fun c =>
       map (fun _ => creator_id c)
           (filter (fun n => (nomination_id n =? nominationId)
                             && (creator_beatmapset_id c =? nomination_beatmapset_id n)
                             && (creator_game_mode c =? game_mode n))
                   (nominations d)))
       (beatmapset_creators d)).

(** SELECT users.* FROM nomination_nominators INNER JOIN users ON ...
    WHERE nomination_nominators.nomination_id = ? *)
Definition select_nominators (nominationId : Z) (s : S) (d : DB) : list User :=
  join_users s
    (map nominator_id
         (filter (fun r => nominator_nomination_id r =? nominationId)
                 (nomination_nominators d))).

Definition noBeatmapsMessage (gameMode : Z) : string :=
  String.append "Beatmapset has no beatmaps in game mode " (string_of_Z gameMode).

Definition submitTransaction (beatmapsetId gameMode nominationCount : Z)
  (parentId : option Z) (roundId : Z) : Tx (DB := DB) (S := S) Z :=
  nominationId <- insert t_nominations
                    (insert_nomination beatmapsetId gameMode nominationCount parentId roundId) ;;
  execute (SqlInsert t_nomination_nominators)
          (set_nomination_nominators
             (fun l => l ++ [mkNominator nominationId (actor_id ctx)])) ;;;
  ret nominationId.

Definition nomination_submit (body : SubmitBody)
  : Tx (DB := DB) (S := S) (Response NominationJson) :=
  match as_number (submit_beatmapsetId body) with
  | None => ret (ErrorJson 422 "Invalid beatmapset ID")
  | Some beatmapsetId =>
  match isGameMode (submit_gameMode body) with
  | None => ret (ErrorJson 422 "Invalid game mode")
  | Some gameMode =>
  parentOk <- match submit_parentId body with
              | Some parentId =>
                  parentNomination <- query (select_nomination parentId) ;;
                  ret (match parentNomination with Some _ => true | None => false end)
              | None => ret true
              end ;;
  if negb parentOk then ret (ErrorJson 422 "Invalid parent nomination ID") else
  beatmapset <- call (OsuBeatmapset beatmapsetId false)
                     (createOrRefreshBeatmapset osu beatmapsetId false) ;;
  match beatmapset with
  | None => ret (ErrorJson 422 "Invalid beatmapset ID")
  | Some beatmapset =>
  if negb (existsb (Z.eqb gameMode) (game_modes beatmapset))
  then ret (ErrorJson 422 (noBeatmapsMessage gameMode))
  else
  existingNomination <-
    query (select_duplicate (submit_roundId body) gameMode (beatmapset_id beatmapset)) ;;
  match existingNomination with
  | Some _ =>
      ret (ErrorJson 422 "Duplicate nomination. Refresh the page if you don't see it")
  | None =>
  nominationCount <- query (count_nominations (submit_roundId body) gameMode) ;;
  nominationId <- transact (submitTransaction (beatmapset_id beatmapset) gameMode
                                               nominationCount (submit_parentId body)
                                               (submit_roundId body)) ;;
  creators <- query_join (select_creators nominationId) ;;
  nomination <- query (select_nomination nominationId) ;;
  match nomination with
  | None => throw "TypeError"
  | Some nomination =>
      beatmaps <- query_osu (fun s => select_beatmaps osu s (nomination_beatmapset_id nomination)
                                                      gameMode) ;;
      nominators <- query_join (select_nominators nominationId) ;;
      ret (Json (mkNominationJson nomination beatmaps beatmapset creators nominators))
  end
  end
  end
  end
  end.

(** ** POST /nomination-edit-description *)

Record DescriptionBody := mkDescriptionBody {
  description_nominationId : Z;
  body_description : option string     (* [None] is null or undefined *)
}.

(** UPDATE nominations
    SET description = ?, description_author_id = ?, description_state = ?
    WHERE id = ? *)
Definition update_description (newDescription : option string) (author : option Z)
  (state : DescriptionState) (nominationId : Z) : DB -> DB :=
  set_nominations (map (fun n =>
    if nomination_id n =? nominationId
    then mkNomination (nomination_id n) (round_id n) (game_mode n)
           (nomination_beatmapset_id n) (parent_id n) (order n)
           newDescription author state
           (metadata_state n) (overwrite_artist n) (overwrite_title n) (moderator_state n)
    else n)).

(** SELECT nominations.*, description_authors:description_author
    FROM nominations LEFT JOIN users AS description_authors ON ...
    WHERE nominations.id = ? *)
Definition select_with_author (nominationId : Z) (s : S) (d : DB)
  : option (Nomination * option User) :=
  option_map (fun n => (n, match description_author_id n with
                           | Some a => select_user osu s a
                           | None => None
                           end))
             (select_nomination nominationId d).

Definition nomination_edit_description (body : DescriptionBody)
  : Tx (DB := DB) (S := S) (Response (option (Nomination * option User))) :=
  existingNomination <- query (select_nomination (description_nominationId body)) ;;
  match existingNomination with
  | None => ret (ErrorJson 422 "Invalid nomination ID")
  | Some existingNomination =>
  let prevDescription := description existingNomination in
  let prevAuthorId := description_author_id existingNomination in
  let prevState := description_state existingNomination in
  let gameMode := game_mode existingNomination in
  let roles := authRoles ctx in
  let nonNull {A} (o : option A) := match o with Some _ => true | None => false end in
  if negb (negb (DescriptionState_eqb prevState reviewed) && roles_gameModes roles gameMode)
     && negb (nonNull prevDescription && roles_news roles)
  then ret (Empty 403)
  else
  if negb (roles_gameModes roles gameMode) && negb (nonNull (body_description body))
  then ret (ErrorJson 403 "Can't remove description as editor")
  else
  execute (SqlUpdate t_nominations)
    (update_description
       (body_description body)
       (match body_description body with
        | None => None
        | Some _ => match prevDescription with
                    | None => Some (actor_id ctx)
                    | Some _ => prevAuthorId
                    end
        end)
       (if roles_news roles && nonNull prevDescription && nonNull (body_description body)
        then reviewed
        else notReviewed)
       (description_nominationId body)) ;;;
  nomination <- query_join (select_with_author (description_nominationId body)) ;;
  ret (Json nomination)
  end.

(** ** POST /nomination-edit-metadata *)

(** [req.body.creators] *)
Inductive CreatorsField :=
| creatorsAbsent
| creatorsNotStringArray
| creatorsArray (names : list string).

(** Modelled from the spec: [isStringArray] of type-guards.ts. *)
Definition isStringArray (f : CreatorsField) : option (list string) :=
  match f with creatorsArray names => Some names | _ => None end.

Record MetadataBody := mkMetadataBody {
  metadata_nominationId : Z;
  body_state : MetadataState;
  body_artist : option string;
  body_title : option string;
  body_creators : CreatorsField
}.

(** The answer: the three columns read first, over which [Object.assign]
    lays the row read again with its beatmapset, and the creators. *)
Record MetadataJson := mkMetadataJson {
  json_beatmapset_id : Z;
  json_game_mode : Z;
  json_metadata_state : MetadataState;
  json_assigned : option (Nomination * Beatmapset);
  json_creators : list User
}.

(** UPDATE nominations
    SET metadata_state = ?, overwrite_artist = ?, overwrite_title = ?
    WHERE id = ? *)
Definition update_metadata (state : MetadataState) (artist title : option string)
  (nominationId : Z) : DB -> DB :=
  set_nominations (map (fun n =>
    if nomination_id n =? nominationId
    then mkNomination (nomination_id n) (round_id n) (game_mode n)
           (nomination_beatmapset_id n) (parent_id n) (order n)
           (description n) (description_author_id n) (description_state n)
           state artist title (moderator_state n)
    else n)).

(** SELECT nominations.*, beatmapsets:beatmapset
    FROM nominations INNER JOIN beatmapsets ON ...
    WHERE nominations.id = ? *)
Definition select_with_beatmapset (nominationId : Z) (s : S) (d : DB)
  : option (Nomination * Beatmapset) :=
  match select_nomination nominationId d with
  | Some n => option_map (fun b => (n, b)) (select_beatmapset osu s (nomination_beatmapset_id n))
  | None => None
  end.

(** DELETE FROM beatmapset_creators WHERE beatmapset_id = ? AND game_mode = ? *)
Definition delete_creators (beatmapsetId gameMode : Z) : DB -> DB :=
  set_beatmapset_creators
    (filter (fun c => negb ((creator_beatmapset_id c =? beatmapsetId)
                            && (creator_game_mode c =? gameMode)))).

(** The loop that resolves the creators by name; what the collaborator does
    not find is pushed as null. *)
Fixpoint resolveCreators (names : list string) : Tx (DB := DB) (S := S) (list (option User)) :=
  match names with
  | [] => ret []
  | creatorName :: rest =>
      user <- call (OsuUser (ByName creatorName))
                   (createOrRefreshUser osu (ByName creatorName)) ;;
      users <- resolveCreators rest ;;
      ret (user :: users)
  end.

(** [creators.map((user) => [beatmapset_id, user.id, game_mode])] throws on
    a null creator. *)
Fixpoint creatorRows (beatmapsetId gameMode : Z) (creators : list (option User))
  : option (list BeatmapsetCreator) :=
  match creators with
  | [] => Some []
  | None :: _ => None
  | Some user :: rest =>
      option_map (cons (mkCreator beatmapsetId (user_id user) gameMode))
                 (creatorRows beatmapsetId gameMode rest)
  end.

Definition present {A} (l : list (option A)) : list A :=
  flat_map (fun o => match o with Some a => [a] | None => [] end) l.

(** The block under [if (roles.metadata)]. *)
Definition checkerUpdate (body : MetadataBody) (nomination : Nomination)
  : Tx (DB := DB) (S := S) unit :=
  if roles_metadata (authRoles ctx)
  then
    let isGood := MetadataState_eqb (body_state body) good in
    let artist := if isGood then None else body_artist body in
    let title := if isGood then None else body_title body in
    (if isGood && MetadataState_eqb (metadata_state nomination) needsChange
     then
       call (OsuBeatmapset (nomination_beatmapset_id nomination) true)
            (createOrRefreshBeatmapset osu (nomination_beatmapset_id nomination) true) ;;;
       ret tt
     else ret tt) ;;;
    execute (SqlUpdate t_nominations)
            (update_metadata (body_state body) artist title (metadata_nominationId body))
  else ret tt.

(** The block under
    [if (isStringArray(req.body.creators) && req.body.creators.length > 0)];
    it answers with [creators]. *)
Definition insertCreators (body : MetadataBody) (beatmapsetId gameMode : Z)
  : Tx (DB := DB) (S := S) (list (option User)) :=
  match isStringArray (body_creators body) with
  | Some (creatorName :: rest) =>
      creators <- resolveCreators (creatorName :: rest) ;;
      match creatorRows beatmapsetId gameMode creators with
      | None => throw "TypeError"
      | Some rows =>
          execute (SqlInsert t_beatmapset_creators)
                  (set_beatmapset_creators (fun l => l ++ rows)) ;;;
          ret creators
      end
  | _ => ret []
  end.

Definition metadataTransaction (body : MetadataBody) (nomination : Nomination)
  : Tx (DB := DB) (S := S) (Response MetadataJson) :=
  checkerUpdate body nomination ;;;
  assigned <- query_join (select_with_beatmapset (metadata_nominationId body)) ;;
  (* Object.assign(nomination, assigned) *)
  let beatmapsetId := match assigned with
                      | Some (n, _) => nomination_beatmapset_id n
                      | None => nomination_beatmapset_id nomination
                      end in
  let gameMode := match assigned with
                  | Some (n, _) => game_mode n
                  | None => game_mode nomination
                  end in
  let metadataState := match assigned with
                       | Some (n, _) => metadata_state n
                       | None => metadata_state nomination
                       end in
  execute (SqlDelete t_beatmapset_creators) (delete_creators beatmapsetId gameMode) ;;;
  creators <- insertCreators body beatmapsetId gameMode ;;
  ret (Json (mkMetadataJson beatmapsetId gameMode metadataState assigned (present creators))).

Definition nomination_edit_metadata (body : MetadataBody)
  : Tx (DB := DB) (S := S) (Response MetadataJson) :=
  let roles := authRoles ctx in
  if negb (roles_metadata roles) && negb (roles_news roles)
  then ret (ErrorJson 403 "Must be a metadata checker or news author")
  else
  nomination <- query (select_nomination (metadata_nominationId body)) ;;
  match nomination with
  | None => ret (ErrorJson 422 "Invalid nomination ID")
  | Some nomination => transact (metadataTransaction body nomination)
  end.

(** ** DELETE /nomination *)

(** SELECT 1 FROM nomination_nominators
    WHERE nomination_id = ? AND nominator_id = ? *)
Definition select_nominator (nominationId nominatorId : Z) (d : DB) : option NominationNominator :=
  find (fun r => (nominator_nomination_id r =? nominationId) && (nominator_id r =? nominatorId))
       (nomination_nominators d).

(** DELETE FROM nomination_assignees WHERE nomination_id = ? *)
Definition delete_assignees (nominationId : Z) : DB -> DB :=
  set_nomination_assignees (filter (fun r => negb (assignee_nomination_id r =? nominationId))).

(** DELETE FROM nomination_excluded_beatmaps WHERE nomination_id = ? *)
Definition delete_excluded_beatmaps (nominationId : Z) : DB -> DB :=
  set_nomination_excluded_beatmaps
    (filter (fun r => negb (excluded_nomination_id r =? nominationId))).

(** DELETE FROM nomination_nominators WHERE nomination_id = ? *)
Definition delete_nominators (nominationId : Z) : DB -> DB :=
  set_nomination_nominators (filter (fun r => negb (nominator_nomination_id r =? nominationId))).

(** DELETE FROM nominations WHERE id = ? *)
Definition delete_nomination_row (nominationId : Z) : DB -> DB :=
  set_nominations (filter (fun n => negb (nomination_id n =? nominationId))).

Definition deleteTransaction (nominationId : Z) : Tx (DB := DB) (S := S) unit :=
  execute (SqlDelete t_nomination_assignees) (delete_assignees nominationId) ;;;
  execute (SqlDelete t_nomination_excluded_beatmaps) (delete_excluded_beatmaps nominationId) ;;;
  execute (SqlDelete t_nomination_nominators) (delete_nominators nominationId) ;;;
  execute (SqlDelete t_nominations) (delete_nomination_row nominationId).

(** [req.query.nominationId] is the text of a number; it is compared with
    the integer keys as the number it spells. *)
Definition delete_nomination (nominationId : Z) : Tx (DB := DB) (S := S) (Response unit) :=
  allowed <- (if negb (god ctx)
              then
                nominator <- query (select_nominator nominationId (actor_id ctx)) ;;
                ret (match nominator with Some _ => true | None => false end)
              else ret true) ;;
  if negb allowed then ret (Empty 403) else
  transact (deleteTransaction nominationId) ;;;
  ret (Empty 204).

(** ** POST /add-round *)

(** Modelled from the spec: the [isNewsAuthor] guard of guards.ts
    ("news-capability only"); the answer of the guard is taken to be an
    empty 403. *)
Definition isNewsAuthor {A} (next : Tx (DB := DB) (S := S) (Response A))
  : Tx (DB := DB) (S := S) (Response A) :=
  if roles_news (authRoles ctx) then next else ret (Empty 403).

(** Modelled from the spec: the column defaults of [rounds], whose schema is
    not among the sources verified here: no news texts, not done. *)
Definition new_round (insertId : Z) (roundName : string) : Round :=
  mkRound insertId roundName None None None None false.

(** INSERT INTO rounds SET name = 'Unnamed round' *)
Definition insert_round (d : DB) : Z * DB :=
  let insertId := rounds_auto_increment d in
  (insertId,
   mkDB (nominations d) (nominations_auto_increment d) (nomination_nominators d)
        (nomination_assignees d) (nomination_excluded_beatmaps d) (beatmapset_creators d)
        (rounds d ++ [new_round insertId "Unnamed round"]) (insertId + 1)
        (round_game_modes d)).

Definition thresholdSetting (gameMode : Z) : string :=
  String.append "defaultVotingThreshold." (string_of_Z gameMode).

(** [accessSetting(...) ?? 0] *)
Definition defaultVotingThreshold (gameMode : Z) : Z :=
  match accessSetting ctx (thresholdSetting gameMode) with
  | Some threshold => threshold
  | None => 0
  end.

(** INSERT INTO round_game_modes SET ?; [nominations_locked] takes its
    column default. *)
Definition insert_round_game_mode (gameMode roundId threshold : Z) : DB -> DB :=
  set_round_game_modes (fun l => l ++ [mkRoundGameMode roundId gameMode threshold false]).

Definition addRoundTransaction : Tx (DB := DB) (S := S) (Response Z) :=
  insertId <- insert t_rounds insert_round ;;
  forEach [0; 1; 2; 3] (fun gameMode =>
    (* TODO: 1 query instead of 4 *)
    execute (SqlInsert t_round_game_modes)
            (insert_round_game_mode gameMode insertId (defaultVotingThreshold gameMode))) ;;;
  ret (Json insertId).

Definition add_round : Tx (DB := DB) (S := S) (Response Z) :=
  isNewsAuthor (transact addRoundTransaction).

(** ** GET /rounds *)

Record RoundJson := mkRoundJson {
  json_round : Round;
  nomination_count : Z
}.

Record RoundsJson := mkRoundsJson {
  complete_rounds : list RoundJson;
  incomplete_rounds : list RoundJson
}.

(** ORDER BY rounds.id ASC *)
Fixpoint insert_by_id (r : Round) (sorted : list Round) : list Round :=
  match sorted with
  | [] => [r]
  | r' :: rest => if id r <=? id r' then r :: sorted else r' :: insert_by_id r rest
  end.

Definition order_by_id (l : list Round) : list Round :=
  fold_right insert_by_id [] l.

(** SELECT rounds.*, IFNULL(nomination_counts.count, 0) AS nomination_count
    FROM rounds
    LEFT JOIN (SELECT COUNT( * ) AS count, round_id FROM nominations
               GROUP BY round_id) AS nomination_counts
      ON rounds.id = nomination_counts.round_id
    ORDER BY rounds.id ASC *)
Definition select_rounds (d : DB) : list RoundJson :=
  map (fun r => mkRoundJson r
         (Z.of_nat (List.length (filter (fun n => round_id n =? id r) (nominations d)))))
      (order_by_id (rounds d)).

Definition get_rounds : Tx (DB := DB) (S := S) (Response RoundsJson) :=
  rounds <- query select_rounds ;;
  ret (Json (mkRoundsJson
               (rev (filter (fun round => done (json_round round)) rounds))
               (filter (fun round => negb (done (json_round round))) rounds))).

(** ** The route guards *)

(** Modelled from the spec: the [isModerator] guard of guards.ts, which is
    outside the sources at hand ("requires moderator capability"); it tests
    the moderator capability of [authRoles], as [isNewsAuthor] tests the news
    capability.  A failed capability check is "Forbidden", "reported before
    any mutation is attempted": the answer of the guard is taken to be an
    empty 403. *)
Definition isModerator {A} (next : Tx (DB := DB) (S := S) (Response A))
  : Tx (DB := DB) (S := S) (Response A) :=
  if roles_moderator (authRoles ctx) then next else ret (Empty 403).

(** Modelled from the spec: the [isCaptain] guard of guards.ts
    ("captain-only"); it tests the captain role of the acting user, the
    [user.roles.captain] that POST /review of this file reads.  The context
    of the nomination routes does not hold that role, so the guarded handlers
    take it as [captain].  A failed capability check is "Forbidden",
    "reported before any mutation is attempted": the answer of the guard is
    taken to be an empty 403. *)
Definition isCaptain {A} (captain : bool) (next : Tx (DB := DB) (S := S) (Response A))
  : Tx (DB := DB) (S := S) (Response A) :=
  if captain then next else ret (Empty 403).

(** ** POST /nomination-edit-moderation *)

Record ModerationBody := mkModerationBody {
  moderation_nominationId : Z;
  moderation_state : Z
}.

(** [{ id, moderator_state }] *)
Record ModerationJson := mkModerationJson {
  json_id : Z;
  json_moderator_state : Z
}.

(** UPDATE nominations SET moderator_state = ? WHERE id = ? *)
Definition update_moderation (state nominationId : Z) : DB -> DB :=
  set_nominations (map (fun n =>
    if nomination_id n =? nominationId
    then mkNomination (nomination_id n) (round_id n) (game_mode n)
           (nomination_beatmapset_id n) (parent_id n) (order n)
           (description n) (description_author_id n) (description_state n)
           (metadata_state n) (overwrite_artist n) (overwrite_title n) state
    else n)).

Definition nomination_edit_moderation (body : ModerationBody)
  : Tx (DB := DB) (S := S) (Response ModerationJson) :=
  isModerator (
    execute (SqlUpdate t_nominations)
            (update_moderation (moderation_state body) (moderation_nominationId body)) ;;;
    ret (Json (mkModerationJson (moderation_nominationId body) (moderation_state body)))).

(** ** POST /update-nomination-order

    The body is an object from nomination ids to orders; [Object.entries]
    lists its entries, whose keys are distinct, and the queries reach the
    connection in that order. *)

(** UPDATE nominations SET `order` = ? WHERE id = ? *)
Definition update_order (order_ nominationId : Z) : DB -> DB :=
  set_nominations (map (fun n =>
    if nomination_id n =? nominationId
    then mkNomination (nomination_id n) (round_id n) (game_mode n)
           (nomination_beatmapset_id n) (parent_id n) order_
           (description n) (description_author_id n) (description_state n)
           (metadata_state n) (overwrite_artist n) (overwrite_title n) (moderator_state n)
    else n)).

Definition update_nomination_order (captain : bool) (entries : list (Z * Z))
  : Tx (DB := DB) (S := S) (Response unit) :=
  isCaptain captain (
    transact (forEach entries (fun entry =>
      let '(nominationId, order_) := entry in
      execute (SqlUpdate t_nominations) (update_order order_ nominationId))) ;;;
    ret (Empty 204)).

(** ** POST /update-nominators *)

(** A body field that should be an array of numbers. *)
Inductive IdsField :=
| idsAbsent
| idsNotNumberArray
| idsArray (ids : list Z).

(** Modelled from the spec: [isNumberArray] of type-guards.ts. *)
Definition isNumberArray (f : IdsField) : option (list Z) :=
  match f with idsArray ids => Some ids | _ => None end.

Record NominatorsBody := mkNominatorsBody {
  nominators_nominationId : Z;
  body_nominatorIds : IdsField
}.

(** [{ id, nominators }] *)
Record NominatorsJson := mkNominatorsJson {
  json_nominators_id : Z;
  json_nominators_list : list User
}.

Definition updateNominatorsTransaction (body : NominatorsBody) : Tx (DB := DB) (S := S) unit :=
  execute (SqlDelete t_nomination_nominators)
          (delete_nominators (nominators_nominationId body)) ;;;
  match isNumberArray (body_nominatorIds body) with
  | Some (nominatorId :: rest) =>
      execute (SqlInsert t_nomination_nominators)
        (set_nomination_nominators
           (fun l => l ++ map (fun i => mkNominator (nominators_nominationId body) i)
                              (nominatorId :: rest)))
  | _ => ret tt
  end.

Definition update_nominators (captain : bool) (body : NominatorsBody)
  : Tx (DB := DB) (S := S) (Response NominatorsJson) :=
  isCaptain captain (
    transact (updateNominatorsTransaction body) ;;;
    nominators <- query_join (select_nominators (nominators_nominationId body)) ;;
    ret (Json (mkNominatorsJson (nominators_nominationId body) nominators))).

(** ** POST /lock-nominations *)

Record LockBody := mkLockBody {
  lock_gameMode : JsValue;
  lock_roundId : Z;
  body_lock : bool
}.

(** UPDATE round_game_modes SET nominations_locked = ?
    WHERE round_id = ? AND game_mode = ? *)
Definition set_locked (lock : bool) (roundId gameMode : Z) : DB -> DB :=
  set_round_game_modes (map (fun m =>
    if (rgm_round_id m =? roundId) && (rgm_game_mode m =? gameMode)
    then mkRoundGameMode (rgm_round_id m) (rgm_game_mode m) (voting_threshold m) lock
    else m)).

Definition lock_nominations (body : LockBody) : Tx (DB := DB) (S := S) (Response unit) :=
  match isGameMode (lock_gameMode body) with
  | None => ret (ErrorJson 422 "Invalid game mode")
  | Some gameMode =>
  let roles := authRoles ctx in
  if negb (roles_news roles) && negb (roles_gameModes roles gameMode)
  then ret (ErrorJson 403 "Must be a news author or captain for this game mode")
  else
  execute (SqlUpdate t_round_game_modes)
          (set_locked (body_lock body) (lock_roundId body) gameMode) ;;;
  ret (Empty 204)
  end.

(** ** POST /update-excluded-beatmaps *)

Record ExcludedBody := mkExcludedBody {
  excluded_nominationId : Z;
  body_excludedBeatmapIds : IdsField
}.

Definition updateExcludedTransaction (body : ExcludedBody) : Tx (DB := DB) (S := S) unit :=
  execute (SqlDelete t_nomination_excluded_beatmaps)
          (delete_excluded_beatmaps (excluded_nominationId body)) ;;;
  match isNumberArray (body_excludedBeatmapIds body) with
  | Some (beatmapId :: rest) =>
      execute (SqlInsert t_nomination_excluded_beatmaps)
        (set_nomination_excluded_beatmaps
           (fun l => l ++ map (fun i => mkExcluded i (excluded_nominationId body))
                              (beatmapId :: rest)))
  | _ => ret tt
  end.

Definition update_excluded_beatmaps (captain : bool) (body : ExcludedBody)
  : Tx (DB := DB) (S := S) (Response unit) :=
  isCaptain captain (
    transact (updateExcludedTransaction body) ;;;
    ret (Empty 204)).

(** ** POST /update-nomination-assignees *)

(** [AssigneeType]: GET /nominations reads type 0 as the metadata assignees
    and type 1 as the moderator assignees. *)
Definition AssigneeType_metadata : Z := 0.
Definition AssigneeType_moderator : Z := 1.

(** Modelled from the spec: [isAssigneeType] of type-guards.ts. *)
Definition isAssigneeType (v : JsValue) : option Z :=
  match v with
  | JInt z => if (z =? AssigneeType_metadata) || (z =? AssigneeType_moderator)
              then Some z else None
  | _ => None
  end.

(** [types[req.body.type]] *)
Definition typeString (type : Z) : string :=
  if type =? AssigneeType_metadata then "metadata" else "moderator".

(** [roles[typeString]] *)
Definition hasTypeRole (roles : Roles) (type : Z) : bool :=
  if type =? AssigneeType_metadata then roles_metadata roles else roles_moderator roles.

Record AssigneesBody := mkAssigneesBody {
  assignees_nominationId : Z;
  body_type : JsValue;
  body_assigneeIds : IdsField
}.

(** [{ id, metadata_assignees }] or [{ id, moderator_assignees }] *)
Record AssigneesJson := mkAssigneesJson {
  json_assignees_id : Z;
  json_assignees_key : string;
  json_assignees_list : list User
}.

(** DELETE FROM nomination_assignees WHERE nomination_id = ? AND type = ? *)
Definition delete_assignees_of_type (nominationId type : Z) : DB -> DB :=
  set_nomination_assignees
    (filter (fun r => negb ((assignee_nomination_id r =? nominationId)
                            && (assignee_type r =? type)))).

Definition updateAssigneesTransaction (nominationId type : Z) (assigneeIds : IdsField)
  : Tx (DB := DB) (S := S) unit :=
  execute (SqlDelete t_nomination_assignees) (delete_assignees_of_type nominationId type) ;;;
  match isNumberArray assigneeIds with
  | Some (assigneeId :: rest) =>
      execute (SqlInsert t_nomination_assignees)
        (set_nomination_assignees
           (fun l => l ++ map (fun i => mkAssignee i nominationId type) (assigneeId :: rest)))
  | _ => ret tt
  end.

(** SELECT users.* FROM nomination_assignees INNER JOIN users ON ...
    WHERE nomination_assignees.nomination_id = ?
      AND nomination_assignees.type = ? *)
Definition select_assignees (nominationId type : Z) (s : S) (d : DB) : list User :=
  join_users s
    (map assignee_id
         (filter (fun r => (assignee_nomination_id r =? nominationId)
                           && (assignee_type r =? type))
                 (nomination_assignees d))).

Definition update_nomination_assignees (body : AssigneesBody)
  : Tx (DB := DB) (S := S) (Response AssigneesJson) :=
  match isAssigneeType (body_type body) with
  | None => ret (ErrorJson 422 "Invalid assignee type")
  | Some type =>
  let roles := authRoles ctx in
  if negb (roles_news roles) && negb (hasTypeRole roles type)
  then ret (ErrorJson 403 (String.append "Must have "
                             (String.append (typeString type) " or news role")))
  else
  transact (updateAssigneesTransaction (assignees_nominationId body) type
                                       (body_assigneeIds body)) ;;;
  assignees <- query_join (select_assignees (assignees_nominationId body) type) ;;
  ret (Json (mkAssigneesJson (assignees_nominationId body)
                             (String.append (typeString type) "_assignees") assignees))
  end.

End Handlers.
End Router.

(** * router.ts: the review routes of the captains

    The two routes of router.ts that work on the [reviews] table of
    routers/anyone.ts; they write no log and keep no transaction.  Numbers
    are integers in this model, as the ids and scores of the tables are. *)

Module RouterReviews.

(** [res.typedLocals.user] with [user.roles.captain], the game modes of
    [authRoles(req, res)] (guards.ts) and the clock read by [new Date()]. *)
Record Context := mkContext {
  actor_id : Z;
  roles_captain : bool;
  roles_gameModes : Z -> bool;
  now : Z
}.

Section Handlers.
Variable S : Type.
Variable osu : Collaborator S.
Variable ctx : Context.

(** ** POST /review *)

(** The body fields as the [typeof] tests of the handler see them: [None]
    is a beatmapset id, game mode or score that is not a number, and a reason
    that is not a string. *)
Record ReviewBody := mkReviewBody {
  body_beatmapsetId : option Z;
  body_gameMode : option Z;
  body_reason : option string;
  body_score : option Z
}.

Definition review (body : ReviewBody)
  : Tx (DB := Anyone.DB) (S := S) (Response (option Anyone.Review)) :=
  match body_beatmapsetId body with
  | None => ret (ErrorJson 422 "Invalid beatmapset ID")
  | Some beatmapsetId =>
  match body_gameMode body with
  | None => ret (ErrorJson 422 "Invalid game mode")
  | Some gameMode =>
  if (gameMode <? 0) || (gameMode >? 3) then ret (ErrorJson 422 "Invalid game mode") else
  match body_reason body with
  | None => ret (ErrorJson 422 "Invalid reason")
  | Some reason =>
  match body_score body with
  | None => ret (ErrorJson 422 "Invalid score")
  | Some score =>
  if (score =? 0) || (score <? -4) || (score >? 3) then ret (ErrorJson 422 "Invalid score") else
  if negb (roles_gameModes ctx gameMode) then ret (Empty 403) else
  (* TODO: Not dumb workaround for God role *)
  if (score >=? -3) && negb (roles_captain ctx) then ret (Empty 403) else
  existingReview <- query (Anyone.select_review beatmapsetId (actor_id ctx) gameMode) ;;
  match existingReview with
  | Some existingReview =>
      execute (SqlUpdate t_reviews)
              (Anyone.update_review reason (now ctx) score (Anyone.review_id existingReview)) ;;;
      review <- query (Anyone.select_review_by_id (Anyone.review_id existingReview)) ;;
      ret (Json review)
  | None =>
      beatmapset <- call (OsuBeatmapset beatmapsetId false)
                         (createOrRefreshBeatmapset osu beatmapsetId false) ;;
      match beatmapset with
      | None => ret (ErrorJson 422 "Invalid beatmapset ID")
      | Some beatmapset =>
          if negb (existsb (Z.eqb gameMode) (game_modes beatmapset))
          then ret (ErrorJson 422 (Router.noBeatmapsMessage gameMode))
          else
            insertId <- insert t_reviews
                          (Anyone.insert_review beatmapsetId gameMode reason (now ctx)
                                                (actor_id ctx) score) ;;
            review <- query (Anyone.select_review_by_id insertId) ;;
            ret (Json review)
      end
  end
  end
  end
  end
  end.

(** ** DELETE /review

    [req.query.reviewId] is the text of a number and is compared with the
    integer keys as the number it spells. *)

(** Modelled from the spec: the [isCaptain] guard of guards.ts, which is
    outside the sources at hand ("captain capability"); it tests the captain
    role of the acting user.  A failed capability check is "Forbidden",
    "reported before any mutation is attempted": the answer of the guard is
    taken to be an empty 403. *)
Definition isCaptain {A} (next : Tx (DB := Anyone.DB) (S := S) (Response A))
  : Tx (DB := Anyone.DB) (S := S) (Response A) :=
  if roles_captain ctx then next else ret (Empty 403).

Definition delete_review (reviewId : Z) : Tx (DB := Anyone.DB) (S := S) (Response unit) :=
  isCaptain (
    review <- query (Anyone.select_review_by_id reviewId) ;;
    match review with
    | None => ret (ErrorJson 404 "Review not found")
    | Some review =>
        if negb (Anyone.reviewer_id review =? actor_id ctx)
        then ret (ErrorJson 403 "This isn't your review")
        else
          execute (SqlDelete t_reviews)
                  (Anyone.set_reviews
                     (filter (fun r => negb (Anyone.review_id r =? reviewId)))) ;;;
          ret (Empty 204)
    end).

End Handlers.
End RouterReviews.

(** * Vocabulary of the statements *)

Unset Implicit Arguments.

(** ** An example deployment

    A collaborator without a store of its own: [remote] is what the osu! API
    resolves, [cached] and [users] are the rows of the tables it maintains. *)
Definition example_osu (remote cached : list Beatmapset) (users : list User)
  : Collaborator unit :=
  mkCollaborator
    (fun beatmapsetId _ s => (find (fun b => beatmapset_id b =? beatmapsetId) remote, s))
    (fun key s =>
       (match key with
        | ById userId => find (fun u => user_id u =? userId) users
        | ByName userName => find (fun u => String.eqb (user_name u) userName) users
        end, s))
    (fun _ beatmapsetId => find (fun b => beatmapset_id b =? beatmapsetId) cached)
    (fun _ userId => find (fun u => user_id u =? userId) users)
    (fun _ _ _ => []).

Definition example_users : list User := [mkUser 7 "mapper"; mkUser 8 "captain"].

Definition example_beatmapset : Beatmapset := mkBeatmapset 100 0 [0; 3].

(** ** POST /review *)
Definition stored_score (ctx : Anyone.Context) (body : Anyone.ReviewBody) (d : Anyone.DB)
  : option Z :=
  match isInteger (Anyone.body_beatmapsetId body), isGameMode (Anyone.body_gameMode body) with
  | Some beatmapsetId, Some gameMode =>
      option_map Anyone.review_score
        (Anyone.select_review beatmapsetId (Anyone.actor_id ctx) gameMode d)
  | _, _ => None
  end.

(** The beatmapset checks of POST /review pass: the forced refresh resolves
    the beatmapset, its status is not beyond pending and it has beatmaps in
    the game mode. *)
Definition beatmapset_eligible {S} (osu : Collaborator S) (s : S) (beatmapsetId gameMode : Z)
  (beatmapset : Beatmapset) : Prop :=
  fst (createOrRefreshBeatmapset osu beatmapsetId true s) = Some beatmapset
  /\ ranked_status beatmapset <= RankedStatus_pending
  /\ In gameMode (game_modes beatmapset).

(** What the audit log gains on the update path of POST /review. *)
Definition update_audit (ctx : Anyone.Context) (beatmapset : Beatmapset)
  (existingReview newReview : Anyone.Review) (d : Anyone.DB) : list Anyone.LogEntry :=
  (if negb (String.eqb (Anyone.review_reason existingReview) (Anyone.review_reason newReview))
      || negb (Anyone.review_score existingReview =? Anyone.review_score newReview)
   then [Anyone.reviewUpdated (beatmapset_id beatmapset) existingReview newReview
                              (Anyone.actor_id ctx)]
   else [])
  ++ match Anyone.select_open_submission (Anyone.review_beatmapset_id existingReview)
             (Anyone.review_game_mode existingReview) (Anyone.actor_id ctx) d with
     | Some submission =>
         [Anyone.submissionDeleted (Anyone.actor_id ctx) (beatmapset_id beatmapset) submission
                                   (Anyone.actor_id ctx)]
     | None => []
     end.

(** A reviewer without roles who holds a review of score 2 and sends it
    again. *)
Definition review_ctx : Anyone.Context :=
  Anyone.mkContext 7 [] (fun _ _ => false) 60.

Definition review_world : World Anyone.DB unit :=
  mkWorld (Anyone.mkDB [] [] [Anyone.mkReview 1 100 0 "nice" 50 7 2] 2 [] []) tt [].

Definition review_body : Anyone.ReviewBody :=
  Anyone.mkReviewBody (JInt 100) (JInt 0) (JString "nice") (JInt 2).

(** ** POST /mapper-consent *)




(** A computation only adds to the trace. *)
Definition extends {DB S A} (m : Tx (DB := DB) (S := S) A) : Prop :=
  forall w, exists evs, trace (snd (m w)) = trace w ++ evs.

(** A mapper with a consent row for beatmapset 100, which the osu! API no
    longer resolves although its row is still cached. *)
Definition consent_ctx : Anyone.Context :=
  Anyone.mkContext 7 [] (fun _ _ => false) 60.

Definition consent_world : World Anyone.DB unit :=
  mkWorld (Anyone.mkDB [Anyone.mkConsent 7 (Some Anyone.yes) None 10 7]
                       [Anyone.mkConsentBeatmapset 100 7 true None]
                       [] 1 [] [])
          tt [].

Definition consent_body (requested : list Anyone.MapperConsentBeatmapset) : Anyone.ConsentBody :=
  Anyone.mkConsentBody (Some (Anyone.mkMapperConsent 7 (Some Anyone.yes) None))
                       (Some requested).

Definition stale_osu : Collaborator unit :=
  example_osu [mkBeatmapset 200 0 [0]] [example_beatmapset] example_users.


(** The mapper keeps beatmapset 100 and adds 200, which the osu! API
    resolves, and 300 and 400, which it does not. *)
Definition validated_request : list Anyone.MapperConsentBeatmapset :=
  [Anyone.mkMapperConsentBeatmapset 100 true None;
   Anyone.mkMapperConsentBeatmapset 200 true None;
   Anyone.mkMapperConsentBeatmapset 300 true None;
   Anyone.mkMapperConsentBeatmapset 400 true None].

(** ** The nomination routes *)

(** No row of the three tables that hang off a nomination names
    [nominationId]. *)
Definition unreferenced (nominationId : Z) (d : Router.DB) : Prop :=
  (forall r, In r (Router.nomination_assignees d) ->
             Router.assignee_nomination_id r <> nominationId)
  /\ (forall r, In r (Router.nomination_excluded_beatmaps d) ->
                Router.excluded_nomination_id r <> nominationId)
  /\ (forall r, In r (Router.nomination_nominators d) ->
                Router.nominator_nomination_id r <> nominationId).

Definition router_ctx (actor : Z) (isGod news metadata : bool) : Router.Context :=
  Router.mkContext actor isGod
    (Router.mkRoles (fun gameMode => gameMode =? 0) metadata false news)
    (fun key => if String.eqb key "defaultVotingThreshold.3" then Some 25 else None).

Definition example_nomination : Router.Nomination :=
  Router.mkNomination 5 1 0 100 None 0 (Some "old text") (Some 9) Router.notReviewed
                      Router.needsChange (Some "Artist") (Some "Title") 0.

Definition router_world : World Router.DB unit :=
  mkWorld (Router.mkDB [example_nomination] 6
                       [Router.mkNominator 5 7; Router.mkNominator 4 7]
                       [Router.mkAssignee 8 5 0]
                       [Router.mkExcluded 1000 5]
                       [Router.mkCreator 100 7 0; Router.mkCreator 100 8 3]
                       [Router.mkRound 1 "Round 1" None None None None false] 2
                       [])
          tt [].

Definition router_osu : Collaborator unit :=
  example_osu [example_beatmapset; mkBeatmapset 101 0 [0]; mkBeatmapset 102 0 [0]]
              [example_beatmapset] example_users.

(** What the block of the metadata checker adds to the trace. *)
Definition checker_events (body : Router.MetadataBody) (nomination : Router.Nomination)
  : list Event :=
  (if Router.MetadataState_eqb (Router.body_state body) Router.good
      && Router.MetadataState_eqb (Router.metadata_state nomination) Router.needsChange
   then [OsuBeatmapset (Router.nomination_beatmapset_id nomination) true]
   else [])
  ++ [SqlUpdate t_nominations].

(** A creator credit of the beatmapset and game mode of a nomination. *)
Definition credits (nomination : Router.Nomination) (c : Router.BeatmapsetCreator) : Prop :=
  Router.creator_beatmapset_id c = Router.nomination_beatmapset_id nomination
  /\ Router.creator_game_mode c = Router.game_mode nomination.

(** The [AUTO_INCREMENT] key of [nominations] is beyond every key in use. *)
Definition nominations_fresh (d : Router.DB) : Prop :=
  forall n, In n (Router.nominations d) ->
            Router.nomination_id n < Router.nominations_auto_increment d.

(** The [AUTO_INCREMENT] key of [rounds] is beyond the id of every round
    and of every row of [round_game_modes]: POST /add-round is the one route
    that inserts into either table, and it takes the ids from the key. *)
Definition rounds_fresh (d : Router.DB) : Prop :=
  (forall r, In r (Router.rounds d) -> Router.id r < Router.rounds_auto_increment d)
  /\ (forall m, In m (Router.round_game_modes d) ->
                Router.rgm_round_id m < Router.rounds_auto_increment d).

(** Two nominations for round 1 and game mode 0, the deletion of the first
    of them, and a third nomination, all by user 7. *)
Definition submit_body (beatmapsetId : Z) : Router.SubmitBody :=
  Router.mkSubmitBody (JInt beatmapsetId) (JInt 0) None 1.

Definition nominator_ctx : Router.Context := router_ctx 7 false false false.

Definition first_submit :=
  Eval vm_compute in
    handle (Router.nomination_submit router_osu nominator_ctx (submit_body 101)) router_world.
Definition second_submit :=
  Eval vm_compute in
    handle (Router.nomination_submit router_osu nominator_ctx (submit_body 102))
           (snd first_submit).
Definition first_deleted :=
  Eval vm_compute in handle (Router.delete_nomination nominator_ctx 6) (snd second_submit).
Definition third_submit :=
  Eval vm_compute in
    handle (Router.nomination_submit router_osu nominator_ctx (submit_body 101))
           (snd first_deleted).

Definition submitted_order (r : Response Router.NominationJson) : option Z :=
  option_map (fun j => Router.order (Router.json_nomination j)) (json_of r).

Definition description_body (text : option string) : Router.DescriptionBody :=
  Router.mkDescriptionBody 5 text.

Definition metadata_body (creators : Router.CreatorsField) : Router.MetadataBody :=
  Router.mkMetadataBody 5 Router.good (Some "Other artist") (Some "Other title") creators.

(** ** Vocabulary of the further properties *)

(** The key by which POST /review looks for the review to update. *)
Definition review_key (r : Anyone.Review) : Z * Z * Z :=
  (Anyone.review_beatmapset_id r, Anyone.reviewer_id r, Anyone.review_game_mode r).

(** The [reviews] table has one review per beatmapset, reviewer and game
    mode, and its [AUTO_INCREMENT] key is beyond every id in use. *)
Definition reviews_wf (d : Anyone.DB) : Prop :=
  NoDup (map review_key (Anyone.reviews d))
  /\ forall r, In r (Anyone.reviews d) -> Anyone.review_id r < Anyone.reviews_auto_increment d.

(** The reviewer holds a review of the beatmapset in the game mode with
    this reason, score and time. *)
Definition holds_review (beatmapsetId reviewerId gameMode : Z) (reason : string)
  (score at_ : Z) (d : Anyone.DB) : Prop :=
  exists r, Anyone.select_review beatmapsetId reviewerId gameMode d = Some r
            /\ Anyone.review_reason r = reason
            /\ Anyone.review_score r = score
            /\ Anyone.reviewed_at r = at_.

(** The key by which POST /nomination-submit looks for a duplicate. *)
Definition nomination_key (n : Router.Nomination) : Z * Z * Z :=
  (Router.round_id n, Router.game_mode n, Router.nomination_beatmapset_id n).

Definition nominations_wf (d : Router.DB) : Prop :=
  NoDup (map nomination_key (Router.nominations d)) /\ nominations_fresh d.

(** The ids of a list of rounds never decrease. *)
Definition ascending (l : list Z) : Prop := StronglySorted Z.le l.
Definition descending (l : list Z) : Prop := StronglySorted Z.ge l.

Definition listed_ids (l : list Router.RoundJson) : list Z :=
  map (fun r => Router.id (Router.json_round r)) l.

(** What [UPDATE reviews SET ? WHERE id = ?] makes of a row. *)
Definition rewritten (reason : string) (at_ score rid : Z) (r : Anyone.Review) : Anyone.Review :=
  if Anyone.review_id r =? rid
  then Anyone.mkReview (Anyone.review_id r) (Anyone.review_beatmapset_id r)
                       (Anyone.review_game_mode r) reason at_ (Anyone.reviewer_id r) score
  else r.

(** What [UPDATE nominations SET `order` = ? WHERE id = ?] and
    [UPDATE nominations SET moderator_state = ? WHERE id = ?] make of a
    row. *)
Definition reordered (order_ : Z) (n : Router.Nomination) : Router.Nomination :=
  Router.mkNomination (Router.nomination_id n) (Router.round_id n) (Router.game_mode n)
    (Router.nomination_beatmapset_id n) (Router.parent_id n) order_
    (Router.description n) (Router.description_author_id n) (Router.description_state n)
    (Router.metadata_state n) (Router.overwrite_artist n) (Router.overwrite_title n)
    (Router.moderator_state n).

Definition moderated (state : Z) (n : Router.Nomination) : Router.Nomination :=
  Router.mkNomination (Router.nomination_id n) (Router.round_id n) (Router.game_mode n)
    (Router.nomination_beatmapset_id n) (Router.parent_id n) (Router.order n)
    (Router.description n) (Router.description_author_id n) (Router.description_state n)
    (Router.metadata_state n) (Router.overwrite_artist n) (Router.overwrite_title n)
    state.

(** The order the body of POST /update-nomination-order has for a
    nomination. *)
Definition requested_order (entries : list (Z * Z)) (nominationId : Z) : option Z :=
  option_map snd (find (fun entry => fst entry =? nominationId) entries).

(** Two rows of [nominations] that differ at most in the description, its
    author and its state. *)
Definition same_but_description (n n' : Router.Nomination) : Prop :=
  Router.nomination_id n' = Router.nomination_id n
  /\ Router.round_id n' = Router.round_id n
  /\ Router.game_mode n' = Router.game_mode n
  /\ Router.nomination_beatmapset_id n' = Router.nomination_beatmapset_id n
  /\ Router.parent_id n' = Router.parent_id n
  /\ Router.order n' = Router.order n
  /\ Router.metadata_state n' = Router.metadata_state n
  /\ Router.overwrite_artist n' = Router.overwrite_artist n
  /\ Router.overwrite_title n' = Router.overwrite_title n
  /\ Router.moderator_state n' = Router.moderator_state n.

(** The tables other than [nominations] are the same. *)
Definition same_but_nominations (d d' : Router.DB) : Prop :=
  Router.nominations_auto_increment d' = Router.nominations_auto_increment d
  /\ Router.nomination_nominators d' = Router.nomination_nominators d
  /\ Router.nomination_assignees d' = Router.nomination_assignees d
  /\ Router.nomination_excluded_beatmaps d' = Router.nomination_excluded_beatmaps d
  /\ Router.beatmapset_creators d' = Router.beatmapset_creators d
  /\ Router.rounds d' = Router.rounds d
  /\ Router.rounds_auto_increment d' = Router.rounds_auto_increment d
  /\ Router.round_game_modes d' = Router.round_game_modes d.

(** The rounds have distinct ids, and the [AUTO_INCREMENT] key of [rounds]
    is beyond every round a row refers to. *)
Definition rounds_wf (d : Router.DB) : Prop :=
  NoDup (map Router.id (Router.rounds d)) /\ rounds_fresh d.

(** The creator credit is one of the beatmapset and game mode of the
    nomination. *)
Definition credited (nomination : Router.Nomination) (c : Router.BeatmapsetCreator) : bool :=
  (Router.creator_beatmapset_id c =? Router.nomination_beatmapset_id nomination)
  && (Router.creator_game_mode c =? Router.game_mode nomination).

(** The number of nominations of a round. *)
Definition nominations_of_round (roundId : Z) (d : Router.DB) : Z :=
  Z.of_nat (List.length (filter (fun n => Router.round_id n =? roundId) (Router.nominations d))).

(** ** Further runs of the example deployment *)

Definition review_osu : Collaborator unit :=
  example_osu [example_beatmapset] [example_beatmapset] example_users.

(** User 8, who has no review and no role either. *)
Definition other_ctx : Anyone.Context :=
  Anyone.mkContext 8 [] (fun _ _ => false) 60.

(** User 7 reviews beatmapset 100 in game mode 3, where they have no
    review yet, and then asks for a score that takes a captain. *)
Definition create_body : Anyone.ReviewBody :=
  Anyone.mkReviewBody (JInt 100) (JInt 3) (JString "fine") (JInt 1).

Definition captain_score_body : Anyone.ReviewBody :=
  Anyone.mkReviewBody (JInt 100) (JInt 0) (JString "nice") (JInt (-4)).

Definition created_review :=
  Eval vm_compute in handle (Anyone.review review_osu review_ctx create_body) review_world.

Definition many_body (requested : list Z) (score : Z) : Anyone.ReviewManyBody :=
  Anyone.mkReviewManyBody (JInt 100) (Some requested) (JString "both") (JInt score).

(** A news author who is captain of no game mode. *)
Definition editor_ctx : Router.Context :=
  Router.mkContext 8 false (Router.mkRoles (fun _ => false) false false true) (fun _ => None).

Definition news_ctx : Router.Context := router_ctx 8 false true false.
Definition checker_ctx : Router.Context := router_ctx 8 false false true.
Definition stranger_ctx : Router.Context := router_ctx 8 false false false.

Definition description_edited :=
  Eval vm_compute in
    handle (Router.nomination_edit_description router_osu nominator_ctx
              (description_body (Some "new text"))) (snd first_submit).

Definition order_entries : list (Z * Z) := [(5, 3); (6, 0)].

Definition nominators_body : Router.NominatorsBody :=
  Router.mkNominatorsBody 5 (Router.idsArray [8; 7]).

Definition excluded_body : Router.ExcludedBody :=
  Router.mkExcludedBody 5 (Router.idsArray [1001; 1002]).

Definition assignees_body : Router.AssigneesBody :=
  Router.mkAssigneesBody 5 (JInt 0) (Router.idsArray [7]).

(** Round 2 is added, and its nominations of game mode 3 are locked and
    opened again. *)
Definition round_added :=
  Eval vm_compute in handle (Router.add_round news_ctx) router_world.

Definition lock_body (lock : bool) : Router.LockBody := Router.mkLockBody (JInt 3) 2 lock.

Definition round_locked :=
  Eval vm_compute in
    handle (Router.lock_nominations (S := unit) news_ctx (lock_body true)) (snd round_added).

Definition round_opened :=
  Eval vm_compute in
    handle (Router.lock_nominations (S := unit) news_ctx (lock_body false)) (snd round_locked).

(** User 7 as a captain of game mode 0 on the review routes of router.ts. *)
Definition captain_ctx (actor : Z) : RouterReviews.Context :=
  RouterReviews.mkContext actor true (fun gameMode => gameMode =? 0) 60.

Definition creators_replaced :=
  Eval vm_compute in
    handle (Router.nomination_edit_metadata router_osu checker_ctx
              (metadata_body (Router.creatorsArray ["captain"; "mapper"]))) router_world.

Definition captain_review_body : RouterReviews.ReviewBody :=
  RouterReviews.mkReviewBody (Some 100) (Some 0) (Some "nice") (Some 2).

(** User 7 nominates beatmapset 101 for round 2, which is yet to be
    created; the round is then added and the rounds are listed. *)
Definition early_submit :=
  Eval vm_compute in
    handle (Router.nomination_submit router_osu nominator_ctx
              (Router.mkSubmitBody (JInt 101) (JInt 0) None 2)) router_world.

Definition early_round_added :=
  Eval vm_compute in handle (Router.add_round news_ctx) (snd early_submit).

Definition early_rounds_listed :=
  Eval vm_compute in handle (Router.get_rounds (S := unit)) (snd early_round_added).

Definition listed_count (roundId : Z) (r : Response Router.RoundsJson) : list Z :=
  match json_of r with
  | Some listed =>
      map Router.nomination_count
          (filter (fun round => Router.id (Router.json_round round) =? roundId)
                  (Router.incomplete_rounds listed))
  | None => []
  end.

(** A moderator, and a request for the moderator state of nomination 5. *)
Definition moderator_ctx : Router.Context :=
  Router.mkContext 8 false (Router.mkRoles (fun _ => false) false true false) (fun _ => None).

Definition moderation_body : Router.ModerationBody := Router.mkModerationBody 5 2.

(** User 7 without the captain role on the review routes of router.ts. *)
Definition reviewer_only_ctx : RouterReviews.Context :=
  RouterReviews.mkContext 7 false (fun gameMode => gameMode =? 0) 60.

(** The first occurrence of [x] in [l] comes before every occurrence of
    [y]. *)
Definition first_before (x y : Z) (l : list Z) : Prop :=
  exists l1 l2, l = l1 ++ x :: l2 /\ ~ In x l1 /\ ~ In y l1.

(** * Properties *)

(** ** Lists and the laws of [Tx] *)

Lemma find_map_preserved {A} (p : A -> bool) (f : A -> A) (l : list A) :
  (forall x, p (f x) = p x) -> find p (map f l) = option_map f (find p l).
Proof.
  intros Hp. induction l as [|x l IH]; cbn; [reflexivity|].
  rewrite Hp. destruct (p x); [reflexivity|exact IH].
Qed.

Lemma existsb_eqb_In (x : Z) (l : list Z) : In x l -> existsb (Z.eqb x) l = true.
Proof.
  intros H. apply existsb_exists. exists x. split; [exact H|apply Z.eqb_refl].
Qed.


Section Laws.
Context {DB S : Type}.

Lemma bind_returns {A B} (m : Tx A) (k : A -> Tx B) (w w' : World DB S) a :
  m w = (Ret a, w') -> bind m k w = k a w'.
Proof. intros H. unfold bind. rewrite H. reflexivity. Qed.

Lemma bind_throws {A B} (m : Tx A) (k : A -> Tx B) (w w' : World DB S) e :
  m w = (Thrown e, w') -> bind m k w = (Thrown e, w').
Proof. intros H. unfold bind. rewrite H. reflexivity. Qed.

Lemma transact_returns {A} (m : Tx A) (w w' : World DB S) a :
  m w = (Ret a, w') -> transact m w = (Ret a, w').
Proof. intros H. unfold transact. rewrite H. reflexivity. Qed.

Lemma transact_throws {A} (m : Tx A) (w w' : World DB S) e :
  m w = (Thrown e, w') ->
  transact m w = (Thrown e, mkWorld (db w) (osu_store w') (trace w')).
Proof. intros H. unfold transact. rewrite H. reflexivity. Qed.

Lemma handle_returns {A} (h : Tx (Response A)) (w w' : World DB S) r :
  h w = (Ret r, w') -> handle h w = (r, w').
Proof. intros H. unfold handle. rewrite H. reflexivity. Qed.

Lemma handle_throws {A} (h : Tx (Response A)) (w w' : World DB S) e :
  h w = (Thrown e, w') -> handle h w = (serverError, w').
Proof. intros H. unfold handle. rewrite H. reflexivity. Qed.
End Laws.

Ltac step := erewrite bind_returns by reflexivity.


(** ** POST /review *)

Section ReviewProofs.
Variable S : Type.
Variable osu : Collaborator S.
Variable ctx : Anyone.Context.

Lemma deleteExistingSubmission_run beatmapset beatmapsetId gameMode (w : World Anyone.DB S) :
  exists w',
    Anyone.deleteExistingSubmission ctx beatmapset beatmapsetId gameMode w = (Ret tt, w')
    /\ Anyone.reviews (db w') = Anyone.reviews (db w)
    /\ Anyone.logs (db w') =
       Anyone.logs (db w)
       ++ match Anyone.select_open_submission beatmapsetId gameMode (Anyone.actor_id ctx) (db w) with
          | Some submission =>
              [Anyone.submissionDeleted (Anyone.actor_id ctx) (beatmapset_id beatmapset)
                                        submission (Anyone.actor_id ctx)]
          | None => []
          end.
Proof.
  unfold Anyone.deleteExistingSubmission. step.
  destruct (Anyone.select_open_submission beatmapsetId gameMode (Anyone.actor_id ctx) (db w)).
  - eexists. split; [reflexivity|]. split; reflexivity.
  - eexists. split; [reflexivity|]. cbn. rewrite app_nil_r. split; reflexivity.
Qed.

Lemma select_review_sound b u g d r :
  Anyone.select_review b u g d = Some r ->
  In r (Anyone.reviews d) /\ Anyone.review_beatmapset_id r = b
  /\ Anyone.reviewer_id r = u /\ Anyone.review_game_mode r = g.
Proof.
  unfold Anyone.select_review. intros H. apply find_some in H. destruct H as [Hin H].
  apply andb_prop in H. destruct H as [H Hg]. apply andb_prop in H. destruct H as [Hb Hu].
  apply Z.eqb_eq in Hb, Hu, Hg. auto.
Qed.

Lemma select_by_id_of_member r d :
  In r (Anyone.reviews d) ->
  exists r0, Anyone.select_review_by_id (Anyone.review_id r) d = Some r0
             /\ Anyone.review_id r0 = Anyone.review_id r.
Proof.
  intros Hin. unfold Anyone.select_review_by_id.
  destruct (find (fun r1 => Anyone.review_id r1 =? Anyone.review_id r) (Anyone.reviews d)) eqn:E.
  - exists r0. split; [reflexivity|]. apply find_some in E. apply Z.eqb_eq. apply E.
  - exfalso. eapply find_none in E; [|exact Hin]. rewrite Z.eqb_refl in E. discriminate.
Qed.

Lemma select_by_id_after_update reason at_ score rid d :
  Anyone.select_review_by_id rid (Anyone.update_review reason at_ score rid d) =
  option_map (fun r => Anyone.mkReview (Anyone.review_id r) (Anyone.review_beatmapset_id r)
                         (Anyone.review_game_mode r) reason at_ (Anyone.reviewer_id r) score)
             (Anyone.select_review_by_id rid d).
Proof.
  unfold Anyone.select_review_by_id, Anyone.update_review, Anyone.set_reviews.
  cbn [Anyone.reviews]. induction (Anyone.reviews d) as [|x l IH]; [reflexivity|].
  cbn [map find]. destruct (Anyone.review_id x =? rid) eqn:E.
  - cbn [Anyone.review_id]. rewrite E. reflexivity.
  - rewrite E. exact IH.
Qed.

Lemma updated_member reason at_ score rid d r0 :
  Anyone.select_review_by_id rid d = Some r0 ->
  In (Anyone.mkReview rid (Anyone.review_beatmapset_id r0) (Anyone.review_game_mode r0)
                      reason at_ (Anyone.reviewer_id r0) score)
     (Anyone.reviews (Anyone.update_review reason at_ score rid d)).
Proof.
  intros H. apply find_some in H. destruct H as [Hin Hid]. apply Z.eqb_eq in Hid.
  cbn. apply in_map_iff. exists r0. split; [|exact Hin].
  rewrite Hid, Z.eqb_refl. reflexivity.
Qed.

(** The transaction of the update path commits. *)
Lemma updateTransaction_run beatmapset beatmapsetId gameMode reason score activeCaptain
  existingReview (w : World Anyone.DB S) :
  In existingReview (Anyone.reviews (db w)) ->
  exists newReview w',
    Anyone.updateTransaction ctx beatmapset beatmapsetId gameMode reason score activeCaptain
                             existingReview w
    = (Ret (Json (Anyone.mkReviewJson newReview activeCaptain)), w')
    /\ Anyone.review_id newReview = Anyone.review_id existingReview
    /\ Anyone.review_reason newReview = reason
    /\ Anyone.review_score newReview = score
    /\ Anyone.reviewed_at newReview = Anyone.now ctx
    /\ In newReview (Anyone.reviews (db w'))
    /\ Anyone.logs (db w') =
       Anyone.logs (db w)
       ++ (if negb (String.eqb (Anyone.review_reason existingReview) reason)
              || negb (Anyone.review_score existingReview =? score)
           then [Anyone.reviewUpdated (beatmapset_id beatmapset) existingReview newReview
                                      (Anyone.actor_id ctx)]
           else [])
       ++ match Anyone.select_open_submission beatmapsetId gameMode (Anyone.actor_id ctx)
                  (db w) with
          | Some submission =>
              [Anyone.submissionDeleted (Anyone.actor_id ctx) (beatmapset_id beatmapset)
                                        submission (Anyone.actor_id ctx)]
          | None => []
          end.
Proof.
  intros Hin. destruct (select_by_id_of_member _ _ Hin) as [r0 [Hr0 Hid0]].
  unfold Anyone.updateTransaction. step. step. cbn [db emit].
  rewrite select_by_id_after_update, Hr0. cbn [option_map]. rewrite Hid0.
  set (newReview := Anyone.mkReview _ _ _ _ _ _ _).
  match goal with |- context [bind (if ?c then _ else _)] => destruct c end.
  all: step.
  all: match goal with
       | |- context [bind (Anyone.deleteExistingSubmission _ ?b ?i ?g) _ ?w0] =>
           destruct (deleteExistingSubmission_run b i g w0) as [w3 [E3 [Hrev3 Hlog3]]]
       end.
  all: erewrite bind_returns by exact E3.
  all: step.
  all: exists newReview; eexists; split; [reflexivity|].
  all: cbn [db emit]; repeat split; try reflexivity.
  - rewrite Hrev3. exact (updated_member reason (Anyone.now ctx) score _ _ _ Hr0).
  - rewrite Hlog3. cbn. rewrite <- app_assoc. reflexivity.
  - rewrite Hrev3. exact (updated_member reason (Anyone.now ctx) score _ _ _ Hr0).
  - rewrite Hlog3. reflexivity.
Qed.

(** The update path of POST /review, run to its end. *)
Lemma review_update_path body w beatmapsetId gameMode reason score existingReview beatmapset :
  isInteger (Anyone.body_beatmapsetId body) = Some beatmapsetId ->
  isGameMode (Anyone.body_gameMode body) = Some gameMode ->
  as_string (Anyone.body_reason body) = Some reason ->
  isInteger (Anyone.body_score body) = Some score ->
  -4 <= score <= 3 ->
  (score = -4 \/ score = 0 -> Anyone.hasRole ctx Anyone.captain (Some gameMode) = true) ->
  Anyone.select_review beatmapsetId (Anyone.actor_id ctx) gameMode (db w) = Some existingReview ->
  (score = -2 \/ score = 2 -> Anyone.review_score existingReview = score) ->
  beatmapset_eligible osu (osu_store w) beatmapsetId gameMode beatmapset ->
  exists newReview activeCaptain w',
    handle (Anyone.review osu ctx body) w = (Json (Anyone.mkReviewJson newReview activeCaptain), w')
    /\ Anyone.review_id newReview = Anyone.review_id existingReview
    /\ Anyone.review_reason newReview = reason
    /\ Anyone.review_score newReview = score
    /\ Anyone.reviewed_at newReview = Anyone.now ctx
    /\ In newReview (Anyone.reviews (db w'))
    /\ Anyone.logs (db w') =
       Anyone.logs (db w) ++ update_audit ctx beatmapset existingReview newReview (db w).
Proof.
  intros Hb Hg Hr Hs Hrange Hcap Hex Hdep [Hosu [Hrank Hmode]].
  destruct (select_review_sound _ _ _ _ _ Hex) as [Hin [Eb [Eu Eg]]].
  unfold Anyone.review. rewrite Hb, Hg, Hr, Hs.
  assert (H1 : ((score <? -4) || (score >? 3)) = false).
  { apply orb_false_iff. split; [apply Z.ltb_ge; lia | rewrite Z.gtb_ltb; apply Z.ltb_ge; lia]. }
  rewrite H1.
  assert (H2 : existsb (Z.eqb score) [-4; 0]
               && negb (Anyone.hasRole ctx Anyone.captain (Some gameMode)) = false).
  { cbn [existsb]. destruct (score =? -4) eqn:E4; [|destruct (score =? 0) eqn:E0].
    - apply Z.eqb_eq in E4. rewrite Hcap by auto. reflexivity.
    - apply Z.eqb_eq in E0. rewrite Hcap by auto. reflexivity.
    - reflexivity. }
  rewrite H2.
  assert (H3 : ((score =? -2) || (score =? 2))
               && negb (score =? Anyone.review_score existingReview) = false).
  { destruct ((score =? -2) || (score =? 2)) eqn:E; [|reflexivity].
    apply orb_prop in E. rewrite Hdep.
    - rewrite Z.eqb_refl. reflexivity.
    - destruct E as [E|E]; apply Z.eqb_eq in E; auto. }
  assert (H4 : (ranked_status beatmapset >? RankedStatus_pending) = false).
  { rewrite Z.gtb_ltb. apply Z.ltb_ge. exact Hrank. }
  destruct (createOrRefreshBeatmapset osu beatmapsetId true (osu_store w)) as [ob s'] eqn:Ecall.
  cbn [fst] in Hosu. subst ob.
  set (activeCaptain := option_map _ _).
  destruct (updateTransaction_run beatmapset beatmapsetId gameMode reason score activeCaptain
              existingReview
              (emit (OsuBeatmapset beatmapsetId true) (mkWorld (db w) s' (trace w))) Hin)
    as [newReview [w' [Erun [P1 [P2 [P3 [P4 [P5 P6]]]]]]]].
  exists newReview, activeCaptain, w'. split.
  - apply handle_returns. step. rewrite Hex. cbn [option_map option_eqb]. rewrite H3.
    erewrite bind_returns by (unfold call; rewrite Ecall; reflexivity). cbv beta iota.
    rewrite H4, (existsb_eqb_In _ _ Hmode). cbn [negb].
    apply transact_returns. exact Erun.
  - repeat split; try assumption.
    rewrite P6. cbn [db emit]. unfold update_audit. rewrite P2, P3, Eb, Eg. reflexivity.
Qed.

(** Below the deprecated-score check, POST /review of a reviewer who holds
    a review answers with the updated review or with one of the three
    beatmapset errors. *)
Lemma review_not_invalid_score body (w : World Anyone.DB S) beatmapsetId gameMode reason score
  existingReview :
  isInteger (Anyone.body_beatmapsetId body) = Some beatmapsetId ->
  isGameMode (Anyone.body_gameMode body) = Some gameMode ->
  as_string (Anyone.body_reason body) = Some reason ->
  isInteger (Anyone.body_score body) = Some score ->
  score = -2 \/ score = 2 ->
  Anyone.select_review beatmapsetId (Anyone.actor_id ctx) gameMode (db w) = Some existingReview ->
  Anyone.review_score existingReview = score ->
  fst (handle (Anyone.review osu ctx body) w) <> ErrorJson 422 "Invalid score".
Proof.
  intros Hb Hg Hr Hs Hd Hex Hsc.
  destruct (select_review_sound _ _ _ _ _ Hex) as [Hin _].
  unfold Anyone.review. rewrite Hb, Hg, Hr, Hs.
  assert (H1 : ((score <? -4) || (score >? 3)) = false) by (destruct Hd; subst score; reflexivity).
  assert (H2 : existsb (Z.eqb score) [-4; 0] = false) by (destruct Hd; subst score; reflexivity).
  rewrite H1, H2. cbn [andb]. unfold handle. step. rewrite Hex. cbn [option_map option_eqb].
  rewrite Hsc, Z.eqb_refl, andb_false_r.
  unfold bind at 1, call at 1.
  destruct (createOrRefreshBeatmapset osu beatmapsetId true (osu_store w)) as [[beatmapset|] s'];
    [|cbn; discriminate].
  destruct (ranked_status beatmapset >? RankedStatus_pending); [cbn; discriminate|].
  destruct (negb (existsb (Z.eqb gameMode) (game_modes beatmapset))); [cbn; discriminate|].
  match goal with
  | |- context [Anyone.updateTransaction _ ?bs ?b ?g ?r ?sc ?ac ?ex] =>
      destruct (updateTransaction_run bs b g r sc ac ex
                  (emit (OsuBeatmapset beatmapsetId true) (mkWorld (db w) s' (trace w))) Hin)
        as [newReview [w' [Erun _]]]
  end.
  erewrite transact_returns by exact Erun. cbn. discriminate.
Qed.

(** C3.  A request for one of the deprecated scores -2 and 2 is answered
    with a 422 validation error, and leaves the world as it was, unless the
    review the reviewer holds for the beatmapset and game mode has that
    very score; when it has, the answer is not the score error, and the
    review is accepted and written as soon as the beatmapset passes the
    checks every review passes. *)
Theorem review_deprecated_score body (w : World Anyone.DB S) score :
  isInteger (Anyone.body_score body) = Some score ->
  score = -2 \/ score = 2 ->
  (stored_score ctx body (db w) <> Some score ->
   exists msg, handle (Anyone.review osu ctx body) w = (ErrorJson 422 msg, w))
  /\
  (stored_score ctx body (db w) = Some score ->
   forall reason, as_string (Anyone.body_reason body) = Some reason ->
   fst (handle (Anyone.review osu ctx body) w) <> ErrorJson 422 "Invalid score"
   /\
   forall beatmapsetId gameMode beatmapset,
     isInteger (Anyone.body_beatmapsetId body) = Some beatmapsetId ->
     isGameMode (Anyone.body_gameMode body) = Some gameMode ->
     beatmapset_eligible osu (osu_store w) beatmapsetId gameMode beatmapset ->
     exists newReview activeCaptain w',
       handle (Anyone.review osu ctx body) w
       = (Json (Anyone.mkReviewJson newReview activeCaptain), w')
       /\ Anyone.review_score newReview = score
       /\ In newReview (Anyone.reviews (db w'))).
Proof.
  intros Hs Hd. split.
  - intros Hne. unfold handle, Anyone.review, stored_score in *.
    destruct (isInteger (Anyone.body_beatmapsetId body)) as [b|]; [|eexists; reflexivity].
    destruct (isGameMode (Anyone.body_gameMode body)) as [g|]; [|eexists; reflexivity].
    destruct (as_string (Anyone.body_reason body)) as [reason|]; [|eexists; reflexivity].
    rewrite Hs.
    assert (H1 : ((score <? -4) || (score >? 3)) = false) by (destruct Hd; subst; reflexivity).
    assert (H2 : existsb (Z.eqb score) [-4; 0] = false) by (destruct Hd; subst; reflexivity).
    assert (H3 : ((score =? -2) || (score =? 2)) = true) by (destruct Hd; subst; reflexivity).
    rewrite H1, H2. cbn [andb]. step. rewrite H3. cbn [andb].
    destruct (Anyone.select_review b (Anyone.actor_id ctx) g (db w)) as [r|]; cbn.
    + destruct (score =? Anyone.review_score r) eqn:E.
      * apply Z.eqb_eq in E. exfalso. apply Hne. cbn. congruence.
      * eexists; reflexivity.
    + eexists; reflexivity.
  - intros Hst reason Hr. unfold stored_score in Hst.
    destruct (isInteger (Anyone.body_beatmapsetId body)) as [b|] eqn:Hb; [|discriminate].
    destruct (isGameMode (Anyone.body_gameMode body)) as [g|] eqn:Hg; [|discriminate].
    destruct (Anyone.select_review b (Anyone.actor_id ctx) g (db w)) as [r|] eqn:Hex;
      [|discriminate].
    cbn in Hst. injection Hst as Hsc. split.
    + eapply review_not_invalid_score; eauto.
    + intros b' g' beatmapset Eb Eg Hel. injection Eb as <-. injection Eg as <-.
      destruct (review_update_path body w b g reason score r beatmapset Hb Hg Hr Hs)
        as [newReview [ac [w' [E [_ [_ [P3 [_ [P5 _]]]]]]]]]; auto.
      * destruct Hd; subst score; lia.
      * intros [H|H]; destruct Hd; subst score; discriminate.
      * exists newReview, ac, w'. auto.
Qed.

(** C4.  Sending again the review one holds, when the request passes the
    checks of POST /review, is answered with the review: its [reviewed_at]
    is the time of the request, and the audit log gains a [reviewUpdated]
    record exactly when the reason or the score sent differs from the one
    held; an identical review adds none. *)
Theorem review_resubmission_audit body (w : World Anyone.DB S) beatmapsetId gameMode reason score
  existingReview beatmapset :
  isInteger (Anyone.body_beatmapsetId body) = Some beatmapsetId ->
  isGameMode (Anyone.body_gameMode body) = Some gameMode ->
  as_string (Anyone.body_reason body) = Some reason ->
  isInteger (Anyone.body_score body) = Some score ->
  -4 <= score <= 3 ->
  (score = -4 \/ score = 0 -> Anyone.hasRole ctx Anyone.captain (Some gameMode) = true) ->
  Anyone.select_review beatmapsetId (Anyone.actor_id ctx) gameMode (db w) = Some existingReview ->
  (score = -2 \/ score = 2 -> Anyone.review_score existingReview = score) ->
  beatmapset_eligible osu (osu_store w) beatmapsetId gameMode beatmapset ->
  exists newReview activeCaptain w' added,
    handle (Anyone.review osu ctx body) w = (Json (Anyone.mkReviewJson newReview activeCaptain), w')
    /\ In newReview (Anyone.reviews (db w'))
    /\ Anyone.review_id newReview = Anyone.review_id existingReview
    /\ Anyone.review_reason newReview = reason
    /\ Anyone.review_score newReview = score
    /\ Anyone.reviewed_at newReview = Anyone.now ctx
    /\ Anyone.logs (db w') = Anyone.logs (db w) ++ added
    /\ (existsb Anyone.is_reviewUpdated added = true <->
        Anyone.review_reason existingReview <> reason
        \/ Anyone.review_score existingReview <> score)
    /\ (Anyone.review_reason existingReview = reason ->
        Anyone.review_score existingReview = score ->
        filter Anyone.is_reviewUpdated added = []).
Proof.
  intros Hb Hg Hr Hs Hrange Hcap Hex Hdep Hel.
  destruct (review_update_path body w _ _ _ _ _ _ Hb Hg Hr Hs Hrange Hcap Hex Hdep Hel)
    as [newReview [ac [w' [E [P1 [P2 [P3 [P4 [P5 P6]]]]]]]]].
  exists newReview, ac, w', (update_audit ctx beatmapset existingReview newReview (db w)).
  repeat (split; [assumption|]).
  unfold update_audit. rewrite P2, P3.
  set (tail := match Anyone.select_open_submission _ _ _ _ with Some _ => _ | None => _ end).
  assert (Htail : existsb Anyone.is_reviewUpdated tail = false
                  /\ filter Anyone.is_reviewUpdated tail = []).
  { subst tail. destruct (Anyone.select_open_submission _ _ _ _); split; reflexivity. }
  destruct Htail as [Ht1 Ht2].
  destruct (String.eqb_spec (Anyone.review_reason existingReview) reason) as [Er|Er];
    destruct (Z.eqb_spec (Anyone.review_score existingReview) score) as [Es|Es];
    cbn [negb orb]; rewrite ?existsb_app, ?filter_app, ?Ht1, ?Ht2; cbn.
  - split; [|reflexivity]. split; [discriminate|]. intros [H|H]; contradiction.
  - split; [|intros; contradiction]. split; auto.
  - split; [|intros; contradiction]. split; auto.
  - split; [|intros; contradiction]. split; auto.
Qed.

End ReviewProofs.

Lemma review_deprecated_score_witness :
  fst (handle (Anyone.review (example_osu [example_beatmapset] [example_beatmapset] example_users)
                             review_ctx review_body) review_world)
  <> ErrorJson 422 "Invalid score".
Proof.
  apply (proj2 (review_deprecated_score unit
                  (example_osu [example_beatmapset] [example_beatmapset] example_users)
                  review_ctx review_body review_world 2 eq_refl (or_intror eq_refl))
               eq_refl "nice" eq_refl).
Defined.

Lemma review_resubmission_audit_witness :
  exists newReview activeCaptain w',
    handle (Anyone.review (example_osu [example_beatmapset] [example_beatmapset] example_users)
                          review_ctx review_body) review_world
    = (Json (Anyone.mkReviewJson newReview activeCaptain), w')
    /\ Anyone.reviewed_at newReview = 60
    /\ filter Anyone.is_reviewUpdated (Anyone.logs (db w')) = [].
Proof.
  destruct (review_resubmission_audit unit
              (example_osu [example_beatmapset] [example_beatmapset] example_users)
              review_ctx review_body review_world
              100 0 "nice" 2 (Anyone.mkReview 1 100 0 "nice" 50 7 2) example_beatmapset)
    as [newReview [ac [w' [added [E [_ [_ [_ [_ [Hat [Hlogs [_ Hnone]]]]]]]]]]]].
  - reflexivity.
  - reflexivity.
  - reflexivity.
  - reflexivity.
  - lia.
  - intros [H|H]; discriminate H.
  - reflexivity.
  - reflexivity.
  - split; [reflexivity|]. split; [apply Z.leb_le; reflexivity|]. cbn. auto.
  - exists newReview, ac, w'. split; [exact E|]. split; [exact Hat|].
    rewrite Hlogs. cbn. apply Hnone; reflexivity.
Defined.

(** ** POST /mapper-consent *)

Section TraceLaws.
Context {DB S : Type}.






Lemma extends_handle {A} (h : Tx (DB := DB) (S := S) (Response A)) (w : World DB S) :
  extends h -> exists evs, trace (snd (handle h w)) = trace w ++ evs.
Proof.
  intros Hh. destruct (Hh w) as [evs E]. exists evs. unfold handle.
  destruct (h w) as [[r|e] w1]; exact E.
Qed.






End TraceLaws.


Section ConsentProofs.
Variable S : Type.
Variable osu : Collaborator S.
Variable ctx : Anyone.Context.







End ConsentProofs.



(** ** DELETE /nomination *)

Section RouterProofs.
Variable S : Type.
Variable osu : Collaborator S.
Variable ctx : Router.Context.


(** What a DELETE /nomination answered with 204 has done. *)
Lemma delete_nomination_run nominationId (w w' : World Router.DB S) :
  handle (Router.delete_nomination ctx nominationId) w = (Empty 204, w') ->
  w' = mkWorld (Router.delete_nomination_row nominationId
                  (Router.delete_nominators nominationId
                     (Router.delete_excluded_beatmaps nominationId
                        (Router.delete_assignees nominationId (db w)))))
               (osu_store w)
               (trace w ++ [SqlDelete t_nomination_assignees;
                            SqlDelete t_nomination_excluded_beatmaps;
                            SqlDelete t_nomination_nominators;
                            SqlDelete t_nominations]).
Proof.
  unfold Router.delete_nomination, handle, bind.
  destruct (negb (Router.god ctx)).
  - unfold query, ret. cbn [negb].
    destruct (Router.select_nominator nominationId (Router.actor_id ctx) (db w));
      cbn [negb]; [|discriminate].
    unfold transact, Router.deleteTransaction, bind, execute, emit.
    cbn [db osu_store trace]. rewrite <- !app_assoc. intros H. injection H as <-. reflexivity.
  - unfold ret. cbn [negb].
    unfold transact, Router.deleteTransaction, bind, execute, emit.
    cbn [db osu_store trace]. rewrite <- !app_assoc. intros H. injection H as <-. reflexivity.
Qed.


(** ** POST /nomination-edit-description *)

Lemma select_after_update_description newDescription author state nominationId d :
  Router.select_nomination nominationId
    (Router.update_description newDescription author state nominationId d)
  = option_map (fun n => Router.mkNomination (Router.nomination_id n) (Router.round_id n)
                           (Router.game_mode n) (Router.nomination_beatmapset_id n)
                           (Router.parent_id n) (Router.order n) newDescription author state
                           (Router.metadata_state n) (Router.overwrite_artist n)
                           (Router.overwrite_title n) (Router.moderator_state n))
               (Router.select_nomination nominationId d).
Proof.
  unfold Router.select_nomination, Router.update_description, Router.set_nominations.
  cbn [Router.nominations]. induction (Router.nominations d) as [|x l IH]; [reflexivity|].
  cbn [map find]. destruct (Router.nomination_id x =? nominationId) eqn:E.
  - cbn [Router.nomination_id]. rewrite E. reflexivity.
  - rewrite E. exact IH.
Qed.

(** What an accepted edit of a description writes. *)
Lemma edit_description_success body (w w' : World Router.DB S) r :
  handle (Router.nomination_edit_description osu ctx body) w = (Json r, w') ->
  exists existing edited,
    Router.select_nomination (Router.description_nominationId body) (db w) = Some existing
    /\ Router.select_nomination (Router.description_nominationId body) (db w') = Some edited
    /\ Router.description edited = Router.body_description body
    /\ Router.description_author_id edited =
       match Router.body_description body with
       | None => None
       | Some _ => match Router.description existing with
                   | None => Some (Router.actor_id ctx)
                   | Some _ => Router.description_author_id existing
                   end
       end
    /\ Router.description_state edited =
       (if Router.roles_news (Router.authRoles ctx)
           && match Router.description existing with Some _ => true | None => false end
           && match Router.body_description body with Some _ => true | None => false end
        then Router.reviewed else Router.notReviewed)
    /\ trace w' = trace w ++ [SqlUpdate t_nominations].
Proof.
  unfold Router.nomination_edit_description, handle. unfold bind at 1, query at 1.
  destruct (Router.select_nomination (Router.description_nominationId body) (db w))
    as [existing|] eqn:Hex; [|cbn; discriminate].
  match goal with |- context [if ?c then ret (Empty 403) else _] => destruct c end;
    [cbn; discriminate|].
  match goal with |- context [if ?c then ret (ErrorJson 403 _) else _] => destruct c end;
    [cbn; discriminate|].
  unfold bind, execute, query_join, ret, emit. cbn [db osu_store trace].
  intros H. injection H as _ <-. cbn [db trace].
  exists existing. eexists. split; [reflexivity|]. split.
  - rewrite select_after_update_description, Hex. reflexivity.
  - cbn. auto.
Qed.

(** C6.  After an accepted edit of a description the state of the
    description is [reviewed] exactly when the acting user has the news
    capability, the nomination had a description and the new description is
    not null, and [notReviewed] otherwise; and a description written where
    there was none is attributed to the acting user. *)
Theorem edit_description_state body (w w' : World Router.DB S) r :
  handle (Router.nomination_edit_description osu ctx body) w = (Json r, w') ->
  exists existing edited,
    Router.select_nomination (Router.description_nominationId body) (db w) = Some existing
    /\ Router.select_nomination (Router.description_nominationId body) (db w') = Some edited
    /\ (Router.description_state edited = Router.reviewed <->
        Router.roles_news (Router.authRoles ctx) = true
        /\ Router.description existing <> None
        /\ Router.body_description body <> None)
    /\ (Router.description_state edited <> Router.reviewed ->
        Router.description_state edited = Router.notReviewed)
    /\ (Router.description existing = None ->
        Router.body_description body <> None ->
        Router.description_author_id edited = Some (Router.actor_id ctx)).
Proof.
  intros H. destruct (edit_description_success body w w' r H)
    as [existing [edited [Hex [Hed [_ [Hauthor [Hstate _]]]]]]].
  exists existing, edited. split; [exact Hex|]. split; [exact Hed|].
  rewrite Hstate, Hauthor. clear Hstate Hauthor.
  destruct (Router.roles_news (Router.authRoles ctx));
    destruct (Router.description existing);
    destruct (Router.body_description body); cbn;
    intuition (try discriminate; try congruence).
Qed.

(** C10.  An accepted edit that clears the description to null also sets
    the author of the description to null, whoever it was. *)
Theorem edit_description_clears_author body (w w' : World Router.DB S) r :
  handle (Router.nomination_edit_description osu ctx body) w = (Json r, w') ->
  Router.body_description body = None ->
  exists edited,
    Router.select_nomination (Router.description_nominationId body) (db w') = Some edited
    /\ Router.description edited = None
    /\ Router.description_author_id edited = None.
Proof.
  intros H Hnull. destruct (edit_description_success body w w' r H)
    as [existing [edited [_ [Hed [Hdesc [Hauthor _]]]]]].
  exists edited. rewrite Hnull in *. auto.
Qed.

(** ** POST /nomination-edit-metadata *)

Lemma select_after_update_metadata state artist title nominationId d :
  Router.select_nomination nominationId (Router.update_metadata state artist title nominationId d)
  = option_map (fun n => Router.mkNomination (Router.nomination_id n) (Router.round_id n)
                           (Router.game_mode n) (Router.nomination_beatmapset_id n)
                           (Router.parent_id n) (Router.order n) (Router.description n)
                           (Router.description_author_id n) (Router.description_state n)
                           state artist title (Router.moderator_state n))
               (Router.select_nomination nominationId d).
Proof.
  unfold Router.select_nomination, Router.update_metadata, Router.set_nominations.
  cbn [Router.nominations]. induction (Router.nominations d) as [|x l IH]; [reflexivity|].
  cbn [map find]. destruct (Router.nomination_id x =? nominationId) eqn:E.
  - cbn [Router.nomination_id]. rewrite E. reflexivity.
  - rewrite E. exact IH.
Qed.

Lemma resolveCreators_run names (w : World Router.DB S) :
  exists users s',
    Router.resolveCreators osu names w
    = (Ret users, mkWorld (db w) s' (trace w ++ map (fun n => OsuUser (ByName n)) names)).
Proof.
  revert w. induction names as [|n names IH]; intros w; cbn [Router.resolveCreators map].
  - exists [], (osu_store w). unfold ret. rewrite app_nil_r. destruct w; reflexivity.
  - unfold bind at 1, call at 1.
    destruct (createOrRefreshUser osu (ByName n) (osu_store w)) as [user s1].
    destruct (IH (emit (OsuUser (ByName n)) (mkWorld (db w) s1 (trace w)))) as [users [s' E]].
    exists (user :: users), s'. unfold bind. rewrite E. unfold ret, emit.
    cbn [db osu_store trace]. rewrite <- app_assoc. reflexivity.
Qed.

Lemma checkerUpdate_run body nomination (w : World Router.DB S) :
  exists s1,
    Router.checkerUpdate osu ctx body nomination w
    = (Ret tt,
       if Router.roles_metadata (Router.authRoles ctx)
       then mkWorld
              (Router.update_metadata (Router.body_state body)
                 (if Router.MetadataState_eqb (Router.body_state body) Router.good
                  then None else Router.body_artist body)
                 (if Router.MetadataState_eqb (Router.body_state body) Router.good
                  then None else Router.body_title body)
                 (Router.metadata_nominationId body) (db w))
              s1 (trace w ++ checker_events body nomination)
       else w).
Proof.
  unfold Router.checkerUpdate, checker_events.
  destruct (Router.roles_metadata (Router.authRoles ctx)); [|exists (osu_store w); reflexivity].
  cbv zeta.
  destruct (Router.MetadataState_eqb (Router.body_state body) Router.good
            && Router.MetadataState_eqb (Router.metadata_state nomination) Router.needsChange).
  - unfold bind, call.
    destruct (createOrRefreshBeatmapset osu (Router.nomination_beatmapset_id nomination) true
                                        (osu_store w)) as [o s1].
    exists s1. unfold ret, execute, emit. cbn [db osu_store trace].
    rewrite <- app_assoc. reflexivity.
  - exists (osu_store w). reflexivity.
Qed.

(** The row read again inside the transaction has the beatmapset and game
    mode of the row read before it. *)
Lemma reread_keys nominationId nomination s d1 :
  (exists n1, Router.select_nomination nominationId d1 = Some n1
              /\ Router.nomination_beatmapset_id n1 = Router.nomination_beatmapset_id nomination
              /\ Router.game_mode n1 = Router.game_mode nomination) ->
  match Router.select_with_beatmapset osu nominationId s d1 with
  | Some (n, _) => Router.nomination_beatmapset_id n
  | None => Router.nomination_beatmapset_id nomination
  end = Router.nomination_beatmapset_id nomination
  /\ match Router.select_with_beatmapset osu nominationId s d1 with
     | Some (n, _) => Router.game_mode n
     | None => Router.game_mode nomination
     end = Router.game_mode nomination.
Proof.
  intros [n1 [Hsel [Hb Hg]]]. unfold Router.select_with_beatmapset. rewrite Hsel.
  destruct (select_beatmapset osu s (Router.nomination_beatmapset_id n1)); cbn; auto.
Qed.

Lemma reread_after_checker body nomination (w : World Router.DB S) s1 t :
  Router.select_nomination (Router.metadata_nominationId body) (db w) = Some nomination ->
  exists n1,
    Router.select_nomination (Router.metadata_nominationId body)
      (db (if Router.roles_metadata (Router.authRoles ctx)
           then mkWorld
                  (Router.update_metadata (Router.body_state body)
                     (if Router.MetadataState_eqb (Router.body_state body) Router.good
                      then None else Router.body_artist body)
                     (if Router.MetadataState_eqb (Router.body_state body) Router.good
                      then None else Router.body_title body)
                     (Router.metadata_nominationId body) (db w))
                  s1 t
           else w)) = Some n1
    /\ Router.nomination_beatmapset_id n1 = Router.nomination_beatmapset_id nomination
    /\ Router.game_mode n1 = Router.game_mode nomination.
Proof.
  intros Hsel. destruct (Router.roles_metadata (Router.authRoles ctx)).
  - cbn [db]. rewrite select_after_update_metadata, Hsel. eexists. split; [reflexivity|].
    split; reflexivity.
  - exists nomination. auto.
Qed.

Lemma delete_creators_none beatmapsetId gameMode d c :
  In c (Router.beatmapset_creators (Router.delete_creators beatmapsetId gameMode d)) ->
  ~ (Router.creator_beatmapset_id c = beatmapsetId /\ Router.creator_game_mode c = gameMode).
Proof.
  cbn. intros H [Hb Hg]. apply filter_In in H. destruct H as [_ H].
  rewrite Hb, Hg, !Z.eqb_refl in H. discriminate.
Qed.

(** C9.  An edit of the metadata whose [creators] field is absent, is not
    an array of strings or is the empty array, still deletes every creator
    credit of the beatmapset and game mode of the nomination and inserts
    none: the delete does not depend on a list to replace them with. *)
Theorem edit_metadata_clears_creators body (w : World Router.DB S) nomination :
  Router.roles_metadata (Router.authRoles ctx) = true
  \/ Router.roles_news (Router.authRoles ctx) = true ->
  Router.select_nomination (Router.metadata_nominationId body) (db w) = Some nomination ->
  Router.body_creators body = Router.creatorsAbsent
  \/ Router.body_creators body = Router.creatorsNotStringArray
  \/ Router.body_creators body = Router.creatorsArray [] ->
  exists r w' evs,
    handle (Router.nomination_edit_metadata osu ctx body) w = (Json r, w')
    /\ Router.json_creators r = []
    /\ Router.beatmapset_creators (db w')
       = filter (fun c => negb ((Router.creator_beatmapset_id c
                                 =? Router.nomination_beatmapset_id nomination)
                                && (Router.creator_game_mode c =? Router.game_mode nomination)))
                (Router.beatmapset_creators (db w))
    /\ (forall c, In c (Router.beatmapset_creators (db w')) -> ~ credits nomination c)
    /\ trace w' = trace w ++ evs ++ [SqlDelete t_beatmapset_creators]
    /\ ~ In (SqlInsert t_beatmapset_creators) evs.
Proof.
  intros Hrole Hsel Hcreators.
  assert (Hauth : negb (Router.roles_metadata (Router.authRoles ctx))
                  && negb (Router.roles_news (Router.authRoles ctx)) = false).
  { destruct Hrole as [E|E]; rewrite E; [reflexivity|apply andb_false_r]. }
  assert (Hnone : forall b g, Router.insertCreators osu body b g
                              = ret (DB := Router.DB) (S := S) []).
  { intros b g. unfold Router.insertCreators.
    destruct Hcreators as [E|[E|E]]; rewrite E; reflexivity. }
  destruct (checkerUpdate_run body nomination w) as [s1 E1].
  set (w1 := if Router.roles_metadata (Router.authRoles ctx) then _ else _) in E1.
  destruct (reread_after_checker body nomination w s1 (trace w ++ checker_events body nomination)
                                 Hsel) as [n1 Hn1].
  fold w1 in Hn1.
  destruct (reread_keys (Router.metadata_nominationId body) nomination (osu_store w1) (db w1))
    as [Kb Kg]; [exists n1; exact Hn1|].
  eexists. exists (mkWorld (Router.delete_creators (Router.nomination_beatmapset_id nomination)
                              (Router.game_mode nomination) (db w1))
                           (osu_store w1) (trace w1 ++ [SqlDelete t_beatmapset_creators])).
  exists (if Router.roles_metadata (Router.authRoles ctx)
          then checker_events body nomination else []).
  split; [|split; [|split; [|split; [|split]]]].
  - apply handle_returns. unfold Router.nomination_edit_metadata. cbv zeta. rewrite Hauth.
    step. rewrite Hsel. apply transact_returns. unfold Router.metadataTransaction.
    erewrite bind_returns by exact E1. step. cbv zeta. rewrite Kb, Kg.
    step. rewrite Hnone. step. unfold ret, emit. cbn [db osu_store trace]. reflexivity.
  - reflexivity.
  - cbn. subst w1. destruct (Router.roles_metadata (Router.authRoles ctx)); reflexivity.
  - intros c Hc. apply delete_creators_none in Hc. exact Hc.
  - cbn [trace]. subst w1. destruct (Router.roles_metadata (Router.authRoles ctx)); cbn [trace].
    + rewrite <- app_assoc. reflexivity.
    + reflexivity.
  - destruct (Router.roles_metadata (Router.authRoles ctx)); [|intros []].
    unfold checker_events. intros H. apply in_app_or in H. destruct H as [H|[H|[]]].
    + match type of H with context [if ?c then _ else _] => destruct c end;
        [destruct H as [H|[]]; discriminate H|destruct H].
    + discriminate H.
Qed.

Lemma insertCreators_run body beatmapsetId gameMode (w1 : World Router.DB S) :
  (exists users w2 evs,
     Router.insertCreators osu body beatmapsetId gameMode w1 = (Ret users, w2)
     /\ Router.nominations (db w2) = Router.nominations (db w1)
     /\ trace w2 = trace w1 ++ evs)
  \/ (exists e w2, Router.insertCreators osu body beatmapsetId gameMode w1 = (Thrown e, w2)).
Proof.
  unfold Router.insertCreators.
  destruct (Router.isStringArray (Router.body_creators body)) as [[|n rest]|].
  1, 3: left; exists [], w1, []; rewrite app_nil_r; auto.
  destruct (resolveCreators_run (n :: rest) w1) as [users [s2 E]].
  erewrite bind_returns by exact E.
  destruct (Router.creatorRows beatmapsetId gameMode users) as [rows|].
  - left. eexists. eexists. eexists. split; [reflexivity|]. cbn [db trace emit].
    split; [reflexivity|]. rewrite <- app_assoc. reflexivity.
  - right. eexists. eexists. reflexivity.
Qed.

(** C7.  When a metadata checker sets the state to [good] and the edit is
    accepted, the nomination is written with state [good] and with null
    artist and title overwrites, whatever artist and title the request
    carries; and when the state before was [needsChange] the transaction
    starts with a forced refresh of the beatmapset by the collaborator. *)
Theorem edit_metadata_good body (w w' : World Router.DB S) r :
  Router.roles_metadata (Router.authRoles ctx) = true ->
  Router.body_state body = Router.good ->
  handle (Router.nomination_edit_metadata osu ctx body) w = (Json r, w') ->
  exists nomination edited evs,
    Router.select_nomination (Router.metadata_nominationId body) (db w) = Some nomination
    /\ Router.select_nomination (Router.metadata_nominationId body) (db w') = Some edited
    /\ Router.metadata_state edited = Router.good
    /\ Router.overwrite_artist edited = None
    /\ Router.overwrite_title edited = None
    /\ trace w' =
       trace w
       ++ (if Router.MetadataState_eqb (Router.metadata_state nomination) Router.needsChange
           then [OsuBeatmapset (Router.nomination_beatmapset_id nomination) true]
           else [])
       ++ SqlUpdate t_nominations :: evs.
Proof.
  intros Hrole Hgood. unfold Router.nomination_edit_metadata. cbv zeta.
  rewrite Hrole. cbn [negb andb]. unfold handle. unfold bind at 1, query at 1.
  destruct (Router.select_nomination (Router.metadata_nominationId body) (db w))
    as [nomination|] eqn:Hsel; [|cbn; discriminate].
  destruct (checkerUpdate_run body nomination w) as [s1 E1].
  rewrite Hrole, Hgood in E1. cbn [Router.MetadataState_eqb] in E1.
  unfold transact, Router.metadataTransaction.
  erewrite bind_returns by exact E1. step. cbv zeta.
  unfold bind at 1, execute at 1.
  match goal with
  | |- context [bind (Router.insertCreators _ _ ?b ?g) _ ?w1] =>
      destruct (insertCreators_run body b g w1)
        as [[users [w2 [evs [E2 [Hnoms Htrace]]]]]|[e [w2 E2]]]
  end.
  - erewrite bind_returns by exact E2. unfold ret. intros H. injection H as _ <-.
    exists nomination. eexists. exists (SqlDelete t_beatmapset_creators :: evs).
    split; [reflexivity|]. split; [|split; [|split; [|split]]].
    + unfold Router.select_nomination. rewrite Hnoms. cbn [db emit].
      change (find (fun n => Router.nomination_id n =? Router.metadata_nominationId body)
                   (Router.nominations
                      (Router.delete_creators _ _
                         (Router.update_metadata Router.good None None
                            (Router.metadata_nominationId body) (db w)))))
        with (Router.select_nomination (Router.metadata_nominationId body)
                (Router.update_metadata Router.good None None
                   (Router.metadata_nominationId body) (db w))).
      rewrite select_after_update_metadata, Hsel. reflexivity.
    + reflexivity.
    + reflexivity.
    + reflexivity.
    + rewrite Htrace. cbn [trace emit]. unfold checker_events. rewrite Hgood.
      cbn [Router.MetadataState_eqb andb]. rewrite <- !app_assoc. reflexivity.
  - erewrite bind_throws by exact E2. discriminate.
Qed.

End RouterProofs.

(** ** POST /nomination-submit *)

Section SubmitProofs.
Variable S : Type.
Variable osu : Collaborator S.

(** What an accepted nomination writes. *)
Lemma nomination_submit_success ctx body (w w' : World Router.DB S) j :
  handle (Router.nomination_submit osu ctx body) w = (Json j, w') ->
  exists gameMode beatmapsetId,
    isGameMode (Router.submit_gameMode body) = Some gameMode
    /\ Router.nominations (db w')
       = Router.nominations (db w)
         ++ [Router.new_nomination (Router.nominations_auto_increment (db w)) beatmapsetId
               gameMode (Router.count_nominations (Router.submit_roundId body) gameMode (db w))
               (Router.submit_parentId body) (Router.submit_roundId body)]
    /\ Router.nominations_auto_increment (db w')
       = Router.nominations_auto_increment (db w) + 1
    /\ Router.select_nomination (Router.nominations_auto_increment (db w)) (db w')
       = Some (Router.json_nomination j).
Proof.
  unfold Router.nomination_submit, handle.
  destruct (Router.as_number (Router.submit_beatmapsetId body)) as [b|]; [|cbn; discriminate].
  destruct (isGameMode (Router.submit_gameMode body)) as [g|]; [|cbn; discriminate].
  unfold bind at 1.
  assert (Hparent : exists ok,
            match Router.submit_parentId body with
            | Some parentId =>
                parentNomination <- query (Router.select_nomination parentId) ;;
                ret (match parentNomination with Some _ => true | None => false end)
            | None => ret true
            end w = (Ret ok, w)).
  { destruct (Router.submit_parentId body); eexists; reflexivity. }
  destruct Hparent as [ok Hparent]. rewrite Hparent.
  destruct ok; [|cbn; discriminate]. cbn [negb].
  unfold bind at 1, call at 1.
  destruct (createOrRefreshBeatmapset osu b false (osu_store w)) as [[beatmapset|] s1];
    [|cbn; discriminate].
  destruct (negb (existsb (Z.eqb g) (game_modes beatmapset))); [cbn; discriminate|].
  unfold bind at 1, query at 1. cbn [db emit].
  destruct (Router.select_duplicate (Router.submit_roundId body) g (beatmapset_id beatmapset)
                                    (db w)); [cbn; discriminate|].
  unfold bind at 1, query at 1. cbn [db emit].
  unfold bind at 1, transact, Router.submitTransaction, bind at 1, insert, Router.insert_nomination,
    bind at 1, execute, ret at 1, emit. cbn [db osu_store trace].
  unfold bind at 1, query_join at 1. cbn [db osu_store trace].
  unfold bind at 1, query at 1. cbn [db osu_store trace].
  match goal with
  | |- context [match ?sel with Some _ => _ | None => throw "TypeError" end] =>
      destruct sel as [nomination|] eqn:Hsel; [|cbn; discriminate]
  end.
  unfold bind, query_osu, query_join, ret. cbn [db osu_store trace].
  intros H. injection H as <- <-. cbn [db Router.json_nomination].
  exists g, (beatmapset_id beatmapset). repeat split; try reflexivity. exact Hsel.
Qed.

Lemma select_fresh a n (l : list Router.Nomination) (d : Router.DB) :
  Router.nominations d = l ++ [n] ->
  Router.nomination_id n = a ->
  (forall x, In x l -> Router.nomination_id x < a) ->
  Router.select_nomination a d = Some n.
Proof.
  intros Hd Hid Hfresh. unfold Router.select_nomination. rewrite Hd. clear Hd.
  induction l as [|x l IH]; cbn [app find].
  - rewrite Hid, Z.eqb_refl. reflexivity.
  - assert (Hx : Router.nomination_id x < a) by (apply Hfresh; left; reflexivity).
    destruct (Router.nomination_id x =? a) eqn:E; [apply Z.eqb_eq in E; lia|].
    apply IH. intros y Hy. apply Hfresh. right. exact Hy.
Qed.

Lemma count_after_insert roundId gameMode (d d' : Router.DB) n :
  Router.nominations d' = Router.nominations d ++ [n] ->
  Router.count_nominations roundId gameMode d'
  = Router.count_nominations roundId gameMode d
    + (if (Router.round_id n =? roundId) && (Router.game_mode n =? gameMode) then 1 else 0).
Proof.
  intros Hd. unfold Router.count_nominations. rewrite Hd, filter_app, length_app.
  cbn [filter]. destruct ((Router.round_id n =? roundId) && (Router.game_mode n =? gameMode));
    cbn [List.length]; lia.
Qed.

Lemma filter_keeps_older nominationId a (l : list Router.Nomination) :
  (forall x, In x l -> Router.nomination_id x < a) ->
  a <= nominationId ->
  filter (fun n => negb (Router.nomination_id n =? nominationId)) l = l.
Proof.
  intros Hfresh Hle. induction l as [|x l IH]; [reflexivity|]. cbn [filter].
  assert (Hx : Router.nomination_id x < a) by (apply Hfresh; left; reflexivity).
  destruct (Router.nomination_id x =? nominationId) eqn:E; [apply Z.eqb_eq in E; lia|].
  cbn [negb]. f_equal. apply IH. intros y Hy. apply Hfresh. right. exact Hy.
Qed.

(** C2 (amended).  An accepted nomination is appended with the number of
    nominations of its round and game mode as its order.  When two
    nominations are accepted back-to-back for one round and game mode, one
    of the two is deleted and a third is accepted, the three orders are
    [k], [k + 1] and [k + 1] again, [k] being the number of nominations
    before: the third meets the order of the second. *)
Theorem nomination_submit_order :
  (forall ctx body (w w' : World Router.DB S) j,
     handle (Router.nomination_submit osu ctx body) w = (Json j, w') ->
     exists gameMode n,
       isGameMode (Router.submit_gameMode body) = Some gameMode
       /\ Router.nominations (db w') = Router.nominations (db w) ++ [n]
       /\ Router.round_id n = Router.submit_roundId body
       /\ Router.game_mode n = gameMode
       /\ Router.order n
          = Router.count_nominations (Router.submit_roundId body) gameMode (db w)
       /\ (nominations_fresh (db w) -> Router.json_nomination j = n))
  /\
  (forall ctx1 ctx2 ctx3 ctxd body1 body2 body3 nominationId
          (w0 w1 w2 w3 w4 : World Router.DB S) j1 j2 j3 roundId gameMode,
     nominations_fresh (db w0) ->
     Router.submit_roundId body1 = roundId ->
     Router.submit_roundId body2 = roundId ->
     Router.submit_roundId body3 = roundId ->
     isGameMode (Router.submit_gameMode body1) = Some gameMode ->
     isGameMode (Router.submit_gameMode body2) = Some gameMode ->
     isGameMode (Router.submit_gameMode body3) = Some gameMode ->
     handle (Router.nomination_submit osu ctx1 body1) w0 = (Json j1, w1) ->
     handle (Router.nomination_submit osu ctx2 body2) w1 = (Json j2, w2) ->
     nominationId = Router.nomination_id (Router.json_nomination j1)
     \/ nominationId = Router.nomination_id (Router.json_nomination j2) ->
     handle (Router.delete_nomination ctxd nominationId) w2 = (Empty 204, w3) ->
     handle (Router.nomination_submit osu ctx3 body3) w3 = (Json j3, w4) ->
     let k := Router.count_nominations roundId gameMode (db w0) in
     Router.order (Router.json_nomination j1) = k
     /\ Router.order (Router.json_nomination j2) = k + 1
     /\ Router.order (Router.json_nomination j3) = k + 1).
Proof.
  split.
  - intros ctx body w w' j H.
    destruct (nomination_submit_success ctx body w w' j H) as [g [b [Hg [Hn [Ha Hsel]]]]].
    exists g. eexists. split; [exact Hg|]. split; [exact Hn|].
    repeat (split; [reflexivity|]).
    intros Hfresh. erewrite select_fresh in Hsel; [| exact Hn | reflexivity | exact Hfresh].
    injection Hsel as <-. reflexivity.
  - intros ctx1 ctx2 ctx3 ctxd body1 body2 body3 nid w0 w1 w2 w3 w4 j1 j2 j3 r g
           Hfresh Hr1 Hr2 Hr3 Hg1 Hg2 Hg3 H1 H2 Hnid Hd H3 k.
    destruct (nomination_submit_success ctx1 body1 w0 w1 j1 H1) as [g1 [b1 [Eg1 [N1 [A1 S1]]]]].
    rewrite Hg1 in Eg1. injection Eg1 as <-. rewrite Hr1 in *.
    erewrite select_fresh in S1; [| exact N1 | reflexivity | exact Hfresh].
    injection S1 as J1.
    assert (Hfresh1 : nominations_fresh (db w1)).
    { intros x Hx. rewrite N1 in Hx. rewrite A1. apply in_app_or in Hx. destruct Hx as [Hx|[<-|[]]].
      - apply Hfresh in Hx. lia.
      - cbn. lia. }
    destruct (nomination_submit_success ctx2 body2 w1 w2 j2 H2) as [g2 [b2 [Eg2 [N2 [A2 S2]]]]].
    rewrite Hg2 in Eg2. injection Eg2 as <-. rewrite Hr2 in *.
    erewrite select_fresh in S2; [| exact N2 | reflexivity | exact Hfresh1].
    injection S2 as J2.
    assert (C1 : Router.count_nominations r g (db w1) = k + 1).
    { rewrite (count_after_insert r g (db w0) (db w1) _ N1). cbn. rewrite !Z.eqb_refl.
      reflexivity. }
    apply delete_nomination_run in Hd.
    assert (C3 : Router.count_nominations r g (db w3) = k + 1).
    { subst w3. unfold Router.count_nominations. cbn. rewrite N2, N1, A1.
      rewrite <- J1, <- J2 in Hnid. cbn in Hnid. rewrite A1 in Hnid. rewrite !filter_app. cbn [filter Router.nomination_id
        Router.new_nomination].
      rewrite (filter_keeps_older nid (Router.nominations_auto_increment (db w0)));
        [|exact Hfresh|destruct Hnid; lia].
      destruct Hnid as [-> | ->].
      - rewrite Z.eqb_refl. cbn [negb app].
        replace (Router.nominations_auto_increment (db w0) + 1
                 =? Router.nominations_auto_increment (db w0)) with false
          by (symmetry; apply Z.eqb_neq; lia).
        cbn. rewrite !Z.eqb_refl. cbn. rewrite app_nil_r, length_app. cbn. 
        unfold k, Router.count_nominations. lia.
      - rewrite Z.eqb_refl.
        replace (Router.nominations_auto_increment (db w0)
                 =? Router.nominations_auto_increment (db w0) + 1) with false
          by (symmetry; apply Z.eqb_neq; lia).
        cbn. rewrite !Z.eqb_refl. cbn. rewrite app_nil_r, length_app. cbn.
        unfold k, Router.count_nominations. lia. }
    assert (Hfresh3 : nominations_fresh (db w3)).
    { subst w3. intros x Hx. cbn in Hx. apply filter_In in Hx. destruct Hx as [Hx _].
      cbn. rewrite N2, N1 in Hx. rewrite A2, A1.
      apply in_app_or in Hx. destruct Hx as [Hx|[<-|[]]].
      - apply in_app_or in Hx. destruct Hx as [Hx|[<-|[]]].
        + apply Hfresh in Hx. lia.
        + cbn. lia.
      - cbn. lia. }
    destruct (nomination_submit_success ctx3 body3 w3 w4 j3 H3) as [g3 [b3 [Eg3 [N3 [A3 S3]]]]].
    rewrite Hg3 in Eg3. injection Eg3 as <-. rewrite Hr3 in *.
    erewrite select_fresh in S3; [| exact N3 | reflexivity | exact Hfresh3].
    injection S3 as J3.
    rewrite <- J1, <- J2, <- J3. cbn [Router.order Router.new_nomination]. rewrite C1, C3. auto.
Qed.

End SubmitProofs.

(** ** POST /add-round and GET /rounds *)

Section RoundProofs.
Variable S : Type.
Variable ctx : Router.Context.

Lemma insert_by_id_In r x l : In x (Router.insert_by_id r l) <-> x = r \/ In x l.
Proof.
  induction l as [|y l IH]; cbn [Router.insert_by_id].
  - cbn. intuition.
  - destruct (Router.id r <=? Router.id y); cbn [In]; [intuition|].
    rewrite IH. intuition.
Qed.

Lemma order_by_id_In x l : In x (Router.order_by_id l) <-> In x l.
Proof.
  unfold Router.order_by_id. induction l as [|y l IH]; cbn [fold_right]; [reflexivity|].
  rewrite insert_by_id_In, IH. cbn. intuition.
Qed.

Lemma no_nominations_of_new_round roundId (d : Router.DB) :
  (forall n, In n (Router.nominations d) -> Router.round_id n <> roundId) ->
  nominations_of_round roundId d = 0.
Proof.
  unfold nominations_of_round. intros Hnone.
  induction (Router.nominations d) as [|n l IH]; [reflexivity|]. cbn [filter].
  assert (Hn : Router.round_id n <> roundId) by (apply Hnone; left; reflexivity).
  destruct (Router.round_id n =? roundId) eqn:E; [apply Z.eqb_eq in E; contradiction|].
  apply IH. intros y Hy. apply Hnone. right. exact Hy.
Qed.

Lemma no_game_modes_of_new_round roundId gameMode (l : list Router.RoundGameMode) :
  (forall m, In m l -> Router.rgm_round_id m < roundId) ->
  filter (fun m => (Router.rgm_round_id m =? roundId) && (Router.rgm_game_mode m =? gameMode)) l
  = [].
Proof.
  intros Hfresh. induction l as [|m l IH]; [reflexivity|]. cbn [filter].
  assert (Hm : Router.rgm_round_id m < roundId) by (apply Hfresh; left; reflexivity).
  destruct (Router.rgm_round_id m =? roundId) eqn:E; [apply Z.eqb_eq in E; lia|].
  cbn [andb]. apply IH. intros y Hy. apply Hfresh. right. exact Hy.
Qed.

(** C8.  POST /add-round of a news author creates the round and seeds one
    row of [round_game_modes] for each of the game modes 0 to 3, with the
    threshold [accessSetting] has for the mode or 0 when it has none; a GET
    /rounds that follows lists the round among the incomplete rounds and not
    among the complete ones, with the number of the nominations that were
    stored under its id before it was created, which is 0 when there is
    none. *)
Theorem add_round_then_rounds (w : World Router.DB S) :
  Router.roles_news (Router.authRoles ctx) = true ->
  rounds_fresh (db w) ->
  exists roundId w' listed w'',
    handle (Router.add_round ctx) w = (Json roundId, w')
    /\ Router.round_game_modes (db w')
       = Router.round_game_modes (db w)
         ++ map (fun gameMode =>
                   Router.mkRoundGameMode roundId gameMode
                     match Router.accessSetting ctx (Router.thresholdSetting gameMode) with
                     | Some threshold => threshold
                     | None => 0
                     end
                     false)
                gameModes
    /\ (forall gameMode,
          In gameMode gameModes ->
          List.length (filter (fun m => (Router.rgm_round_id m =? roundId)
                                        && (Router.rgm_game_mode m =? gameMode))
                              (Router.round_game_modes (db w'))) = 1%nat)
    /\ handle (Router.get_rounds (S := S)) w' = (Json listed, w'')
    /\ In (Router.mkRoundJson (Router.new_round roundId "Unnamed round")
                              (nominations_of_round roundId (db w)))
          (Router.incomplete_rounds listed)
    /\ (forall round, In round (Router.incomplete_rounds listed) ->
                      Router.id (Router.json_round round) = roundId ->
                      round = Router.mkRoundJson (Router.new_round roundId "Unnamed round")
                                                 (nominations_of_round roundId (db w)))
    /\ (forall round, In round (Router.complete_rounds listed) ->
                      Router.id (Router.json_round round) <> roundId)
    /\ ((forall n, In n (Router.nominations (db w)) -> Router.round_id n <> roundId) ->
        nominations_of_round roundId (db w) = 0).
Proof.
  intros Hnews [Hrounds Hmodes].
  set (roundId := Router.rounds_auto_increment (db w)).
  exists roundId. eexists. eexists. eexists.
  split; [|split; [|split; [|split; [|split; [|split; [|split]]]]]].
  - unfold Router.add_round, Router.isNewsAuthor. rewrite Hnews.
    apply handle_returns. apply transact_returns. unfold Router.addRoundTransaction.
    unfold bind, insert, Router.insert_round, forEach, bind, execute, ret, emit.
    cbn [db osu_store trace]. reflexivity.
  - cbn. rewrite <- !app_assoc. reflexivity.
  - intros g Hg. cbn [db Router.round_game_modes Router.insert_round_game_mode
                       Router.set_round_game_modes].
    rewrite !filter_app, (no_game_modes_of_new_round roundId g _ Hmodes).
    cbn [filter Router.rgm_round_id Router.rgm_game_mode app]. rewrite Z.eqb_refl. cbn [andb].
    destruct Hg as [<-|[<-|[<-|[<-|[]]]]]; reflexivity.
  - unfold Router.get_rounds. apply handle_returns. unfold bind, query, ret. reflexivity.
  - cbn [Router.incomplete_rounds]. apply filter_In. split; [|reflexivity].
    unfold Router.select_rounds. apply in_map_iff.
    exists (Router.new_round roundId "Unnamed round"). split.
    + reflexivity.
    + apply order_by_id_In. cbn. apply in_or_app. right. left. reflexivity.
  - intros round Hin Hid. cbn [Router.incomplete_rounds] in Hin.
    apply filter_In in Hin. destruct Hin as [Hin _]. unfold Router.select_rounds in Hin.
    apply in_map_iff in Hin. destruct Hin as [r [<- Hr]]. cbn [Router.json_round] in Hid.
    apply (proj1 (order_by_id_In _ _)) in Hr. cbn in Hr. apply in_app_or in Hr. destruct Hr as [Hr|[<-|[]]].
    + apply Hrounds in Hr. fold roundId in Hr. lia.
    + reflexivity.
  - intros round Hin Hid. cbn [Router.complete_rounds] in Hin. apply in_rev in Hin.
    apply filter_In in Hin. destruct Hin as [Hin Hdone]. unfold Router.select_rounds in Hin.
    apply in_map_iff in Hin. destruct Hin as [r [<- Hr]]. cbn [Router.json_round] in Hid, Hdone.
    apply (proj1 (order_by_id_In _ _)) in Hr. cbn in Hr. apply in_app_or in Hr. destruct Hr as [Hr|[<-|[]]].
    + apply Hrounds in Hr. fold roundId in Hr. lia.
    + discriminate Hdone.
  - apply no_nominations_of_new_round.
Qed.

End RoundProofs.

(** ** Runs of the example deployment *)


Lemma router_world_fresh : nominations_fresh (db router_world).
Proof.
  intros n [<-|[]]. reflexivity.
Defined.

Lemma nomination_submit_order_witness :
  exists j1 j2 j3,
    fst first_submit = Json j1 /\ fst second_submit = Json j2 /\ fst third_submit = Json j3
    /\ Router.order (Router.json_nomination j1) = 1
    /\ Router.order (Router.json_nomination j2) = 1 + 1
    /\ Router.order (Router.json_nomination j3) = 1 + 1.
Proof.
  assert (E1 : handle (Router.nomination_submit router_osu nominator_ctx (submit_body 101))
                      router_world = first_submit) by (vm_compute; reflexivity).
  assert (E2 : handle (Router.nomination_submit router_osu nominator_ctx (submit_body 102))
                      (snd first_submit) = second_submit) by (vm_compute; reflexivity).
  assert (Ed : handle (Router.delete_nomination nominator_ctx 6) (snd second_submit)
               = first_deleted) by (vm_compute; reflexivity).
  assert (E3 : handle (Router.nomination_submit router_osu nominator_ctx (submit_body 101))
                      (snd first_deleted) = third_submit) by (vm_compute; reflexivity).
  eexists. eexists. eexists.
  split; [reflexivity|]. split; [reflexivity|]. split; [reflexivity|].
  exact (proj2 (nomination_submit_order unit router_osu)
           nominator_ctx nominator_ctx nominator_ctx nominator_ctx
           (submit_body 101) (submit_body 102) (submit_body 101) 6
           router_world (snd first_submit) (snd second_submit) (snd first_deleted)
           (snd third_submit) _ _ _ 1 0
           router_world_fresh eq_refl eq_refl eq_refl eq_refl eq_refl eq_refl
           E1 E2 (or_introl eq_refl) Ed E3).
Defined.

(** C2 as stated fails: the second and the third nomination both receive
    order 2, so the orders of the successive creations are not strictly
    increasing. *)
Lemma nomination_orders_collide :
  status_of (fst first_deleted) = 204
  /\ map submitted_order [fst first_submit; fst second_submit; fst third_submit]
     = [Some 1; Some 2; Some 2]
  /\ ~ (forall o2 o3, submitted_order (fst second_submit) = Some o2 ->
                      submitted_order (fst third_submit) = Some o3 -> o2 < o3).
Proof.
  split; [reflexivity|]. split; [reflexivity|].
  intros H. specialize (H 2 2 eq_refl eq_refl). lia.
Qed.

Lemma edit_description_state_witness :
  exists edited,
    Router.select_nomination 5
      (db (snd (handle (Router.nomination_edit_description router_osu
                          (router_ctx 8 false true false)
                          (description_body (Some "new text"))) router_world)))
    = Some edited
    /\ Router.description_state edited = Router.reviewed.
Proof.
  destruct (edit_description_state unit router_osu (router_ctx 8 false true false)
              (description_body (Some "new text")) router_world _ _ eq_refl)
    as [existing [edited [Hex [Hed [Hiff _]]]]].
  exists edited. split; [exact Hed|]. apply Hiff.
  injection Hex as <-. repeat split; discriminate.
Defined.

Lemma edit_description_clears_author_witness :
  exists edited,
    Router.select_nomination 5
      (db (snd (handle (Router.nomination_edit_description router_osu nominator_ctx
                          (description_body None)) router_world)))
    = Some edited
    /\ Router.description edited = None
    /\ Router.description_author_id edited = None.
Proof.
  apply (edit_description_clears_author unit router_osu nominator_ctx (description_body None)
           router_world _ _ eq_refl eq_refl).
Defined.

Lemma edit_metadata_good_witness :
  exists nomination edited evs,
    Router.select_nomination 5 (db router_world) = Some nomination
    /\ Router.select_nomination 5
         (db (snd (handle (Router.nomination_edit_metadata router_osu
                             (router_ctx 8 false false true)
                             (metadata_body Router.creatorsAbsent)) router_world)))
       = Some edited
    /\ Router.metadata_state edited = Router.good
    /\ Router.overwrite_artist edited = None
    /\ Router.overwrite_title edited = None
    /\ trace (snd (handle (Router.nomination_edit_metadata router_osu
                             (router_ctx 8 false false true)
                             (metadata_body Router.creatorsAbsent)) router_world))
       = trace router_world
         ++ (if Router.MetadataState_eqb (Router.metadata_state nomination) Router.needsChange
             then [OsuBeatmapset (Router.nomination_beatmapset_id nomination) true]
             else [])
         ++ SqlUpdate t_nominations :: evs.
Proof.
  apply (edit_metadata_good unit router_osu (router_ctx 8 false false true)
           (metadata_body Router.creatorsAbsent) router_world _ _ eq_refl eq_refl eq_refl).
Defined.

Lemma edit_metadata_clears_creators_witness :
  exists r w',
    handle (Router.nomination_edit_metadata router_osu (router_ctx 8 false false true)
              (metadata_body (Router.creatorsArray []))) router_world = (Json r, w')
    /\ Router.beatmapset_creators (db w') = [Router.mkCreator 100 8 3].
Proof.
  destruct (edit_metadata_clears_creators unit router_osu (router_ctx 8 false false true)
              (metadata_body (Router.creatorsArray [])) router_world example_nomination
              (or_introl eq_refl) eq_refl (or_intror (or_intror eq_refl)))
    as [r [w' [evs [E [_ [Hc _]]]]]].
  exists r, w'. split; [exact E|]. rewrite Hc. reflexivity.
Defined.

Lemma router_world_rounds_fresh : rounds_fresh (db router_world).
Proof.
  split.
  - intros r [<-|[]]. reflexivity.
  - intros m [].
Defined.

Lemma add_round_then_rounds_witness :
  exists roundId w' listed w'',
    handle (Router.add_round (router_ctx 8 false true false)) router_world = (Json roundId, w')
    /\ Router.round_game_modes (db w')
       = [Router.mkRoundGameMode roundId 0 0 false; Router.mkRoundGameMode roundId 1 0 false;
          Router.mkRoundGameMode roundId 2 0 false; Router.mkRoundGameMode roundId 3 25 false]
    /\ handle (Router.get_rounds (S := unit)) w' = (Json listed, w'')
    /\ In (Router.mkRoundJson (Router.new_round roundId "Unnamed round") 0)
          (Router.incomplete_rounds listed).
Proof.
  destruct (add_round_then_rounds unit (router_ctx 8 false true false) router_world eq_refl
              router_world_rounds_fresh)
    as [roundId [w' [listed [w'' [E [Hm [_ [El [Hin [_ [_ Hzero]]]]]]]]]]].
  exists roundId, w', listed, w''. split; [exact E|]. split; [|split; [exact El|]].
  - rewrite Hm. reflexivity.
  - rewrite <- Hzero; [exact Hin|].
    intros n [<-|[]] Hn. injection E as <- _. discriminate Hn.
Defined.

(** C8 as stated fails: POST /nomination-submit does not look the round
    up, so a nomination can be stored for round 2 before the round exists;
    the round that POST /add-round then creates is listed with one
    nomination, not with none. *)
Lemma add_round_counts_earlier_nominations :
  status_of (fst early_submit) = 200
  /\ handle (Router.add_round news_ctx) (snd early_submit) = early_round_added
  /\ fst early_round_added = Json 2
  /\ handle (Router.get_rounds (S := unit)) (snd early_round_added) = early_rounds_listed
  /\ listed_count 2 (fst early_rounds_listed) = [1]
  /\ ~ (forall listed round,
          fst early_rounds_listed = Json listed ->
          In round (Router.incomplete_rounds listed) ->
          Router.id (Router.json_round round) = 2 ->
          Router.nomination_count round = 0).
Proof.
  split; [reflexivity|]. split; [vm_compute; reflexivity|]. split; [reflexivity|].
  split; [vm_compute; reflexivity|]. split; [reflexivity|].
  intros H.
  specialize (H _ (Router.mkRoundJson (Router.new_round 2 "Unnamed round") 1) eq_refl).
  cbn in H. assert (E : 1 = 0) by (apply H; auto). discriminate E.
Qed.

(** * Further properties of the routes *)

Lemma NoDup_app_iff_snoc {A} (l : list A) (x : A) :
  NoDup l -> ~ In x l -> NoDup (l ++ [x]).
Proof.
  intros Hl Hx. induction Hl as [|y l Hy Hl IH]; cbn.
  - constructor; [intros []|constructor].
  - constructor.
    + intros Hin. apply in_app_or in Hin. destruct Hin as [Hin|[<-|[]]].
      * contradiction.
      * apply Hx. left. reflexivity.
    + apply IH. intros Hin. apply Hx. right. exact Hin.
Qed.

(** ** POST /review: what the answers leave behind *)

Ltac unchanged :=
  let H := fresh "H" in
  intros H; injection H as <- <-; left; split; [discriminate|reflexivity].

Section ReviewFrames.
Variable S : Type.
Variable osu : Collaborator S.
Variable ctx : Anyone.Context.

Lemma deleteExistingSubmission_effect beatmapset beatmapsetId gameMode
  (w : World Anyone.DB S) :
  exists w',
    Anyone.deleteExistingSubmission ctx beatmapset beatmapsetId gameMode w = (Ret tt, w')
    /\ Anyone.reviews (db w') = Anyone.reviews (db w)
    /\ Anyone.reviews_auto_increment (db w') = Anyone.reviews_auto_increment (db w)
    /\ Anyone.submissions (db w')
       = match Anyone.select_open_submission beatmapsetId gameMode (Anyone.actor_id ctx)
                 (db w) with
         | Some submission =>
             filter (fun s => negb (Anyone.submission_id s =? Anyone.submission_id submission))
                    (Anyone.submissions (db w))
         | None => Anyone.submissions (db w)
         end
    /\ Anyone.logs (db w')
       = Anyone.logs (db w)
         ++ match Anyone.select_open_submission beatmapsetId gameMode (Anyone.actor_id ctx)
                  (db w) with
            | Some submission =>
                [Anyone.submissionDeleted (Anyone.actor_id ctx) (beatmapset_id beatmapset)
                                          submission (Anyone.actor_id ctx)]
            | None => []
            end
    /\ trace w'
       = trace w
         ++ match Anyone.select_open_submission beatmapsetId gameMode (Anyone.actor_id ctx)
                  (db w) with
            | Some _ => [SqlDelete t_submissions; SqlInsert t_logs]
            | None => []
            end.
Proof.
  unfold Anyone.deleteExistingSubmission. step.
  destruct (Anyone.select_open_submission beatmapsetId gameMode (Anyone.actor_id ctx) (db w)).
  - eexists. split; [reflexivity|]. cbn. rewrite <- app_assoc. auto 6.
  - eexists. split; [reflexivity|]. cbn. rewrite !app_nil_r. auto 6.
Qed.

(** The transaction of the update path answers with the review or throws. *)
Lemma updateTransaction_answers beatmapset beatmapsetId gameMode reason score activeCaptain
  existingReview (w : World Anyone.DB S) :
  match Anyone.updateTransaction ctx beatmapset beatmapsetId gameMode reason score activeCaptain
                                 existingReview w with
  | (Ret r, w') =>
      (exists j, r = Json j)
      /\ Anyone.reviews (db w')
         = Anyone.reviews (Anyone.update_review reason (Anyone.now ctx) score
                             (Anyone.review_id existingReview) (db w))
      /\ Anyone.reviews_auto_increment (db w') = Anyone.reviews_auto_increment (db w)
  | (Thrown _, _) => True
  end.
Proof.
  unfold Anyone.updateTransaction. step. step.
  match goal with |- context [match ?x with Some _ => _ | None => throw _ end] => destruct x end;
    [|exact I].
  match goal with |- context [bind (if ?c then _ else _)] => destruct c end; step.
  all: match goal with
       | |- context [bind (Anyone.deleteExistingSubmission _ ?b ?i ?g) _ ?w0] =>
           destruct (deleteExistingSubmission_effect b i g w0) as [w3 [E3 [Hr [Ha _]]]]
       end.
  all: erewrite bind_returns by exact E3; step; unfold ret.
  all: split; [eexists; reflexivity|]; cbn [db emit]; rewrite Hr, Ha; split; reflexivity.
Qed.

Lemma select_by_id_appended a (l : list Anyone.Review) r (d : Anyone.DB) :
  Anyone.reviews d = l ++ [r] -> Anyone.review_id r = a ->
  Anyone.select_review_by_id a d <> None.
Proof.
  intros Hd Hid. unfold Anyone.select_review_by_id. rewrite Hd.
  intros Hnone. eapply find_none in Hnone; [|apply in_or_app; right; left; reflexivity].
  rewrite Hid, Z.eqb_refl in Hnone. discriminate.
Qed.

(** The transaction of the create path answers with a review and never
    throws. *)
Lemma createTransaction_answers beatmapset beatmapsetId gameMode reason score activeCaptain
  (w : World Anyone.DB S) :
  exists j w',
    Anyone.createTransaction ctx beatmapset beatmapsetId gameMode reason score activeCaptain w
    = (Ret (Json j), w')
    /\ Anyone.select_review_by_id (Anyone.reviews_auto_increment (db w))
         (snd (Anyone.insert_review beatmapsetId gameMode reason (Anyone.now ctx)
                                    (Anyone.actor_id ctx) score (db w)))
       = Some (Anyone.json_review j)
    /\ Anyone.reviews (db w')
       = Anyone.reviews (db w)
         ++ [Anyone.mkReview (Anyone.reviews_auto_increment (db w)) beatmapsetId gameMode reason
                             (Anyone.now ctx) (Anyone.actor_id ctx) score]
    /\ Anyone.reviews_auto_increment (db w') = Anyone.reviews_auto_increment (db w) + 1
    /\ Anyone.logs (db w')
       = Anyone.logs (db w)
         ++ Anyone.reviewCreated (beatmapset_id beatmapset) (Anyone.json_review j)
                                 (Anyone.actor_id ctx)
            :: match Anyone.select_open_submission beatmapsetId gameMode (Anyone.actor_id ctx)
                       (db w) with
               | Some submission =>
                   [Anyone.submissionDeleted (Anyone.actor_id ctx) (beatmapset_id beatmapset)
                                             submission (Anyone.actor_id ctx)]
               | None => []
               end
    /\ Anyone.submissions (db w')
       = match Anyone.select_open_submission beatmapsetId gameMode (Anyone.actor_id ctx)
                 (db w) with
         | Some submission =>
             filter (fun s => negb (Anyone.submission_id s =? Anyone.submission_id submission))
                    (Anyone.submissions (db w))
         | None => Anyone.submissions (db w)
         end
    /\ trace w' = trace w
                  ++ [SqlInsert t_reviews; SqlInsert t_logs]
                  ++ match Anyone.select_open_submission beatmapsetId gameMode
                             (Anyone.actor_id ctx) (db w) with
                     | Some _ => [SqlDelete t_submissions; SqlInsert t_logs]
                     | None => []
                     end
                  ++ [CacheDeleted (Anyone.reviewsCacheKey gameMode)].
Proof.
  unfold Anyone.createTransaction.
  erewrite bind_returns by (unfold insert, Anyone.insert_review; reflexivity). cbv beta.
  step. cbn [db emit].
  destruct (Anyone.select_review_by_id (Anyone.reviews_auto_increment (db w)) _)
    as [newReview|] eqn:Hsel.
  2:{ exfalso. eapply select_by_id_appended in Hsel; [exact Hsel| |]; reflexivity. }
  step.
  match goal with
  | |- context [bind (Anyone.deleteExistingSubmission _ ?b ?i ?g) _ ?w0] =>
      destruct (deleteExistingSubmission_effect b i g w0)
        as [w3 [E3 [Hr [Ha [Hs [Hl Ht]]]]]]
  end.
  erewrite bind_returns by exact E3. step. unfold ret.
  unfold Anyone.select_open_submission in *. cbn [db emit trace Anyone.submissions] in *.
  eexists. eexists. split; [reflexivity|]. cbn [db emit trace Anyone.json_review].
  split; [first [exact Hsel | reflexivity]|]. rewrite Hr, Ha, Hs, Hl, Ht. cbn.
  repeat split; rewrite <- ?app_assoc; reflexivity.
Qed.

Lemma create_keeps_store beatmapset beatmapsetId gameMode reason score activeCaptain
  (w : World Anyone.DB S) :
  osu_store (snd (Anyone.createTransaction ctx beatmapset beatmapsetId gameMode reason score
                                           activeCaptain w)) = osu_store w.
Proof.
  unfold Anyone.createTransaction.
  erewrite bind_returns by (unfold insert, Anyone.insert_review; reflexivity). cbv beta.
  step. match goal with |- context [match ?x with Some _ => _ | None => throw _ end] =>
                destruct x end; [|reflexivity].
  step.
  match goal with
  | |- context [bind (Anyone.deleteExistingSubmission _ ?b ?i ?g) _ ?w0] =>
      assert (Hd : exists w3, Anyone.deleteExistingSubmission ctx b i g w0 = (Ret tt, w3)
                              /\ osu_store w3 = osu_store w0)
  end.
  { unfold Anyone.deleteExistingSubmission. step.
    match goal with |- context [match ?x with Some _ => _ | None => ret tt end] =>
      destruct x end; eexists; split; reflexivity. }
  destruct Hd as [w3 [E3 Hs3]]. erewrite bind_returns by exact E3. step. unfold ret.
  cbn [snd osu_store emit]. rewrite Hs3. reflexivity.
Qed.

(** The three ways POST /review ends: nothing written, the review held
    rewritten, or a review appended. *)
Lemma review_outcome body (w w' : World Anyone.DB S) r :
  handle (Anyone.review osu ctx body) w = (r, w') ->
  ((forall j, r <> Json j) /\ db w' = db w)
  \/ (exists j beatmapsetId gameMode reason score existingReview,
        r = Json j
        /\ isInteger (Anyone.body_beatmapsetId body) = Some beatmapsetId
        /\ isGameMode (Anyone.body_gameMode body) = Some gameMode
        /\ Anyone.select_review beatmapsetId (Anyone.actor_id ctx) gameMode (db w)
           = Some existingReview
        /\ Anyone.reviews (db w')
           = Anyone.reviews (Anyone.update_review reason (Anyone.now ctx) score
                               (Anyone.review_id existingReview) (db w))
        /\ Anyone.reviews_auto_increment (db w') = Anyone.reviews_auto_increment (db w))
  \/ (exists j beatmapsetId gameMode reason score,
        r = Json j
        /\ isInteger (Anyone.body_beatmapsetId body) = Some beatmapsetId
        /\ isGameMode (Anyone.body_gameMode body) = Some gameMode
        /\ Anyone.select_review_by_id (Anyone.reviews_auto_increment (db w))
             (snd (Anyone.insert_review beatmapsetId gameMode reason (Anyone.now ctx)
                                        (Anyone.actor_id ctx) score (db w)))
           = Some (Anyone.json_review j)
        /\ osu_store w' = snd (createOrRefreshBeatmapset osu beatmapsetId true (osu_store w))
        /\ Anyone.select_review beatmapsetId (Anyone.actor_id ctx) gameMode (db w) = None
        /\ Anyone.reviews (db w')
           = Anyone.reviews (db w)
             ++ [Anyone.mkReview (Anyone.reviews_auto_increment (db w)) beatmapsetId gameMode
                                 reason (Anyone.now ctx) (Anyone.actor_id ctx) score]
        /\ Anyone.reviews_auto_increment (db w') = Anyone.reviews_auto_increment (db w) + 1).
Proof.
  unfold Anyone.review, handle.
  destruct (isInteger (Anyone.body_beatmapsetId body)) as [b|]; [|unchanged].
  destruct (isGameMode (Anyone.body_gameMode body)) as [g|]; [|unchanged].
  destruct (as_string (Anyone.body_reason body)) as [reason|]; [|unchanged].
  destruct (isInteger (Anyone.body_score body)) as [score|]; [|unchanged].
  destruct ((score <? -4) || (score >? 3)); [unchanged|].
  destruct (existsb (Z.eqb score) [-4; 0]
            && negb (Anyone.hasRole ctx Anyone.captain (Some g))); [unchanged|].
  step.
  destruct (((score =? -2) || (score =? 2)) && _); [unchanged|].
  unfold bind at 1, call at 1.
  destruct (createOrRefreshBeatmapset osu b true (osu_store w)) as [[beatmapset|] s1]
    eqn:Ecall; [|unchanged].
  destruct (ranked_status beatmapset >? RankedStatus_pending); [unchanged|].
  destruct (negb (existsb (Z.eqb g) (game_modes beatmapset))); [unchanged|].
  set (ac := option_map _ _).
  set (w1 := emit (OsuBeatmapset b true) (mkWorld (db w) s1 (trace w))).
  destruct (Anyone.select_review b (Anyone.actor_id ctx) g (db w)) as [ex|] eqn:Hex.
  - pose proof (updateTransaction_answers beatmapset b g reason score ac ex w1) as Hu.
    unfold transact.
    destruct (Anyone.updateTransaction ctx beatmapset b g reason score ac ex w1)
      as [[r0|e] w2].
    + destruct Hu as [[j ->] [Hr Ha]]. intros H. injection H as <- <-. right. left.
      exists j, b, g, reason, score, ex. repeat split; try reflexivity; assumption.
    + unchanged.
  - destruct (createTransaction_answers beatmapset b g reason score ac w1)
      as [j [w2 [E [Hsel [Hr [Ha _]]]]]].
    assert (Hstore : osu_store w2 = s1).
    { pose proof (create_keeps_store beatmapset b g reason score ac w1) as Hk.
      rewrite E in Hk. exact Hk. }
    unfold transact. rewrite E. intros H. injection H as <- <-. right. right.
    exists j, b, g, reason, score. repeat split; try reflexivity; try assumption.
    rewrite Ecall. exact Hstore.
Qed.

(** X1.  POST /review writes nothing unless it answers with the review: after
    every other answer, the 500 of a failed transaction included, the tables
    are as they were. *)
Theorem review_rejection_writes_nothing body (w w' : World Anyone.DB S) r :
  handle (Anyone.review osu ctx body) w = (r, w') ->
  status_of r <> 200 ->
  db w' = db w.
Proof.
  intros H Hs. destruct (review_outcome body w w' r H) as [[_ E]|[B|C]].
  - exact E.
  - destruct B as [j [b [g [rs [sc [ex [-> _]]]]]]]. exfalso. apply Hs. reflexivity.
  - destruct C as [j [b [g [rs [sc [-> _]]]]]]. exfalso. apply Hs. reflexivity.
Qed.

Lemma update_review_keys reason at_ score rid d :
  map review_key (Anyone.reviews (Anyone.update_review reason at_ score rid d))
  = map review_key (Anyone.reviews d)
  /\ map Anyone.review_id (Anyone.reviews (Anyone.update_review reason at_ score rid d))
     = map Anyone.review_id (Anyone.reviews d).
Proof.
  cbn. rewrite !map_map. split; apply map_ext; intros x;
    destruct (Anyone.review_id x =? rid); reflexivity.
Qed.

Lemma select_review_none_key b u g d :
  Anyone.select_review b u g d = None -> ~ In (b, u, g) (map review_key (Anyone.reviews d)).
Proof.
  unfold Anyone.select_review. intros Hnone Hin. apply in_map_iff in Hin.
  destruct Hin as [x [Hk Hx]]. eapply find_none in Hnone; [|exact Hx].
  unfold review_key in Hk. injection Hk as E1 E2 E3. cbv beta in Hnone.
  rewrite E1, E2, E3, !Z.eqb_refl in Hnone. discriminate.
Qed.

Lemma reviews_wf_updated reason at_ score rid (d d' : Anyone.DB) :
  reviews_wf d ->
  Anyone.reviews d' = Anyone.reviews (Anyone.update_review reason at_ score rid d) ->
  Anyone.reviews_auto_increment d' = Anyone.reviews_auto_increment d ->
  reviews_wf d'.
Proof.
  intros [Hk Hf] Hr Ha. destruct (update_review_keys reason at_ score rid d) as [Ek Ei].
  split.
  - rewrite Hr, Ek. exact Hk.
  - intros x Hx. rewrite Ha. rewrite Hr in Hx.
    assert (Hid : In (Anyone.review_id x) (map Anyone.review_id (Anyone.reviews d))).
    { rewrite <- Ei. apply in_map. exact Hx. }
    apply in_map_iff in Hid. destruct Hid as [y [<- Hy]]. apply Hf. exact Hy.
Qed.

Lemma reviews_wf_appended b g reason at_ u score (d d' : Anyone.DB) :
  reviews_wf d ->
  Anyone.select_review b u g d = None ->
  Anyone.reviews d'
  = Anyone.reviews d ++ [Anyone.mkReview (Anyone.reviews_auto_increment d) b g reason at_ u score] ->
  Anyone.reviews_auto_increment d' = Anyone.reviews_auto_increment d + 1 ->
  reviews_wf d'.
Proof.
  intros [Hk Hf] Hnone Hr Ha. split.
  - rewrite Hr, map_app. cbn [map]. apply NoDup_app_iff_snoc.
    + exact Hk.
    + apply (select_review_none_key _ _ _ _ Hnone).
  - intros x Hx. rewrite Ha. rewrite Hr in Hx. apply in_app_or in Hx.
    destruct Hx as [Hx|[<-|[]]].
    + apply Hf in Hx. lia.
    + cbn. lia.
Qed.

(** X2.  POST /review keeps the [reviews] table well formed, whatever it
    answers: one review per beatmapset, reviewer and game mode, and ids below
    the [AUTO_INCREMENT] key. *)
Theorem review_keeps_reviews_wf body (w : World Anyone.DB S) :
  reviews_wf (db w) ->
  reviews_wf (db (snd (handle (Anyone.review osu ctx body) w))).
Proof.
  intros Hwf.
  destruct (handle (Anyone.review osu ctx body) w) as [r w'] eqn:H. cbn [snd].
  destruct (review_outcome body w w' r H) as [[_ E]|[B|C]].
  - rewrite E. exact Hwf.
  - destruct B as [j [b [g [rs [sc [ex B]]]]]]. decompose [and] B.
    eapply reviews_wf_updated; eassumption.
  - destruct C as [j [b [g [rs [sc C]]]]]. decompose [and] C.
    eapply reviews_wf_appended; eassumption.
Qed.

(** X3.  The scores -4 and 0 are the captain's: a well-formed POST /review with
    one of them is refused with 403, before anything is read or written,
    when the reviewer is no captain of the game mode, and is never answered
    with 403 when the reviewer is one. *)
Theorem review_captain_scores body (w : World Anyone.DB S) beatmapsetId gameMode reason score :
  isInteger (Anyone.body_beatmapsetId body) = Some beatmapsetId ->
  isGameMode (Anyone.body_gameMode body) = Some gameMode ->
  as_string (Anyone.body_reason body) = Some reason ->
  isInteger (Anyone.body_score body) = Some score ->
  score = -4 \/ score = 0 ->
  (Anyone.hasRole ctx Anyone.captain (Some gameMode) = false ->
   handle (Anyone.review osu ctx body) w
   = (ErrorJson 403 (String.append "Must be a captain to use review score " (string_of_Z score)),
      w))
  /\ (Anyone.hasRole ctx Anyone.captain (Some gameMode) = true ->
      status_of (fst (handle (Anyone.review osu ctx body) w)) <> 403).
Proof.
  intros Hb Hg Hr Hs Hd.
  assert (H1 : ((score <? -4) || (score >? 3)) = false) by (destruct Hd; subst score; reflexivity).
  assert (H2 : existsb (Z.eqb score) [-4; 0] = true) by (destruct Hd; subst score; reflexivity).
  unfold Anyone.review, handle. rewrite Hb, Hg, Hr, Hs, H1, H2. split; intros Hcap; rewrite Hcap.
  - reflexivity.
  - cbn [negb andb]. step.
    destruct (((score =? -2) || (score =? 2)) && _); [cbn; discriminate|].
    unfold bind at 1, call at 1.
    destruct (createOrRefreshBeatmapset osu beatmapsetId true (osu_store w))
      as [[beatmapset|] s1]; [|cbn; discriminate].
    destruct (ranked_status beatmapset >? RankedStatus_pending); [cbn; discriminate|].
    destruct (negb (existsb (Z.eqb gameMode) (game_modes beatmapset))); [cbn; discriminate|].
    set (ac := option_map _ _).
    set (w1 := emit (OsuBeatmapset beatmapsetId true) (mkWorld (db w) s1 (trace w))).
    destruct (Anyone.select_review beatmapsetId (Anyone.actor_id ctx) gameMode (db w)) as [ex|].
    + pose proof (updateTransaction_answers beatmapset beatmapsetId gameMode reason score ac ex
                                            w1) as Hu.
      unfold transact.
      destruct (Anyone.updateTransaction ctx beatmapset beatmapsetId gameMode reason score ac ex
                                         w1) as [[r0|e] w2].
      * destruct Hu as [[j ->] _]. cbn. discriminate.
      * cbn. discriminate.
    + destruct (createTransaction_answers beatmapset beatmapsetId gameMode reason score ac w1)
        as [j [w2 [E _]]].
      unfold transact. rewrite E. cbn. discriminate.
Qed.

Lemma select_review_by_id_fresh (l : list Anyone.Review) r (d : Anyone.DB) :
  Anyone.reviews d = l ++ [r] ->
  (forall x, In x l -> Anyone.review_id x < Anyone.review_id r) ->
  Anyone.select_review_by_id (Anyone.review_id r) d = Some r.
Proof.
  intros Hd Hfresh. unfold Anyone.select_review_by_id. rewrite Hd. clear Hd.
  induction l as [|x l IH]; cbn [app find].
  - rewrite Z.eqb_refl. reflexivity.
  - assert (Hx : Anyone.review_id x < Anyone.review_id r) by (apply Hfresh; left; reflexivity).
    destruct (Anyone.review_id x =? Anyone.review_id r) eqn:E; [apply Z.eqb_eq in E; lia|].
    apply IH. intros y Hy. apply Hfresh. right. exact Hy.
Qed.

Lemma review_create_run body (w : World Anyone.DB S) beatmapsetId gameMode reason score
  beatmapset :
  isInteger (Anyone.body_beatmapsetId body) = Some beatmapsetId ->
  isGameMode (Anyone.body_gameMode body) = Some gameMode ->
  as_string (Anyone.body_reason body) = Some reason ->
  isInteger (Anyone.body_score body) = Some score ->
  -4 <= score <= 3 ->
  score <> -2 /\ score <> 2 ->
  (score = -4 \/ score = 0 -> Anyone.hasRole ctx Anyone.captain (Some gameMode) = true) ->
  Anyone.select_review beatmapsetId (Anyone.actor_id ctx) gameMode (db w) = None ->
  beatmapset_eligible osu (osu_store w) beatmapsetId gameMode beatmapset ->
  (forall r, In r (Anyone.reviews (db w)) ->
             Anyone.review_id r < Anyone.reviews_auto_increment (db w)) ->
  let newReview := Anyone.mkReview (Anyone.reviews_auto_increment (db w)) beatmapsetId gameMode
                                   reason (Anyone.now ctx) (Anyone.actor_id ctx) score in
  let openSubmission := Anyone.select_open_submission beatmapsetId gameMode
                                                      (Anyone.actor_id ctx) (db w) in
  exists activeCaptain w' s',
    handle (Anyone.review osu ctx body) w = (Json (Anyone.mkReviewJson newReview activeCaptain), w')
    /\ Anyone.reviews (db w') = Anyone.reviews (db w) ++ [newReview]
    /\ Anyone.logs (db w')
       = Anyone.logs (db w)
         ++ Anyone.reviewCreated (beatmapset_id beatmapset) newReview (Anyone.actor_id ctx)
            :: match openSubmission with
               | Some submission =>
                   [Anyone.submissionDeleted (Anyone.actor_id ctx) (beatmapset_id beatmapset)
                                             submission (Anyone.actor_id ctx)]
               | None => []
               end
    /\ Anyone.submissions (db w')
       = match openSubmission with
         | Some submission =>
             filter (fun s => negb (Anyone.submission_id s =? Anyone.submission_id submission))
                    (Anyone.submissions (db w))
         | None => Anyone.submissions (db w)
         end
    /\ createOrRefreshBeatmapset osu beatmapsetId true (osu_store w) = (Some beatmapset, s')
    /\ trace w' = trace w
                  ++ [OsuBeatmapset beatmapsetId true; SqlInsert t_reviews; SqlInsert t_logs]
                  ++ match openSubmission with
                     | Some _ => [SqlDelete t_submissions; SqlInsert t_logs]
                     | None => []
                     end
                  ++ [CacheDeleted (Anyone.reviewsCacheKey gameMode)].
Proof.
  intros Hb Hg Hr Hs Hrange [Hn2 Hp2] Hcap Hnone [Hosu [Hrank Hmode]] Hfresh newReview
         openSubmission.
  assert (H1 : ((score <? -4) || (score >? 3)) = false).
  { apply orb_false_iff. split; [apply Z.ltb_ge; lia | rewrite Z.gtb_ltb; apply Z.ltb_ge; lia]. }
  assert (H2 : existsb (Z.eqb score) [-4; 0]
               && negb (Anyone.hasRole ctx Anyone.captain (Some gameMode)) = false).
  { cbn [existsb]. destruct (score =? -4) eqn:E4; [|destruct (score =? 0) eqn:E0].
    - apply Z.eqb_eq in E4. rewrite Hcap by auto. reflexivity.
    - apply Z.eqb_eq in E0. rewrite Hcap by auto. reflexivity.
    - reflexivity. }
  assert (H3 : ((score =? -2) || (score =? 2)) = false).
  { apply orb_false_iff. split; apply Z.eqb_neq; assumption. }
  assert (H4 : (ranked_status beatmapset >? RankedStatus_pending) = false).
  { rewrite Z.gtb_ltb. apply Z.ltb_ge. exact Hrank. }
  destruct (createOrRefreshBeatmapset osu beatmapsetId true (osu_store w)) as [ob s'] eqn:Ecall.
  cbn [fst] in Hosu. subst ob.
  set (w1 := emit (OsuBeatmapset beatmapsetId true) (mkWorld (db w) s' (trace w))).
  set (ac := option_map (fun role => negb (Anyone.alumni role))
               (find (fun role => (Anyone.role_game_mode role =? gameMode)
                                  && Anyone.Role_eqb (Anyone.role_id role) Anyone.captain)
                     (Anyone.actor_roles ctx))).
  destruct (createTransaction_answers beatmapset beatmapsetId gameMode reason score ac w1)
    as [j [w2 [E [Hsel [Hrev [Ha [Hlog [Hsub Htr]]]]]]]].
  rewrite (select_review_by_id_fresh (Anyone.reviews (db w)) newReview) in Hsel;
    [| reflexivity | exact Hfresh].
  injection Hsel as Hj. destruct j as [jr jc]. cbn [Anyone.json_review] in *. subst jr.
  exists jc, w2, s'. split; [|split; [|split; [|split; [|split]]]].
  - apply handle_returns. unfold Anyone.review. rewrite Hb, Hg, Hr, Hs, H1, H2.
    step. rewrite Hnone, H3. cbn [andb].
    erewrite bind_returns by (unfold call; rewrite Ecall; reflexivity). cbv beta iota.
    rewrite H4, (existsb_eqb_In _ _ Hmode). cbn [negb].
    apply transact_returns. exact E.
  - exact Hrev.
  - exact Hlog.
  - exact Hsub.
  - reflexivity.
  - rewrite Htr. subst w1. cbn [trace emit]. rewrite <- !app_assoc. reflexivity.
Qed.

(** X4.  The create path of POST /review.  A reviewer without a review of the
    beatmapset and game mode, whose request passes the checks, is answered
    with a new review that carries the next id, the reason, the score and
    the time of the request; the review is appended, its creation is logged,
    the open submission of the reviewer for the beatmapset and game mode is
    deleted and that deletion logged, and the review cache of the game mode
    is dropped last. *)
Theorem review_create_path body (w : World Anyone.DB S) beatmapsetId gameMode reason score
  beatmapset :
  isInteger (Anyone.body_beatmapsetId body) = Some beatmapsetId ->
  isGameMode (Anyone.body_gameMode body) = Some gameMode ->
  as_string (Anyone.body_reason body) = Some reason ->
  isInteger (Anyone.body_score body) = Some score ->
  -4 <= score <= 3 ->
  score <> -2 /\ score <> 2 ->
  (score = -4 \/ score = 0 -> Anyone.hasRole ctx Anyone.captain (Some gameMode) = true) ->
  Anyone.select_review beatmapsetId (Anyone.actor_id ctx) gameMode (db w) = None ->
  beatmapset_eligible osu (osu_store w) beatmapsetId gameMode beatmapset ->
  (forall r, In r (Anyone.reviews (db w)) ->
             Anyone.review_id r < Anyone.reviews_auto_increment (db w)) ->
  let newReview := Anyone.mkReview (Anyone.reviews_auto_increment (db w)) beatmapsetId gameMode
                                   reason (Anyone.now ctx) (Anyone.actor_id ctx) score in
  let openSubmission := Anyone.select_open_submission beatmapsetId gameMode
                                                      (Anyone.actor_id ctx) (db w) in
  exists activeCaptain w',
    handle (Anyone.review osu ctx body) w = (Json (Anyone.mkReviewJson newReview activeCaptain), w')
    /\ Anyone.reviews (db w') = Anyone.reviews (db w) ++ [newReview]
    /\ Anyone.logs (db w')
       = Anyone.logs (db w)
         ++ Anyone.reviewCreated (beatmapset_id beatmapset) newReview (Anyone.actor_id ctx)
            :: match openSubmission with
               | Some submission =>
                   [Anyone.submissionDeleted (Anyone.actor_id ctx) (beatmapset_id beatmapset)
                                             submission (Anyone.actor_id ctx)]
               | None => []
               end
    /\ Anyone.submissions (db w')
       = match openSubmission with
         | Some submission =>
             filter (fun s => negb (Anyone.submission_id s =? Anyone.submission_id submission))
                    (Anyone.submissions (db w))
         | None => Anyone.submissions (db w)
         end
    /\ trace w' = trace w
                  ++ [OsuBeatmapset beatmapsetId true; SqlInsert t_reviews; SqlInsert t_logs]
                  ++ match openSubmission with
                     | Some _ => [SqlDelete t_submissions; SqlInsert t_logs]
                     | None => []
                     end
                  ++ [CacheDeleted (Anyone.reviewsCacheKey gameMode)].
Proof.
  intros Hb Hg Hr Hs Hrange Hdep Hcap Hnone Hel Hfresh newReview openSubmission.
  destruct (review_create_run body w beatmapsetId gameMode reason score beatmapset
              Hb Hg Hr Hs Hrange Hdep Hcap Hnone Hel Hfresh)
    as [ac [w' [s' [E [H1 [H2 [H3 [_ H5]]]]]]]].
  exists ac, w'. auto.
Qed.

(** ** DELETE /review *)

Lemma delete_review_run reviewId (w w' : World Anyone.DB S) r :
  handle (Anyone.delete_review osu ctx reviewId) w = (r, w') ->
  (r <> Empty 204 /\ w' = w
   /\ ~ exists id review beatmapset,
          reviewId = Some id
          /\ Anyone.select_review_by_id id (db w) = Some review
          /\ Anyone.reviewer_id review = Anyone.actor_id ctx
          /\ select_beatmapset osu (osu_store w) (Anyone.review_beatmapset_id review)
             = Some beatmapset)
  \/ (exists id review beatmapset,
        r = Empty 204
        /\ reviewId = Some id
        /\ Anyone.select_review_by_id id (db w) = Some review
        /\ Anyone.reviewer_id review = Anyone.actor_id ctx
        /\ select_beatmapset osu (osu_store w) (Anyone.review_beatmapset_id review)
           = Some beatmapset
        /\ w' = mkWorld
                  (Anyone.mkDB (Anyone.mapper_consents (db w))
                     (Anyone.mapper_consent_beatmapsets (db w))
                     (filter (fun x => negb (Anyone.review_id x =? Anyone.review_id review))
                             (Anyone.reviews (db w)))
                     (Anyone.reviews_auto_increment (db w)) (Anyone.submissions (db w))
                     (Anyone.logs (db w)
                      ++ [Anyone.reviewDeleted (Anyone.actor_id ctx) (beatmapset_id beatmapset)
                                               review (Anyone.actor_id ctx)]))
                  (osu_store w)
                  (trace w ++ [SqlDelete t_reviews; SqlInsert t_logs;
                               CacheDeleted (Anyone.reviewsCacheKey
                                               (Anyone.review_game_mode review))])).
Proof.
  unfold Anyone.delete_review, handle.
  destruct reviewId as [id|].
  2:{ intros H. injection H as <- <-. left. split; [discriminate|]. split; [reflexivity|].
      intros [id [rv [bs [E _]]]]. discriminate. }
  unfold bind at 1, query at 1.
  destruct (Anyone.select_review_by_id id (db w)) as [review|] eqn:Hsel.
  2:{ intros H. injection H as <- <-. left. split; [discriminate|]. split; [reflexivity|].
      intros [id' [rv [bs [E [E2 _]]]]]. injection E as <-. congruence. }
  destruct (Anyone.reviewer_id review =? Anyone.actor_id ctx) eqn:Hown; cbn [negb].
  2:{ intros H. injection H as <- <-. left. split; [discriminate|]. split; [reflexivity|].
      intros [id' [rv [bs [E [E2 [E3 _]]]]]]. injection E as <-. rewrite Hsel in E2.
      injection E2 as <-. apply Z.eqb_neq in Hown. contradiction. }
  unfold bind at 1, query_osu at 1.
  destruct (select_beatmapset osu (osu_store w) (Anyone.review_beatmapset_id review))
    as [beatmapset|] eqn:Hbs.
  2:{ intros H. injection H as <- <-. left. split; [discriminate|]. split; [reflexivity|].
      intros [id' [rv [bs [E [E2 [_ E4]]]]]]. injection E as <-. rewrite Hsel in E2.
      injection E2 as <-. congruence. }
  unfold bind, transact, Anyone.deleteReviewTransaction, bind, execute, Anyone.dbLog, execute,
    deleteCache, ret, emit. cbn [db osu_store trace Anyone.set_reviews Anyone.mapper_consents
    Anyone.mapper_consent_beatmapsets Anyone.reviews Anyone.reviews_auto_increment
    Anyone.submissions Anyone.logs].
  intros H. injection H as <- <-. right. exists id, review, beatmapset.
  apply Z.eqb_eq in Hown. rewrite <- !app_assoc. cbn [app]. auto 8.
Qed.

(** X5.  DELETE /review is answered with 204 exactly when the id parses, names
    a review, the review is the acting user's own and its beatmapset is
    still cached; every other answer leaves the world as it was. *)
Theorem delete_review_owner_only reviewId (w w' : World Anyone.DB S) r :
  handle (Anyone.delete_review osu ctx reviewId) w = (r, w') ->
  (r = Empty 204 <->
   exists id review beatmapset,
     reviewId = Some id
     /\ Anyone.select_review_by_id id (db w) = Some review
     /\ Anyone.reviewer_id review = Anyone.actor_id ctx
     /\ select_beatmapset osu (osu_store w) (Anyone.review_beatmapset_id review)
        = Some beatmapset)
  /\ (r <> Empty 204 -> w' = w).
Proof.
  intros H. destruct (delete_review_run reviewId w w' r H)
    as [[Hr [Hw Hn]]|[id [review [bs [Hr [Hid [Hsel [Hown [Hbs _]]]]]]]]].
  - split; [|auto]. split; [intros E; contradiction|intros E; contradiction].
  - split; [|intros Hne; contradiction]. split; [|auto].
    intros _. exists id, review, bs. auto.
Qed.

(** X6.  A DELETE /review answered with 204 removes the review of that id and
    no other, logs the deletion and drops the review cache of the game mode
    of the review. *)
Theorem delete_review_removes id (w w' : World Anyone.DB S) :
  handle (Anyone.delete_review osu ctx (Some id)) w = (Empty 204, w') ->
  Anyone.select_review_by_id id (db w') = None
  /\ (forall x, In x (Anyone.reviews (db w')) <->
                In x (Anyone.reviews (db w)) /\ Anyone.review_id x <> id)
  /\ exists review beatmapset,
       Anyone.select_review_by_id id (db w) = Some review
       /\ Anyone.logs (db w')
          = Anyone.logs (db w)
            ++ [Anyone.reviewDeleted (Anyone.actor_id ctx) (beatmapset_id beatmapset) review
                                     (Anyone.actor_id ctx)]
       /\ trace w' = trace w ++ [SqlDelete t_reviews; SqlInsert t_logs;
                                CacheDeleted (Anyone.reviewsCacheKey
                                                (Anyone.review_game_mode review))].
Proof.
  intros H. destruct (delete_review_run (Some id) w w' (Empty 204) H)
    as [[Hr _]|[id' [review [bs [_ [Hid [Hsel [_ [_ Hw]]]]]]]]]; [contradiction|].
  injection Hid as <-. subst w'. cbn [db trace Anyone.reviews Anyone.logs].
  assert (Hrid : Anyone.review_id review = id).
  { apply find_some in Hsel. apply Z.eqb_eq. apply Hsel. }
  rewrite Hrid. split; [|split].
  - unfold Anyone.select_review_by_id. cbn [Anyone.reviews].
    destruct (find _ _) as [x|] eqn:F; [|reflexivity].
    apply find_some in F. destruct F as [Hin Hx]. apply filter_In in Hin.
    destruct Hin as [_ Hne]. rewrite Hx in Hne. discriminate.
  - intros x. rewrite filter_In, negb_true_iff, Z.eqb_neq. reflexivity.
  - exists review, bs. auto.
Qed.

Lemma filter_keeps_older_reviews rid (l : list Anyone.Review) :
  (forall x, In x l -> Anyone.review_id x < rid) ->
  filter (fun x => negb (Anyone.review_id x =? rid)) l = l.
Proof.
  intros Hfresh. induction l as [|x l IH]; [reflexivity|]. cbn [filter].
  assert (Hx : Anyone.review_id x < rid) by (apply Hfresh; left; reflexivity).
  destruct (Anyone.review_id x =? rid) eqn:E; [apply Z.eqb_eq in E; lia|].
  cbn [negb]. f_equal. apply IH. intros y Hy. apply Hfresh. right. exact Hy.
Qed.

(** X7.  Round trip.  A review created by POST /review is deleted again by a
    DELETE /review of the same user for the id of the answer, as long as the
    beatmapset is cached, and the [reviews] table is then as it was
    before the review. *)
Theorem review_create_then_delete body (w w1 : World Anyone.DB S) beatmapsetId gameMode j
  cached :
  reviews_wf (db w) ->
  isInteger (Anyone.body_beatmapsetId body) = Some beatmapsetId ->
  isGameMode (Anyone.body_gameMode body) = Some gameMode ->
  Anyone.select_review beatmapsetId (Anyone.actor_id ctx) gameMode (db w) = None ->
  handle (Anyone.review osu ctx body) w = (Json j, w1) ->
  select_beatmapset osu (osu_store w1) beatmapsetId = Some cached ->
  exists w2,
    handle (Anyone.delete_review osu ctx (Some (Anyone.review_id (Anyone.json_review j)))) w1
    = (Empty 204, w2)
    /\ Anyone.reviews (db w2) = Anyone.reviews (db w).
Proof.
  intros [_ Hfresh] Hb Hg Hnone H Hcached.
  destruct (review_outcome body w w1 (Json j) H) as [[Hn _]|[B|C]].
  - exfalso. apply (Hn j). reflexivity.
  - destruct B as [j' [b [g [rs [sc [ex [_ [Eb [Eg [Hex _]]]]]]]]]].
    rewrite Hb in Eb. rewrite Hg in Eg. injection Eb as <-. injection Eg as <-. congruence.
  - destruct C as [j' [b [g [rs [sc [Ej [Eb [Eg [Hsel [_ [_ [Hr Ha]]]]]]]]]]]].
    rewrite Hb in Eb. rewrite Hg in Eg. injection Eb as <-. injection Eg as <-.
    injection Ej as <-.
    set (new := Anyone.mkReview (Anyone.reviews_auto_increment (db w)) beatmapsetId gameMode rs
                                (Anyone.now ctx) (Anyone.actor_id ctx) sc) in *.
    rewrite (select_review_by_id_fresh (Anyone.reviews (db w)) new) in Hsel;
      [| reflexivity | exact Hfresh].
    injection Hsel as Hj. rewrite <- Hj.
    assert (Hsel1 : Anyone.select_review_by_id (Anyone.review_id new) (db w1) = Some new).
    { apply (select_review_by_id_fresh (Anyone.reviews (db w))); [exact Hr|exact Hfresh]. }
    destruct (handle (Anyone.delete_review osu ctx (Some (Anyone.review_id new))) w1)
      as [r w2] eqn:Hd.
    destruct (delete_review_run _ w1 w2 r Hd)
      as [[_ [_ Hno]]|[id [review [bs [-> [Hid [Hs2 [_ [_ Hw]]]]]]]]].
    + exfalso. apply Hno. exists (Anyone.review_id new), new, cached. auto.
    + exists w2. split; [reflexivity|]. injection Hid as Hid. subst id.
      assert (Hrn : Some review = Some new) by (rewrite <- Hs2; exact Hsel1).
      injection Hrn as ->. subst w2. cbn [db Anyone.reviews]. rewrite Hr, filter_app.
      rewrite (filter_keeps_older_reviews (Anyone.review_id new) _ Hfresh). cbn [filter].
      rewrite Z.eqb_refl. cbn. apply app_nil_r.
Qed.

End ReviewFrames.

(** ** POST /review-many *)

Lemma newSet_In seen l x :
  In x (Anyone.newSet seen l) <-> In x l /\ ~ In x seen.
Proof.
  revert seen. induction l as [|y l IH]; intros seen; cbn [Anyone.newSet].
  - cbn. tauto.
  - unfold Anyone.includes. destruct (existsb (Z.eqb y) seen) eqn:E.
    + apply existsb_exists in E. destruct E as [z [Hz Ez]]. apply Z.eqb_eq in Ez. subst z.
      rewrite IH. cbn. split; [tauto|]. intros [[<-|H] Hn]; [contradiction|tauto].
    + assert (Hy : ~ In y seen).
      { intros Hin. apply (existsb_eqb_In y seen) in Hin. congruence. }
      cbn [In]. rewrite IH. cbn [In]. split.
      * intros [<-|[H Hn]]; [tauto|]. split; [tauto|]. intros Hs. apply Hn. right. exact Hs.
      * intros [[<-|H] Hn]; [tauto|]. destruct (Z.eq_dec y x) as [->|Hne]; [tauto|].
        right. split; [exact H|]. intros [E'|Hs]; [contradiction|contradiction].
Qed.

Lemma newSet_NoDup seen l : NoDup (Anyone.newSet seen l).
Proof.
  revert seen. induction l as [|y l IH]; intros seen; cbn [Anyone.newSet]; [constructor|].
  destruct (Anyone.includes seen y); [apply IH|].
  constructor; [|apply IH]. rewrite newSet_In. intros [_ Hn]. apply Hn. left. reflexivity.
Qed.

Lemma includes_In l x : Anyone.includes l x = true <-> In x l.
Proof.
  unfold Anyone.includes. rewrite existsb_exists. split.
  - intros [y [Hy E]]. apply Z.eqb_eq in E. subst y. exact Hy.
  - intros H. exists x. split; [exact H|apply Z.eqb_refl].
Qed.

(** A filter keeps the order of the elements it keeps. *)
Lemma filter_order {A} (p : A -> bool) (s m1 m2 m3 : list A) (x y : A) :
  filter p s = m1 ++ x :: m2 ++ y :: m3 ->
  exists s1 s2 s3, s = s1 ++ x :: s2 ++ y :: s3.
Proof.
  revert m1. induction s as [|a s IH]; intros m1 H; cbn [filter] in H.
  - destruct m1; discriminate H.
  - destruct (p a).
    + destruct m1 as [|b m1]; cbn [app] in H; injection H as Ha H.
      * subst a.
        assert (Hy : In y (filter p s)) by (rewrite H; apply in_or_app; right; left; reflexivity).
        apply filter_In in Hy. destruct Hy as [Hy _].
        apply in_split in Hy. destruct Hy as [s2 [s3 ->]].
        exists [], s2, s3. reflexivity.
      * destruct (IH m1 H) as [s1 [s2 [s3 ->]]]. exists (a :: s1), s2, s3. reflexivity.
    + destruct (IH m1 H) as [s1 [s2 [s3 ->]]]. exists (a :: s1), s2, s3. reflexivity.
Qed.

(** [new Set(l)] lists its elements in the order of their first
    occurrence in [l]. *)
Lemma newSet_order seen l s1 s2 s3 x y :
  Anyone.newSet seen l = s1 ++ x :: s2 ++ y :: s3 -> first_before x y l.
Proof.
  revert seen s1. induction l as [|a l IH]; intros seen s1 H; cbn [Anyone.newSet] in H.
  - destruct s1; discriminate H.
  - assert (Hx : In x (s1 ++ x :: s2 ++ y :: s3)) by (apply in_or_app; right; left; reflexivity).
    assert (Hy : In y (s1 ++ x :: s2 ++ y :: s3)).
    { apply in_or_app. right. right. apply in_or_app. right. left. reflexivity. }
    destruct (Anyone.includes seen a) eqn:Hseen.
    + apply includes_In in Hseen.
      rewrite <- H in Hx, Hy. apply newSet_In in Hx. apply newSet_In in Hy.
      destruct (IH seen s1 H) as [l1 [l2 [-> [Hx1 Hy1]]]].
      exists (a :: l1), l2. split; [reflexivity|]. split.
      * intros [->|Hin]; [apply (proj2 Hx); exact Hseen|exact (Hx1 Hin)].
      * intros [->|Hin]; [apply (proj2 Hy); exact Hseen|exact (Hy1 Hin)].
    + destruct s1 as [|b s1]; cbn [app] in H; injection H as Ha H.
      * subst a. exists [], l. split; [reflexivity|]. split; intros [].
      * subst b.
        assert (Hx' : In x (Anyone.newSet (a :: seen) l)).
        { rewrite H. apply in_or_app. right. left. reflexivity. }
        assert (Hy' : In y (Anyone.newSet (a :: seen) l)).
        { rewrite H. apply in_or_app. right. right. apply in_or_app. right. left. reflexivity. }
        apply newSet_In in Hx'. apply newSet_In in Hy'.
        destruct (IH (a :: seen) s1 H) as [l1 [l2 [-> [Hx1 Hy1]]]].
        exists (a :: l1), l2. split; [reflexivity|]. split.
        -- intros [->|Hin]; [apply (proj2 Hx'); left; reflexivity|exact (Hx1 Hin)].
        -- intros [->|Hin]; [apply (proj2 Hy'); left; reflexivity|exact (Hy1 Hin)].
Qed.

Lemma missingGameModes_order requested available m1 m2 m3 x y :
  Anyone.missingGameModes requested available = m1 ++ x :: m2 ++ y :: m3 ->
  first_before x y requested.
Proof.
  unfold Anyone.missingGameModes. intros H.
  apply filter_order in H. destruct H as [s1 [s2 [s3 H]]].
  apply (newSet_order [] requested s1 s2 s3). exact H.
Qed.

Lemma missingGameModes_In requested available x :
  In x (Anyone.missingGameModes requested available) <-> In x requested /\ ~ In x available.
Proof.
  unfold Anyone.missingGameModes. rewrite filter_In, newSet_In, negb_true_iff.
  rewrite <- not_true_iff_false, includes_In. cbn. tauto.
Qed.

Lemma select_review_updated b u g reason at_ score rid (d d' : Anyone.DB) :
  Anyone.reviews d' = Anyone.reviews (Anyone.update_review reason at_ score rid d) ->
  Anyone.select_review b u g d'
  = option_map (rewritten reason at_ score rid) (Anyone.select_review b u g d).
Proof.
  intros Hr. unfold Anyone.select_review. rewrite Hr. cbn [Anyone.reviews Anyone.update_review
    Anyone.set_reviews].
  change (map _ (Anyone.reviews d)) with (map (rewritten reason at_ score rid) (Anyone.reviews d)).
  apply find_map_preserved. intros x. unfold rewritten.
  destruct (Anyone.review_id x =? rid); reflexivity.
Qed.

Lemma select_review_appended b u g x (d d' : Anyone.DB) :
  Anyone.reviews d' = Anyone.reviews d ++ [x] ->
  Anyone.select_review b u g d'
  = match Anyone.select_review b u g d with
    | Some y => Some y
    | None => if (Anyone.review_beatmapset_id x =? b) && (Anyone.reviewer_id x =? u)
                 && (Anyone.review_game_mode x =? g)
              then Some x else None
    end.
Proof.
  intros Hr. unfold Anyone.select_review. rewrite Hr. clear Hr.
  induction (Anyone.reviews d) as [|y l IH]; cbn [app find]; [reflexivity|].
  destruct ((Anyone.review_beatmapset_id y =? b) && (Anyone.reviewer_id y =? u)
            && (Anyone.review_game_mode y =? g)); [reflexivity|exact IH].
Qed.

Lemma holds_review_rewritten b u g reason at_ score rid (d d' : Anyone.DB) :
  Anyone.reviews d' = Anyone.reviews (Anyone.update_review reason at_ score rid d) ->
  holds_review b u g reason score at_ d -> holds_review b u g reason score at_ d'.
Proof.
  intros Hr [r [Hsel [H1 [H2 H3]]]]. exists (rewritten reason at_ score rid r).
  rewrite (select_review_updated b u g reason at_ score rid d d' Hr), Hsel.
  split; [reflexivity|]. unfold rewritten. destruct (Anyone.review_id r =? rid); cbn; auto.
Qed.

Lemma holds_review_appended b u g reason at_ score x (d d' : Anyone.DB) :
  Anyone.reviews d' = Anyone.reviews d ++ [x] ->
  holds_review b u g reason score at_ d -> holds_review b u g reason score at_ d'.
Proof.
  intros Hr [r [Hsel H]]. exists r.
  rewrite (select_review_appended b u g x d d' Hr), Hsel. auto.
Qed.

Section ReviewManyProofs.
Variable S : Type.
Variable osu : Collaborator S.
Variable ctx : Anyone.Context.

(** One turn of the loop of POST /review-many never throws; it leaves the
    reviewer with the review of the game mode, keeps the reviews written by
    earlier turns and keeps the table well formed. *)
Lemma reviewGameMode_run beatmapset reason score gameMode (w : World Anyone.DB S) :
  exists w',
    Anyone.reviewGameMode ctx beatmapset reason score gameMode w = (Ret tt, w')
    /\ holds_review (beatmapset_id beatmapset) (Anyone.actor_id ctx) gameMode reason score
                    (Anyone.now ctx) (db w')
    /\ (forall g, holds_review (beatmapset_id beatmapset) (Anyone.actor_id ctx) g reason score
                               (Anyone.now ctx) (db w) ->
                  holds_review (beatmapset_id beatmapset) (Anyone.actor_id ctx) g reason score
                               (Anyone.now ctx) (db w'))
    /\ (reviews_wf (db w) -> reviews_wf (db w'))
    /\ Anyone.submissions (db w') = Anyone.submissions (db w).
Proof.
  unfold Anyone.reviewGameMode. unfold bind at 1. unfold bind at 1, query at 1.
  destruct (Anyone.select_review (beatmapset_id beatmapset) (Anyone.actor_id ctx) gameMode (db w))
    as [ex|] eqn:Hex.
  - destruct (select_review_sound _ _ _ _ _ Hex) as [Hin _].
    destruct (select_by_id_of_member _ _ Hin) as [r0 [Hr0 Hid0]].
    step. step. cbn [db emit]. rewrite select_by_id_after_update, Hr0. cbn [option_map].
    assert (Hlog : forall c entry,
              exists w1 : World Anyone.DB S,
                (if c : bool then Anyone.dbLog entry else ret tt)
                  (emit (SqlUpdate t_reviews)
                     (mkWorld (Anyone.update_review reason (Anyone.now ctx) score
                                 (Anyone.review_id ex) (db w)) (osu_store w) (trace w)))
                = (Ret tt, w1)
                /\ Anyone.reviews (db w1)
                   = Anyone.reviews (Anyone.update_review reason (Anyone.now ctx) score
                                       (Anyone.review_id ex) (db w))
                /\ Anyone.reviews_auto_increment (db w1) = Anyone.reviews_auto_increment (db w)
                /\ Anyone.submissions (db w1) = Anyone.submissions (db w)).
    { intros [|] entry; eexists; (split; [reflexivity|]); cbn; auto. }
    match goal with |- context [if ?c then Anyone.dbLog ?e else ret tt] =>
      destruct (Hlog c e) as [w1 [E1 [Hr [Ha Hs]]]] end.
    rewrite E1. unfold deleteCache. eexists. split; [reflexivity|]. cbn [db emit].
    split; [|split; [|split]].
    + exists (rewritten reason (Anyone.now ctx) score (Anyone.review_id ex) ex).
      rewrite (select_review_updated _ _ _ _ _ _ _ _ _ Hr), Hex. split; [reflexivity|].
      unfold rewritten. rewrite Z.eqb_refl. cbn. auto.
    + intros g. apply (holds_review_rewritten _ _ _ _ _ _ (Anyone.review_id ex) (db w)).
      exact Hr.
    + intros Hwf. eapply reviews_wf_updated; eassumption.
    + exact Hs.
  - erewrite bind_returns by (unfold insert, Anyone.insert_review; reflexivity). cbv beta.
    step. cbn [db emit].
    set (new := Anyone.mkReview (Anyone.reviews_auto_increment (db w)) (beatmapset_id beatmapset)
                                gameMode reason (Anyone.now ctx) (Anyone.actor_id ctx) score).
    match goal with |- context [match ?x with Some _ => _ | None => throw _ end] =>
      destruct x as [newReview|] eqn:Hsel end.
    2:{ exfalso. eapply select_by_id_appended in Hsel; [exact Hsel| |]; reflexivity. }
    unfold Anyone.dbLog, execute, deleteCache. eexists. split; [reflexivity|].
    cbn [db emit]. split; [|split; [|split]].
    + exists new. rewrite (select_review_appended _ _ _ new (db w)) by reflexivity.
      rewrite Hex. cbn [Anyone.review_beatmapset_id Anyone.reviewer_id Anyone.review_game_mode
                        new]. rewrite !Z.eqb_refl. cbn. auto.
    + intros g. apply (holds_review_appended _ _ _ _ _ _ new). reflexivity.
    + intros Hwf. eapply (reviews_wf_appended _ _ _ _ _ _ (db w)); [exact Hwf|exact Hex| |];
        reflexivity.
    + reflexivity.
Qed.

Lemma reviewLoop_run beatmapset reason score requested (w : World Anyone.DB S) :
  exists w',
    forEach requested (Anyone.reviewGameMode ctx beatmapset reason score) w = (Ret tt, w')
    /\ (forall g, In g requested ->
                  holds_review (beatmapset_id beatmapset) (Anyone.actor_id ctx) g reason score
                               (Anyone.now ctx) (db w'))
    /\ (forall g, holds_review (beatmapset_id beatmapset) (Anyone.actor_id ctx) g reason score
                               (Anyone.now ctx) (db w) ->
                  holds_review (beatmapset_id beatmapset) (Anyone.actor_id ctx) g reason score
                               (Anyone.now ctx) (db w'))
    /\ (reviews_wf (db w) -> reviews_wf (db w'))
    /\ Anyone.submissions (db w') = Anyone.submissions (db w).
Proof.
  revert w. induction requested as [|g0 requested IH]; intros w; cbn [forEach].
  - exists w. split; [reflexivity|]. split; [intros g []|]. auto.
  - destruct (reviewGameMode_run beatmapset reason score g0 w) as [w1 [E1 [H1 [K1 [F1 S1]]]]].
    destruct (IH w1) as [w2 [E2 [H2 [K2 [F2 S2]]]]].
    exists w2. erewrite bind_returns by exact E1. split; [exact E2|].
    split; [|split; [|split]].
    + intros g [<-|Hg]; [apply K2; exact H1|apply H2; exact Hg].
    + intros g Hg. apply K2, K1, Hg.
    + intros Hwf. apply F2, F1, Hwf.
    + rewrite S2. exact S1.
Qed.

Lemma logSubmissions_run beatmapsetId (subs : list Anyone.Submission) (w : World Anyone.DB S) :
  exists w',
    forEach subs (fun submission =>
      Anyone.dbLog (Anyone.submissionDeleted (Anyone.actor_id ctx) beatmapsetId submission
                                             (Anyone.actor_id ctx))) w = (Ret tt, w')
    /\ Anyone.reviews (db w') = Anyone.reviews (db w)
    /\ Anyone.reviews_auto_increment (db w') = Anyone.reviews_auto_increment (db w)
    /\ Anyone.submissions (db w') = Anyone.submissions (db w).
Proof.
  revert w. induction subs as [|x subs IH]; intros w; cbn [forEach].
  - exists w. auto.
  - step. match goal with |- context [forEach subs _ ?w0] => destruct (IH w0) as [w1 [E H]] end.
    exists w1. split; [exact E|]. exact H.
Qed.

Lemma reviews_wf_ext (d d' : Anyone.DB) :
  Anyone.reviews d' = Anyone.reviews d ->
  Anyone.reviews_auto_increment d' = Anyone.reviews_auto_increment d ->
  reviews_wf d -> reviews_wf d'.
Proof. unfold reviews_wf. intros -> ->. auto. Qed.

(** No open submission that was selected for deletion is left. *)
Lemma open_submissions_deleted beatmapsetId requested submitterId (l : list Anyone.Submission) :
  let selected s := (Anyone.submission_beatmapset_id s =? beatmapsetId)
                    && Anyone.includes requested (Anyone.submission_game_mode s)
                    && match Anyone.submission_reason s with None => true | Some _ => false end
                    && (Anyone.submitter_id s =? submitterId) in
  filter selected
         (filter (fun s => negb (Anyone.includes (map Anyone.submission_id (filter selected l))
                                                 (Anyone.submission_id s))) l) = [].
Proof.
  intros selected.
  destruct (filter selected (filter _ l)) as [|x rest] eqn:E; [reflexivity|].
  assert (Hx : In x (x :: rest)) by (left; reflexivity).
  rewrite <- E in Hx. apply filter_In in Hx. destruct Hx as [Hx Hsel].
  apply filter_In in Hx. destruct Hx as [Hin Hnot].
  apply negb_true_iff in Hnot. apply not_true_iff_false in Hnot. exfalso. apply Hnot.
  apply includes_In. apply in_map. apply filter_In. auto.
Qed.

(** The transaction of POST /review-many never throws. *)
Lemma reviewManyTransaction_run beatmapset requested reason score (w : World Anyone.DB S) :
  exists w',
    Anyone.reviewManyTransaction ctx beatmapset requested reason score
      (Anyone.select_open_submissions (beatmapset_id beatmapset) requested (Anyone.actor_id ctx)
                                      (db w)) w
    = (Ret tt, w')
    /\ (forall g, In g requested ->
                  holds_review (beatmapset_id beatmapset) (Anyone.actor_id ctx) g reason score
                               (Anyone.now ctx) (db w'))
    /\ (reviews_wf (db w) -> reviews_wf (db w'))
    /\ Anyone.select_open_submissions (beatmapset_id beatmapset) requested (Anyone.actor_id ctx)
                                      (db w') = [].
Proof.
  unfold Anyone.reviewManyTransaction.
  set (subs := Anyone.select_open_submissions _ _ _ _).
  assert (Hfirst : exists w1 : World Anyone.DB S,
            (if 0 <? Z.of_nat (List.length subs)
             then
               execute (SqlDelete t_submissions)
                 (Anyone.set_submissions
                    (filter (fun s => negb (Anyone.includes (map Anyone.submission_id subs)
                                                            (Anyone.submission_id s))))) ;;;
               forEach subs (fun submission =>
                 Anyone.dbLog (Anyone.submissionDeleted (Anyone.actor_id ctx)
                                 (beatmapset_id beatmapset) submission (Anyone.actor_id ctx)))
             else ret tt) w = (Ret tt, w1)
            /\ Anyone.reviews (db w1) = Anyone.reviews (db w)
            /\ Anyone.reviews_auto_increment (db w1) = Anyone.reviews_auto_increment (db w)
            /\ Anyone.submissions (db w1)
               = filter (fun s => negb (Anyone.includes (map Anyone.submission_id subs)
                                                        (Anyone.submission_id s)))
                        (Anyone.submissions (db w))).
  { destruct (0 <? Z.of_nat (List.length subs)) eqn:Hlen.
    - step.
      match goal with |- context [forEach subs _ ?w0] =>
        destruct (logSubmissions_run (beatmapset_id beatmapset) subs w0)
          as [w1 [E [Hr [Ha Hs]]]] end.
      exists w1. split; [exact E|]. rewrite Hr, Ha, Hs. cbn. auto.
    - exists w. split; [reflexivity|]. split; [reflexivity|]. split; [reflexivity|].
      assert (Hnil : subs = []).
      { destruct subs; [reflexivity|]. cbn in Hlen. discriminate Hlen. }
      rewrite Hnil. cbn [map]. symmetry. apply forallb_filter_id. apply forallb_forall.
      intros x _. reflexivity. }
  destruct Hfirst as [w1 [E1 [Hr1 [Ha1 Hs1]]]].
  destruct (reviewLoop_run beatmapset reason score requested w1) as [w2 [E2 [H2 [_ [F2 S2]]]]].
  exists w2. erewrite bind_returns by exact E1. split; [exact E2|]. split; [exact H2|].
  split.
  - intros Hwf. apply F2. apply (reviews_wf_ext (db w)); assumption.
  - unfold Anyone.select_open_submissions. rewrite S2, Hs1.
    apply open_submissions_deleted.
Qed.

(** X8.  POST /review-many for game modes the beatmapset has: the answer is 204,
    the reviewer holds a review with the reason, the score and the time of
    the request in every requested game mode, the open submissions of the
    reviewer for the beatmapset in those game modes are gone, and the
    [reviews] table stays well formed. *)
Theorem review_many_reviews_every_mode body (w : World Anyone.DB S) beatmapsetId requested
  reason score beatmapset s1 :
  isInteger (Anyone.many_beatmapsetId body) = Some beatmapsetId ->
  Anyone.many_gameModes body = Some requested ->
  requested <> [] ->
  as_string (Anyone.many_reason body) = Some reason ->
  Anyone.many_score body = JInt score ->
  score = 1 \/ score = 3 ->
  createOrRefreshBeatmapset osu beatmapsetId false (osu_store w) = (Some beatmapset, s1) ->
  ranked_status beatmapset <= RankedStatus_pending ->
  (forall g, In g requested -> In g (game_modes beatmapset)) ->
  exists w',
    handle (Anyone.review_many osu ctx body) w = (Empty 204, w')
    /\ (forall g, In g requested ->
                  holds_review (beatmapset_id beatmapset) (Anyone.actor_id ctx) g reason score
                               (Anyone.now ctx) (db w'))
    /\ Anyone.select_open_submissions (beatmapset_id beatmapset) requested (Anyone.actor_id ctx)
                                      (db w') = []
    /\ (reviews_wf (db w) -> reviews_wf (db w')).
Proof.
  intros Hb Hm Hne Hr Hs Hsc Hcall Hrank Hmodes.
  assert (H0 : (Z.of_nat (List.length requested) =? 0) = false).
  { destruct requested; [congruence|]. reflexivity. }
  assert (H1 : negb (score =? 1) && negb (score =? 3) = false)
    by (destruct Hsc; subst score; reflexivity).
  assert (H2 : (ranked_status beatmapset >? RankedStatus_pending) = false).
  { rewrite Z.gtb_ltb. apply Z.ltb_ge. exact Hrank. }
  assert (H3 : Anyone.missingGameModes requested (game_modes beatmapset) = []).
  { destruct (Anyone.missingGameModes requested (game_modes beatmapset)) as [|x l] eqn:E;
      [reflexivity|].
    assert (Hx : In x (x :: l)) by (left; reflexivity). rewrite <- E in Hx.
    apply missingGameModes_In in Hx. destruct Hx as [Hx Hn]. exfalso. apply Hn, Hmodes, Hx. }
  set (w1 := emit (OsuBeatmapset beatmapsetId false) (mkWorld (db w) s1 (trace w))).
  destruct (reviewManyTransaction_run beatmapset requested reason score w1)
    as [w2 [E [Hh [Hwf Hsub]]]].
  exists w2. split; [|auto].
  apply handle_returns. unfold Anyone.review_many. rewrite Hb, Hm, H0, Hr, Hs, H1.
  erewrite bind_returns by (unfold call; rewrite Hcall; reflexivity). cbv beta iota zeta.
  rewrite H2, H3. cbn [List.length Z.of_nat Z.ltb Z.compare]. step.
  erewrite bind_returns by (apply transact_returns; exact E). reflexivity.
Qed.

(** X9.  POST /review-many is all or nothing: a request for a game mode the
    beatmapset has no beatmaps in is refused as a whole with a 422 whose
    message lists exactly the requested game modes the beatmapset lacks,
    once each and in the order in which the request first names them;
    nothing is written. *)
Theorem review_many_missing_modes body (w : World Anyone.DB S) beatmapsetId requested
  reason score beatmapset s1 missingMode :
  isInteger (Anyone.many_beatmapsetId body) = Some beatmapsetId ->
  Anyone.many_gameModes body = Some requested ->
  as_string (Anyone.many_reason body) = Some reason ->
  Anyone.many_score body = JInt score ->
  score = 1 \/ score = 3 ->
  createOrRefreshBeatmapset osu beatmapsetId false (osu_store w) = (Some beatmapset, s1) ->
  ranked_status beatmapset <= RankedStatus_pending ->
  In missingMode requested ->
  ~ In missingMode (game_modes beatmapset) ->
  exists w' missing,
    handle (Anyone.review_many osu ctx body) w
    = (ErrorJson 422
         (String.append "Beatmapset has no beatmaps in game mode "
                        (String.concat ", " (map string_of_Z missing))), w')
    /\ db w' = db w
    /\ missing = Anyone.missingGameModes requested (game_modes beatmapset)
    /\ NoDup missing
    /\ (forall g, In g missing <-> In g requested /\ ~ In g (game_modes beatmapset))
    /\ (forall m1 x m2 y m3,
          missing = m1 ++ x :: m2 ++ y :: m3 -> first_before x y requested).
Proof.
  intros Hb Hm Hr Hs Hsc Hcall Hrank Hin Hnot.
  set (missing := Anyone.missingGameModes requested (game_modes beatmapset)).
  assert (H0 : (Z.of_nat (List.length requested) =? 0) = false).
  { destruct requested; [destruct Hin|]. reflexivity. }
  assert (H1 : negb (score =? 1) && negb (score =? 3) = false)
    by (destruct Hsc; subst score; reflexivity).
  assert (H2 : (ranked_status beatmapset >? RankedStatus_pending) = false).
  { rewrite Z.gtb_ltb. apply Z.ltb_ge. exact Hrank. }
  assert (H3 : (0 <? Z.of_nat (List.length missing)) = true).
  { assert (Hx : In missingMode missing) by (apply missingGameModes_In; auto).
    destruct missing; [destruct Hx|]. reflexivity. }
  eexists. exists missing. split; [|split; [|split; [|split; [|split]]]].
  - apply handle_returns. unfold Anyone.review_many. rewrite Hb, Hm, H0, Hr, Hs, H1.
    erewrite bind_returns by (unfold call; rewrite Hcall; reflexivity). cbv beta iota zeta.
    fold missing. rewrite H2, H3. reflexivity.
  - reflexivity.
  - reflexivity.
  - apply NoDup_filter. apply newSet_NoDup.
  - intros g. apply missingGameModes_In.
  - intros m1 x m2 y m3. apply missingGameModes_order.
Qed.

(** X10.  POST /review-many writes nothing unless it answers with 204. *)
Theorem review_many_rejection_writes_nothing body (w w' : World Anyone.DB S) r :
  handle (Anyone.review_many osu ctx body) w = (r, w') ->
  r <> Empty 204 ->
  db w' = db w.
Proof.
  unfold Anyone.review_many, handle.
  destruct (isInteger (Anyone.many_beatmapsetId body)) as [b|]; [|intros H; injection H as <- <-; reflexivity].
  destruct (Anyone.many_gameModes body) as [requested|];
    [|intros H; injection H as <- <-; reflexivity].
  destruct (Z.of_nat (List.length requested) =? 0); [intros H; injection H as <- <-; reflexivity|].
  destruct (as_string (Anyone.many_reason body)) as [reason|];
    [|intros H; injection H as <- <-; reflexivity].
  destruct (Anyone.many_score body) as [| | |score| | |];
    try (intros H; injection H as <- <-; reflexivity).
  destruct (negb (score =? 1) && negb (score =? 3));
    [intros H; injection H as <- <-; reflexivity|].
  unfold bind at 1, call at 1.
  destruct (createOrRefreshBeatmapset osu b false (osu_store w)) as [[beatmapset|] s1];
    [|intros H; injection H as <- <-; reflexivity].
  destruct (ranked_status beatmapset >? RankedStatus_pending);
    [intros H; injection H as <- <-; reflexivity|].
  cbv zeta.
  destruct (0 <? Z.of_nat (List.length (Anyone.missingGameModes requested
                                          (game_modes beatmapset))));
    [intros H; injection H as <- <-; reflexivity|].
  step.
  match goal with |- context [Anyone.reviewManyTransaction _ _ _ _ _ _] =>
    destruct (reviewManyTransaction_run beatmapset requested reason score
                (emit (OsuBeatmapset b false) (mkWorld (db w) s1 (trace w))))
      as [w2 [E _]] end.
  erewrite bind_returns by (apply transact_returns; exact E).
  unfold ret. intros H. injection H as <- <-. intros Hne. contradiction.
Qed.

End ReviewManyProofs.

(** ** POST /mapper-consent: what the answers leave behind *)

Section ConsentExtra.
Variable S : Type.
Variable osu : Collaborator S.
Variable ctx : Anyone.Context.

Lemma validateAdded_run ids (w : World Anyone.DB S) :
  exists unresolved w',
    Anyone.validateAdded osu ids w = (Ret unresolved, w') /\ db w' = db w.
Proof.
  revert w. induction ids as [|i ids IH]; intros w; cbn [Anyone.validateAdded].
  - eexists _, _. split; reflexivity.
  - unfold bind at 1, call at 1.
    destruct (createOrRefreshBeatmapset osu i false (osu_store w)) as [[b|] s1].
    + destruct (IH (emit (OsuBeatmapset i false) (mkWorld (db w) s1 (trace w))))
        as [u [w' [E Hdb]]].
      exists u, w'. split; [exact E|exact Hdb].
    + eexists _, _. split; reflexivity.
Qed.

(** X11.  POST /mapper-consent ends in one of three ways: with a client
    error (422, 403 or 404) and nothing written; with a server error; or
    with the consent row of the mapper named in the request, and this only
    when the consent of the request is not [unreachable], the osu! API
    resolves the mapper, and the mapper is the acting user or the acting
    user is a captain. *)
Theorem mapper_consent_outcomes body (w w' : World Anyone.DB S) r :
  handle (Anyone.mapper_consent osu ctx body) w = (r, w') ->
  (db w' = db w /\ (status_of r = 422 \/ status_of r = 403 \/ status_of r = 404))
  \/ r = serverError
  \/ exists j newConsent user s1,
       r = Json j
       /\ Anyone.body_consent body = Some newConsent
       /\ Anyone.mc_consent newConsent <> Some Anyone.unreachable
       /\ createOrRefreshUser osu (ById (Anyone.mc_user_id newConsent)) (osu_store w)
          = (Some user, s1)
       /\ (user_id user = Anyone.actor_id ctx
           \/ Anyone.hasRole ctx Anyone.captain None = true)
       /\ Anyone.consent_user_id (Anyone.json_consent j) = Anyone.mc_user_id newConsent
       /\ In (Anyone.json_consent j) (Anyone.mapper_consents (db w')).
Proof.
  unfold Anyone.mapper_consent, handle.
  destruct (Anyone.body_consent body) as [newConsent|];
    [|intros H; injection H as <- <-; left; auto].
  destruct (option_eqb Anyone.ConsentValue_eqb (Anyone.mc_consent newConsent)
                       (Some Anyone.unreachable)) eqn:Hunreach;
    [intros H; injection H as <- <-; left; auto|].
  destruct (Anyone.body_consentBeatmapsets body) as [requested|];
    [|intros H; injection H as <- <-; left; auto].
  unfold bind at 1, call at 1.
  destruct (createOrRefreshUser osu (ById (Anyone.mc_user_id newConsent)) (osu_store w))
    as [[user|] s1] eqn:Hcall; [|intros H; injection H as <- <-; left; auto].
  destruct (negb (user_id user =? Anyone.actor_id ctx)
            && negb (Anyone.hasRole ctx Anyone.captain None)) eqn:Hauth;
    [intros H; injection H as <- <-; left; auto|].
  unfold bind at 1, query at 1. unfold bind at 1, query at 1. cbv zeta.
  match goal with
  | |- context [bind (Anyone.validateAdded _ ?ids) _ ?w0] =>
      destruct (validateAdded_run ids w0) as [unresolved [w1 [E1 Hdb1]]]
  end.
  erewrite bind_returns by exact E1.
  destruct unresolved as [missing|];
    [intros H; injection H as <- <-; left; split; [exact Hdb1|cbn; auto]|].
  unfold bind at 1.
  match goal with
  | |- context [transact ?m w1] => destruct (transact m w1) as [[[]|e] w2]
  end; [|intros H; injection H as <- _; right; left; reflexivity].
  unfold bind at 1, deleteCache at 1. unfold bind at 1, deleteCache at 1.
  unfold bind at 1, deleteCache at 1. unfold bind at 1, query_join at 1.
  cbn [db osu_store trace emit].
  destruct (Anyone.select_consent_with_mapper osu (Anyone.mc_user_id newConsent)
              (osu_store w2) (db w2)) as [[consent mapper]|] eqn:Hsel;
    [|intros H; injection H as <- _; right; left; reflexivity].
  unfold bind, query_join, ret. intros H. injection H as <- <-. right. right.
  eexists _, newConsent, user, s1. cbn [Anyone.json_consent db].
  unfold Anyone.select_consent_with_mapper in Hsel.
  destruct (find (fun c => Anyone.consent_user_id c =? Anyone.mc_user_id newConsent)
                 (Anyone.mapper_consents (db w2))) as [c|] eqn:Hfind; [|discriminate].
  destruct (select_user osu (osu_store w2) (Anyone.consent_user_id c)); [|discriminate].
  cbn in Hsel. injection Hsel as <- _.
  apply find_some in Hfind. destruct Hfind as [Hin Hid]. apply Z.eqb_eq in Hid.
  repeat split; try reflexivity; try assumption.
  - intros Hc. rewrite Hc in Hunreach. discriminate.
  - apply andb_false_iff in Hauth. destruct Hauth as [Hauth|Hauth].
    + left. apply negb_false_iff, Z.eqb_eq in Hauth. exact Hauth.
    + right. apply negb_false_iff in Hauth. exact Hauth.
Qed.

End ConsentExtra.

(** * The nomination routes: further properties *)

Lemma filter_filter_implied {A} (p q : A -> bool) (l : list A) :
  (forall x, p x = true -> q x = true) -> filter p (filter q l) = filter p l.
Proof.
  intros H. induction l as [|x l IH]; [reflexivity|]. cbn [filter].
  destruct (q x) eqn:Eq; cbn [filter].
  - rewrite IH. reflexivity.
  - destruct (p x) eqn:Ep; [apply H in Ep; congruence|]. exact IH.
Qed.

Lemma find_filter_implied {A} (p q : A -> bool) (l : list A) :
  (forall x, p x = true -> q x = true) -> find p (filter q l) = find p l.
Proof.
  intros H. induction l as [|x l IH]; [reflexivity|]. cbn [filter find].
  destruct (q x) eqn:Eq; cbn [find].
  - rewrite IH. reflexivity.
  - destruct (p x) eqn:Ep; [apply H in Ep; congruence|]. exact IH.
Qed.

Lemma find_app_last {A} (p : A -> bool) (l : list A) (x : A) :
  p x = true -> find p (l ++ [x]) <> None.
Proof.
  intros Hx. induction l as [|y l IH]; cbn [app find].
  - rewrite Hx. discriminate.
  - destruct (p y); [discriminate|exact IH].
Qed.

Lemma find_app_some {A} (p : A -> bool) (l l' : list A) :
  find p l <> None -> find p (l ++ l') <> None.
Proof.
  induction l as [|y l IH]; cbn [app find]; [congruence|].
  destruct (p y); [discriminate|exact IH].
Qed.

Lemma find_none_all {A} (p : A -> bool) (l : list A) :
  find p l = None <-> forall x, In x l -> p x = false.
Proof.
  induction l as [|y l IH]; cbn [find].
  - split; [intros _ x []|reflexivity].
  - destruct (p y) eqn:E.
    + split; [discriminate|]. intros H. rewrite (H y) in E by (left; reflexivity). discriminate.
    + rewrite IH. split.
      * intros H x [<-|Hx]; [exact E|apply H, Hx].
      * intros H x Hx. apply H. right. exact Hx.
Qed.

Lemma filter_all_true {A} (p : A -> bool) (l : list A) :
  (forall x, In x l -> p x = true) -> filter p l = l.
Proof.
  intros H. induction l as [|x l IH]; [reflexivity|]. cbn [filter].
  rewrite (H x) by (left; reflexivity). f_equal. apply IH. intros y Hy. apply H. right. exact Hy.
Qed.

Lemma filter_none {A} (p : A -> bool) (l : list A) :
  (forall x, In x l -> p x = false) -> filter p l = [].
Proof.
  intros H. induction l as [|x l IH]; [reflexivity|]. cbn [filter].
  rewrite (H x) by (left; reflexivity). apply IH. intros y Hy. apply H. right. exact Hy.
Qed.

(** Rows selected by [p] are deleted and [new] rows, which [p] selects,
    are inserted: [p] then selects the new rows, and the rest is as before. *)
Lemma replace_rows_selected {A} (p : A -> bool) (old new : list A) :
  (forall x, In x new -> p x = true) ->
  filter p (filter (fun x => negb (p x)) old ++ new) = new.
Proof.
  intros Hnew. rewrite filter_app, filter_none, (filter_all_true _ _ Hnew); [reflexivity|].
  intros x Hx. apply filter_In in Hx. destruct Hx as [_ Hx]. apply negb_true_iff. exact Hx.
Qed.

Lemma replace_rows_rest {A} (p : A -> bool) (old new : list A) :
  (forall x, In x new -> p x = true) ->
  filter (fun x => negb (p x)) (filter (fun x => negb (p x)) old ++ new)
  = filter (fun x => negb (p x)) old.
Proof.
  intros Hnew. rewrite filter_app, (filter_none _ new), app_nil_r.
  - apply filter_filter_implied. auto.
  - intros x Hx. rewrite (Hnew x Hx). reflexivity.
Qed.

Section RouterExtra.
Variable S : Type.
Variable osu : Collaborator S.
Variable ctx : Router.Context.

(** ** DELETE /nomination *)

(** X12.  DELETE /nomination answers with 204 exactly to a god and to a nominator
    of the nomination; everyone else gets an empty 403 and nothing happens. *)
Theorem delete_nomination_authorisation nominationId (w w' : World Router.DB S) r :
  handle (Router.delete_nomination ctx nominationId) w = (r, w') ->
  (r = Empty 204
   /\ (Router.god ctx = true
       \/ exists row, In row (Router.nomination_nominators (db w))
                      /\ Router.nominator_nomination_id row = nominationId
                      /\ Router.nominator_id row = Router.actor_id ctx))
  \/ (r = Empty 403
      /\ w' = w
      /\ Router.god ctx = false
      /\ forall row, In row (Router.nomination_nominators (db w)) ->
                     Router.nominator_nomination_id row = nominationId ->
                     Router.nominator_id row <> Router.actor_id ctx).
Proof.
  unfold Router.delete_nomination, handle, bind.
  destruct (Router.god ctx) eqn:Hgod; cbn [negb].
  - unfold ret at 1. cbn [negb].
    unfold transact, Router.deleteTransaction, bind, execute, emit, ret.
    intros H. injection H as <- <-. left. auto.
  - unfold query, ret at 1.
    destruct (Router.select_nominator nominationId (Router.actor_id ctx) (db w))
      as [row|] eqn:Hsel; cbn [negb].
    + unfold transact, Router.deleteTransaction, bind, execute, emit, ret.
      intros H. injection H as <- <-. left. split; [reflexivity|]. right.
      unfold Router.select_nominator in Hsel. exists row.
      pose proof (find_some _ _ Hsel) as [Hin Hp].
      apply andb_true_iff in Hp. destruct Hp as [H1 H2].
      apply Z.eqb_eq in H1. apply Z.eqb_eq in H2. auto.
    + unfold ret. intros H. injection H as <- <-. right.
      repeat split; try reflexivity.
      intros row Hin Hid Hact. unfold Router.select_nominator in Hsel.
      pose proof (proj1 (find_none_all _ _) Hsel row Hin) as Hp. cbn beta in Hp.
      rewrite Hid, Hact, !Z.eqb_refl in Hp. discriminate.
Qed.

(** A DELETE /nomination that is answered with 204 leaves every other
    nomination as it was, with its nominators, assignees and excluded
    beatmaps, and does not touch creators, rounds and their game modes. *)
Lemma delete_nomination_spares_others nominationId other (w w' : World Router.DB S) :
  handle (Router.delete_nomination ctx nominationId) w = (Empty 204, w') ->
  other <> nominationId ->
  Router.select_nomination other (db w') = Router.select_nomination other (db w)
  /\ filter (fun r => Router.nominator_nomination_id r =? other)
            (Router.nomination_nominators (db w'))
     = filter (fun r => Router.nominator_nomination_id r =? other)
              (Router.nomination_nominators (db w))
  /\ filter (fun r => Router.assignee_nomination_id r =? other)
            (Router.nomination_assignees (db w'))
     = filter (fun r => Router.assignee_nomination_id r =? other)
              (Router.nomination_assignees (db w))
  /\ filter (fun r => Router.excluded_nomination_id r =? other)
            (Router.nomination_excluded_beatmaps (db w'))
     = filter (fun r => Router.excluded_nomination_id r =? other)
              (Router.nomination_excluded_beatmaps (db w))
  /\ Router.beatmapset_creators (db w') = Router.beatmapset_creators (db w)
  /\ Router.rounds (db w') = Router.rounds (db w)
  /\ Router.round_game_modes (db w') = Router.round_game_modes (db w).
Proof.
  intros H Hne. apply delete_nomination_run in H. subst w'. cbn.
  assert (Himp : forall x, (x =? other) = true -> negb (x =? nominationId) = true).
  { intros x Hx. apply Z.eqb_eq in Hx. subst x. apply negb_true_iff. apply Z.eqb_neq. exact Hne. }
  repeat split.
  - unfold Router.select_nomination. cbn. apply find_filter_implied. intros x. apply Himp.
  - apply filter_filter_implied. intros x. apply Himp.
  - apply filter_filter_implied. intros x. apply Himp.
  - apply filter_filter_implied. intros x. apply Himp.
Qed.

(** ** POST /nomination-submit *)

(** The two ways POST /nomination-submit ends: refused with nothing
    written, or one nomination and one nominator row added. *)
Lemma nomination_submit_outcome body (w w' : World Router.DB S) r :
  handle (Router.nomination_submit osu ctx body) w = (r, w') ->
  (json_of r = None /\ db w' = db w)
  \/ exists j b g beatmapset s1,
       r = Json j
       /\ Router.as_number (Router.submit_beatmapsetId body) = Some b
       /\ isGameMode (Router.submit_gameMode body) = Some g
       /\ createOrRefreshBeatmapset osu b false (osu_store w) = (Some beatmapset, s1)
       /\ osu_store w' = s1
       /\ Router.select_duplicate (Router.submit_roundId body) g (beatmapset_id beatmapset)
                                  (db w) = None
       /\ db w' = Router.mkDB
                    (Router.nominations (db w)
                     ++ [Router.new_nomination (Router.nominations_auto_increment (db w))
                           (beatmapset_id beatmapset) g
                           (Router.count_nominations (Router.submit_roundId body) g (db w))
                           (Router.submit_parentId body) (Router.submit_roundId body)])
                    (Router.nominations_auto_increment (db w) + 1)
                    (Router.nomination_nominators (db w)
                     ++ [Router.mkNominator (Router.nominations_auto_increment (db w))
                                            (Router.actor_id ctx)])
                    (Router.nomination_assignees (db w))
                    (Router.nomination_excluded_beatmaps (db w))
                    (Router.beatmapset_creators (db w))
                    (Router.rounds (db w)) (Router.rounds_auto_increment (db w))
                    (Router.round_game_modes (db w))
       /\ Router.select_nomination (Router.nominations_auto_increment (db w)) (db w')
          = Some (Router.json_nomination j).
Proof.
  unfold Router.nomination_submit, handle.
  destruct (Router.as_number (Router.submit_beatmapsetId body)) as [b|];
    [|intros H; injection H as <- <-; left; auto].
  destruct (isGameMode (Router.submit_gameMode body)) as [g|];
    [|intros H; injection H as <- <-; left; auto].
  unfold bind at 1.
  assert (Hparent : exists ok,
            match Router.submit_parentId body with
            | Some parentId =>
                parentNomination <- query (Router.select_nomination parentId) ;;
                ret (match parentNomination with Some _ => true | None => false end)
            | None => ret true
            end w = (Ret ok, w)).
  { destruct (Router.submit_parentId body); eexists; reflexivity. }
  destruct Hparent as [ok Hparent]. rewrite Hparent.
  destruct ok; [|intros H; injection H as <- <-; left; auto]. cbn [negb].
  unfold bind at 1, call at 1.
  destruct (createOrRefreshBeatmapset osu b false (osu_store w)) as [[beatmapset|] s1] eqn:Hcall;
    [|intros H; injection H as <- <-; left; auto].
  destruct (negb (existsb (Z.eqb g) (game_modes beatmapset)));
    [intros H; injection H as <- <-; left; auto|].
  unfold bind at 1, query at 1. cbn [db emit].
  destruct (Router.select_duplicate (Router.submit_roundId body) g (beatmapset_id beatmapset)
                                    (db w)) eqn:Hdup;
    [intros H; injection H as <- <-; left; auto|].
  unfold bind at 1, query at 1. cbn [db emit].
  unfold bind at 1, transact, Router.submitTransaction, bind at 1, insert, Router.insert_nomination,
    bind at 1, execute, ret at 1, emit. cbn [db osu_store trace].
  unfold bind at 1, query_join at 1. cbn [db osu_store trace].
  unfold bind at 1, query at 1. cbn [db osu_store trace].
  match goal with
  | |- context [match ?sel with Some _ => _ | None => throw "TypeError" end] =>
      destruct sel as [nomination|] eqn:Hsel
  end.
  - unfold bind, query_osu, query_join, ret. cbn [db osu_store trace].
    intros H. injection H as <- <-. right.
    eexists _, b, g, beatmapset, s1. cbn [db osu_store Router.json_nomination].
    repeat split; try reflexivity; try exact Hcall; try exact Hdup. exact Hsel.
  - exfalso. unfold Router.select_nomination in Hsel. cbn [Router.nominations] in Hsel.
    revert Hsel. apply find_app_last. cbn. apply Z.eqb_refl.
Qed.

(** POST /nomination-submit leaves the rounds and their game modes alone,
    so it keeps [rounds_fresh]. *)
Lemma nomination_submit_keeps_rounds_fresh body (w w' : World Router.DB S) r :
  handle (Router.nomination_submit osu ctx body) w = (r, w') ->
  rounds_fresh (db w) ->
  rounds_fresh (db w').
Proof.
  intros H. apply nomination_submit_outcome in H.
  destruct H as [[_ ->]|[j [b [g [bs [s1 [_ [_ [_ [_ [_ [_ [-> _]]]]]]]]]]]]]; [auto|].
  intros [Hr Hm]. split; exact Hr || exact Hm.
Qed.

Lemma select_duplicate_none_key roundId gameMode beatmapsetId d :
  Router.select_duplicate roundId gameMode beatmapsetId d = None ->
  ~ In (roundId, gameMode, beatmapsetId) (map nomination_key (Router.nominations d)).
Proof.
  unfold Router.select_duplicate. intros Hnone Hin.
  apply in_map_iff in Hin. destruct Hin as [n [Hk Hin]].
  pose proof (proj1 (find_none_all _ _) Hnone n Hin) as Hp. cbn beta in Hp.
  unfold nomination_key in Hk. injection Hk as H1 H2 H3.
  rewrite H1, H2, H3, !Z.eqb_refl in Hp. discriminate.
Qed.

(** X13.  POST /nomination-submit writes nothing unless it answers with the
    nomination, and whatever it answers it keeps the [nominations] table well
    formed: one nomination per round, game mode and beatmapset, and ids below
    the [AUTO_INCREMENT] key. *)
Theorem nomination_submit_invariant body (w w' : World Router.DB S) r :
  handle (Router.nomination_submit osu ctx body) w = (r, w') ->
  (json_of r = None -> db w' = db w)
  /\ (nominations_wf (db w) -> nominations_wf (db w')).
Proof.
  intros H. apply nomination_submit_outcome in H.
  destruct H as [[_ Hdb]|[j [b [g [bs [s1 [-> [_ [_ [_ [_ [Hdup [-> _]]]]]]]]]]]]].
  - split; [auto|]. rewrite Hdb. auto.
  - split; [discriminate|]. intros [Hk Hf]. split.
    + cbn [Router.nominations]. rewrite map_app. cbn [map].
      apply NoDup_app_iff_snoc; [exact Hk|].
      apply (select_duplicate_none_key _ _ _ _ Hdup).
    + intros n Hn. cbn in Hn |- *. apply in_app_or in Hn. destruct Hn as [Hn|[<-|[]]].
      * apply Hf in Hn. lia.
      * cbn. lia.
Qed.

(** X14.  A nomination that was accepted cannot be submitted again: as long as
    the osu! API resolves the id to the same beatmapset with beatmaps in the
    game mode, the same body is refused as a duplicate, whoever sends it,
    and nothing is written. *)
Theorem nomination_submit_twice_rejected ctx2 body (w w1 : World Router.DB S) j b g
  beatmapset beatmapset2 s1 s2 :
  handle (Router.nomination_submit osu ctx body) w = (Json j, w1) ->
  Router.as_number (Router.submit_beatmapsetId body) = Some b ->
  isGameMode (Router.submit_gameMode body) = Some g ->
  createOrRefreshBeatmapset osu b false (osu_store w) = (Some beatmapset, s1) ->
  createOrRefreshBeatmapset osu b false s1 = (Some beatmapset2, s2) ->
  beatmapset_id beatmapset2 = beatmapset_id beatmapset ->
  In g (game_modes beatmapset2) ->
  exists w2,
    handle (Router.nomination_submit osu ctx2 body) w1
    = (ErrorJson 422 "Duplicate nomination. Refresh the page if you don't see it", w2)
    /\ db w2 = db w1.
Proof.
  intros H Hb Hg Hcall Hcall2 Hid Hmode.
  pose proof H as Hout. apply nomination_submit_outcome in Hout.
  destruct Hout as [[Hj _]|[j' [b' [g' [bs' [s1' [_ [Hb' [Hg' [Hcall' [Hs [_ [Hdb _]]]]]]]]]]]]];
    [discriminate Hj|].
  rewrite Hb in Hb'. injection Hb' as <-. rewrite Hg in Hg'. injection Hg' as <-.
  rewrite Hcall in Hcall'. injection Hcall' as <- <-.
  assert (Hparent : match Router.submit_parentId body with
                    | Some parentId =>
                        parentNomination <- query (Router.select_nomination parentId) ;;
                        ret (match parentNomination with Some _ => true | None => false end)
                    | None => ret true
                    end w1 = (Ret true, w1)).
  { destruct (Router.submit_parentId body) as [p|] eqn:Hp; [|reflexivity].
    unfold bind, query, ret.
    assert (Hwas : Router.select_nomination p (db w) <> None).
    { revert H. unfold Router.nomination_submit, handle. rewrite Hb, Hg, Hp.
      unfold bind at 1, bind at 1, query at 1, ret at 1.
      destruct (Router.select_nomination p (db w)); [discriminate|].
      cbn [negb]. unfold ret. discriminate. }
    destruct (Router.select_nomination p (db w1)) eqn:E; [reflexivity|].
    exfalso. revert E. unfold Router.select_nomination. rewrite Hdb. cbn [Router.nominations].
    apply find_app_some. exact Hwas. }
  assert (Hdup : Router.select_duplicate (Router.submit_roundId body) g
                   (beatmapset_id beatmapset2) (db w1) <> None).
  { unfold Router.select_duplicate. rewrite Hdb. cbn [Router.nominations].
    apply find_app_last. cbn. rewrite Hid, !Z.eqb_refl. reflexivity. }
  eexists. split.
  - apply handle_returns. unfold Router.nomination_submit. rewrite Hb, Hg.
    erewrite bind_returns by exact Hparent. cbn [negb].
    erewrite bind_returns by (unfold call; rewrite Hs, Hcall2; reflexivity).
    cbv beta iota. rewrite (existsb_eqb_In _ _ Hmode). cbn [negb].
    unfold bind at 1, query at 1.
    destruct (Router.select_duplicate (Router.submit_roundId body) g
                (beatmapset_id beatmapset2) _) eqn:E.
    + reflexivity.
    + exfalso. apply Hdup. reflexivity.
  - reflexivity.
Qed.

(** X15.  Who submits a nomination may delete it: on a well-formed table without
    stale rows for the next id, DELETE /nomination by the submitter, god or
    not, answers with 204 and brings the nominations and the rows that hang
    off them back to what they were before the submission. *)
Theorem nomination_submit_then_delete body (w w1 : World Router.DB S) j :
  nominations_fresh (db w) ->
  unreferenced (Router.nominations_auto_increment (db w)) (db w) ->
  handle (Router.nomination_submit osu ctx body) w = (Json j, w1) ->
  exists w2,
    handle (Router.delete_nomination ctx (Router.nomination_id (Router.json_nomination j))) w1
    = (Empty 204, w2)
    /\ Router.nominations (db w2) = Router.nominations (db w)
    /\ Router.nomination_nominators (db w2) = Router.nomination_nominators (db w)
    /\ Router.nomination_assignees (db w2) = Router.nomination_assignees (db w)
    /\ Router.nomination_excluded_beatmaps (db w2) = Router.nomination_excluded_beatmaps (db w).
Proof.
  intros Hfresh [Ha [He Hn]] H. apply nomination_submit_outcome in H.
  destruct H as [[Hj _]|[j' [b [g [bs [s1 [Hj [_ [_ [_ [_ [_ [Hdb Hsel]]]]]]]]]]]]];
    [discriminate Hj|].
  injection Hj as <-.
  set (a := Router.nominations_auto_increment (db w)) in *.
  assert (Hnew : Router.json_nomination j
                 = Router.new_nomination a (beatmapset_id bs) g
                     (Router.count_nominations (Router.submit_roundId body) g (db w))
                     (Router.submit_parentId body) (Router.submit_roundId body)).
  { assert (Hs : Some (Router.json_nomination j) = Some (Router.new_nomination a
                     (beatmapset_id bs) g
                     (Router.count_nominations (Router.submit_roundId body) g (db w))
                     (Router.submit_parentId body) (Router.submit_roundId body))).
    { rewrite <- Hsel. apply (select_fresh a _ (Router.nominations (db w))).
      - rewrite Hdb. reflexivity.
      - reflexivity.
      - exact Hfresh. }
    injection Hs as Hs. exact Hs. }
  rewrite Hnew. cbn [Router.nomination_id Router.new_nomination].
  assert (Hnom : Router.select_nominator a (Router.actor_id ctx) (db w1) <> None).
  { unfold Router.select_nominator. rewrite Hdb. cbn [Router.nomination_nominators].
    apply find_app_last. cbn. rewrite !Z.eqb_refl. reflexivity. }
  eexists. split.
  - apply handle_returns. unfold Router.delete_nomination.
    assert (Hallowed : (if negb (Router.god ctx)
                        then
                          nominator <- query (Router.select_nominator a (Router.actor_id ctx)) ;;
                          ret (match nominator with Some _ => true | None => false end)
                        else ret true) w1 = (Ret true, w1)).
    { destruct (negb (Router.god ctx)); [|reflexivity]. unfold bind, query, ret.
      destruct (Router.select_nominator a (Router.actor_id ctx) (db w1)); [reflexivity|].
      exfalso. apply Hnom. reflexivity. }
    erewrite bind_returns by exact Hallowed. cbn [negb].
    unfold transact, Router.deleteTransaction, bind, execute, emit, ret. reflexivity.
  - cbn [db]. rewrite Hdb. cbn. repeat split.
    + rewrite filter_app. cbn. rewrite Z.eqb_refl. cbn. rewrite app_nil_r.
      apply filter_all_true. intros x Hx. apply negb_true_iff, Z.eqb_neq.
      apply Hfresh in Hx. fold a in Hx. lia.
    + rewrite filter_app. cbn. rewrite Z.eqb_refl. cbn. rewrite app_nil_r.
      apply filter_all_true. intros x Hx. apply negb_true_iff, Z.eqb_neq. apply Hn. exact Hx.
    + apply filter_all_true. intros x Hx. apply negb_true_iff, Z.eqb_neq. apply Ha. exact Hx.
    + apply filter_all_true. intros x Hx. apply negb_true_iff, Z.eqb_neq. apply He. exact Hx.
Qed.

(** ** Updates of one row of [nominations] *)

Lemma find_map_keyed {A} (key : A -> Z) (f : A -> A) (k m : Z) (l : list A) :
  (forall x, key (f x) = key x) ->
  find (fun x => key x =? m) (map (fun x => if key x =? k then f x else x) l)
  = option_map (fun x => if m =? k then f x else x) (find (fun x => key x =? m) l).
Proof.
  intros Hkey. induction l as [|x l IH]; [reflexivity|]. cbn [map find].
  destruct (key x =? k) eqn:Ek.
  - rewrite Hkey. destruct (key x =? m) eqn:Em; [|exact IH].
    apply Z.eqb_eq in Ek. apply Z.eqb_eq in Em. cbn [option_map].
    replace (m =? k) with true by (symmetry; apply Z.eqb_eq; lia). reflexivity.
  - destruct (key x =? m) eqn:Em; [|exact IH].
    apply Z.eqb_neq in Ek. apply Z.eqb_eq in Em. cbn [option_map].
    replace (m =? k) with false by (symmetry; apply Z.eqb_neq; lia). reflexivity.
Qed.

Lemma map_keyed_absent {A} (key : A -> Z) (f : A -> A) (k : Z) (l : list A) :
  find (fun x => key x =? k) l = None ->
  map (fun x => if key x =? k then f x else x) l = l.
Proof.
  intros H. induction l as [|x l IH]; [reflexivity|]. cbn [map find] in *.
  destruct (key x =? k); [discriminate|]. f_equal. apply IH. exact H.
Qed.

(** ** POST /nomination-edit-description *)

(** X16.  POST /nomination-edit-description refuses with status 403, and
    changes nothing, when the acting user has not the news capability and
    the description is reviewed or the user is no captain of the game mode;
    and when the user is no captain of the game mode and there is no
    description yet or the request removes it. *)
Theorem edit_description_refused body (w : World Router.DB S) existing :
  Router.select_nomination (Router.description_nominationId body) (db w) = Some existing ->
  (Router.roles_news (Router.authRoles ctx) = false
   /\ (Router.description_state existing = Router.reviewed
       \/ Router.roles_gameModes (Router.authRoles ctx) (Router.game_mode existing) = false))
  \/ (Router.roles_gameModes (Router.authRoles ctx) (Router.game_mode existing) = false
      /\ (Router.description existing = None \/ Router.body_description body = None)) ->
  exists r,
    handle (Router.nomination_edit_description osu ctx body) w = (r, w)
    /\ status_of r = 403.
Proof.
  intros Hex Hwhy. unfold handle, Router.nomination_edit_description.
  erewrite bind_returns by (unfold query; rewrite Hex; reflexivity). cbv beta iota zeta.
  destruct Hwhy as [[Hnews Hlock]|[Hcap Hnone]].
  - rewrite Hnews, andb_false_r. cbn [negb].
    destruct Hlock as [Hst|Hcap].
    + rewrite Hst. cbn. eexists; split; reflexivity.
    + rewrite Hcap, andb_false_r. cbn. eexists; split; reflexivity.
  - rewrite Hcap, andb_false_r. cbn [negb andb].
    destruct (Router.description existing) as [d|] eqn:Hd.
    + destruct Hnone as [Hn|Hn]; [discriminate Hn|]. rewrite Hn.
      destruct (Router.roles_news (Router.authRoles ctx)); cbn; eexists; split; reflexivity.
    + cbn. eexists; split; reflexivity.
Qed.

(** What an accepted edit of a description writes. *)
Lemma edit_description_db body (w w' : World Router.DB S) r :
  handle (Router.nomination_edit_description osu ctx body) w = (Json r, w') ->
  exists newDescription author state,
    db w' = Router.update_description newDescription author state
              (Router.description_nominationId body) (db w)
    /\ osu_store w' = osu_store w.
Proof.
  unfold Router.nomination_edit_description, handle.
  unfold bind at 1, query at 1.
  destruct (Router.select_nomination (Router.description_nominationId body) (db w))
    as [existing|]; [|cbn; discriminate].
  cbv zeta.
  match goal with |- context [if ?c then ret (Empty 403) else _] => destruct c end;
    [cbn; discriminate|].
  match goal with |- context [if ?c then ret (ErrorJson 403 _) else _] => destruct c end;
    [cbn; discriminate|].
  unfold bind, execute, query_join, ret, emit. cbn [db osu_store trace].
  intros H. injection H as _ <-. cbn [db osu_store]. eexists _, _, _. split; reflexivity.
Qed.

(** X17.  An accepted edit of a description changes that nomination only, and
    of it only the description, its author and its state. *)
Theorem edit_description_frame body (w w' : World Router.DB S) r :
  handle (Router.nomination_edit_description osu ctx body) w = (Json r, w') ->
  (forall other, other <> Router.description_nominationId body ->
                 Router.select_nomination other (db w') = Router.select_nomination other (db w))
  /\ (exists existing edited,
        Router.select_nomination (Router.description_nominationId body) (db w) = Some existing
        /\ Router.select_nomination (Router.description_nominationId body) (db w') = Some edited
        /\ same_but_description existing edited)
  /\ List.length (Router.nominations (db w')) = List.length (Router.nominations (db w))
  /\ same_but_nominations (db w) (db w').
Proof.
  intros H. pose proof H as Hdb. apply edit_description_db in Hdb.
  destruct Hdb as [d [a [s [Hdb _]]]].
  apply edit_description_success in H.
  destruct H as [existing [edited [Hex [Hed _]]]].
  split; [|split; [|split]].
  - intros other Hne. rewrite Hdb. unfold Router.select_nomination, Router.update_description.
    cbn [Router.nominations Router.set_nominations].
    rewrite (find_map_keyed Router.nomination_id) by reflexivity.
    replace (other =? Router.description_nominationId body) with false
      by (symmetry; apply Z.eqb_neq; exact Hne).
    destruct (find _ _); reflexivity.
  - exists existing, edited. split; [exact Hex|]. split; [exact Hed|].
    rewrite Hdb, select_after_update_description, Hex in Hed. cbn in Hed.
    injection Hed as <-. unfold same_but_description. cbn. repeat split.
  - rewrite Hdb. cbn. apply length_map.
  - rewrite Hdb. unfold same_but_nominations. cbn. repeat split.
Qed.

(** ** POST /nomination-edit-metadata *)

(** X18.  A news author who is not a metadata checker never changes a
    nomination through POST /nomination-edit-metadata, whatever state, artist
    and title the request carries. *)
Theorem edit_metadata_news_only_keeps_nominations body (w w' : World Router.DB S) r :
  Router.roles_metadata (Router.authRoles ctx) = false ->
  handle (Router.nomination_edit_metadata osu ctx body) w = (r, w') ->
  Router.nominations (db w') = Router.nominations (db w).
Proof.
  intros Hrole. unfold Router.nomination_edit_metadata. cbv zeta. rewrite Hrole. cbn [negb andb].
  unfold handle.
  destruct (negb (Router.roles_news (Router.authRoles ctx)));
    [intros H; injection H as _ <-; reflexivity|].
  unfold bind at 1, query at 1.
  destruct (Router.select_nomination (Router.metadata_nominationId body) (db w))
    as [nomination|]; [|intros H; injection H as _ <-; reflexivity].
  destruct (checkerUpdate_run S osu ctx body nomination w) as [s1 E1]. rewrite Hrole in E1.
  unfold transact, Router.metadataTransaction.
  erewrite bind_returns by exact E1. step. cbv zeta.
  unfold bind at 1, execute at 1.
  match goal with
  | |- context [bind (Router.insertCreators _ _ ?b ?g) _ ?w1] =>
      destruct (insertCreators_run S osu body b g w1)
        as [[users [w2 [evs [E2 [Hnoms Htrace]]]]]|[e [w2 E2]]]
  end.
  - erewrite bind_returns by exact E2. unfold ret. intros H. injection H as _ <-.
    rewrite Hnoms. reflexivity.
  - erewrite bind_throws by exact E2. intros H. injection H as _ <-. reflexivity.
Qed.

Lemma resolveCreators_unresolved beatmapsetId gameMode names name (w1 : World Router.DB S) :
  In name names ->
  (forall s, fst (createOrRefreshUser osu (ByName name) s) = None) ->
  exists users w2,
    Router.resolveCreators osu names w1 = (Ret users, w2)
    /\ Router.creatorRows beatmapsetId gameMode users = None.
Proof.
  intros Hin Hnone. revert w1. induction names as [|n names IH]; [destruct Hin|].
  intros w1. cbn [Router.resolveCreators]. unfold bind at 1, call at 1.
  destruct (createOrRefreshUser osu (ByName n) (osu_store w1)) as [user s1] eqn:Ecall.
  destruct (resolveCreators_run S osu names
              (emit (OsuUser (ByName n)) (mkWorld (db w1) s1 (trace w1)))) as [users [s2 E]].
  destruct Hin as [->|Hin].
  - erewrite bind_returns by exact E. unfold ret. eexists _, _. split; [reflexivity|].
    specialize (Hnone (osu_store w1)). rewrite Ecall in Hnone. cbn in Hnone. subst user.
    reflexivity.
  - destruct (IH Hin (emit (OsuUser (ByName n)) (mkWorld (db w1) s1 (trace w1))))
      as [users' [w2 [E' Hrows]]].
    erewrite bind_returns by exact E'. unfold ret. eexists _, _. split; [reflexivity|].
    cbn [Router.creatorRows]. destruct user; [|reflexivity]. rewrite Hrows. reflexivity.
Qed.

(** X19.  When the osu! API does not resolve one of the creator names, POST
    /nomination-edit-metadata answers with a server error and the transaction
    rolls back: the update of the metadata checker and the deletion of the
    old creators are undone with it. *)
Theorem edit_metadata_unresolved_creator_rolls_back body (w : World Router.DB S)
  nomination names name :
  Router.roles_metadata (Router.authRoles ctx) = true
  \/ Router.roles_news (Router.authRoles ctx) = true ->
  Router.select_nomination (Router.metadata_nominationId body) (db w) = Some nomination ->
  Router.body_creators body = Router.creatorsArray names ->
  In name names ->
  (forall s, fst (createOrRefreshUser osu (ByName name) s) = None) ->
  exists w',
    handle (Router.nomination_edit_metadata osu ctx body) w = (serverError, w')
    /\ db w' = db w.
Proof.
  intros Hrole Hsel Hbody Hin Hnone.
  assert (Hallow : negb (Router.roles_metadata (Router.authRoles ctx))
                  && negb (Router.roles_news (Router.authRoles ctx)) = false).
  { destruct Hrole as [-> | ->]; [reflexivity|apply andb_false_r]. }
  destruct (checkerUpdate_run S osu ctx body nomination w) as [s1 E1].
  set (w1 := if Router.roles_metadata (Router.authRoles ctx) then _ else w) in E1.
  assert (Hthrows : exists e w2, Router.metadataTransaction osu ctx body nomination w
                                 = (Thrown e, w2)).
  { unfold Router.metadataTransaction.
    erewrite bind_returns by exact E1. step. cbv zeta. step.
    match goal with
    | |- context [bind (Router.insertCreators _ _ ?b ?g) _ ?w0] =>
        destruct (resolveCreators_unresolved b g names name w0 Hin Hnone)
          as [users [w2 [E2 Hrows]]];
        assert (E3 : Router.insertCreators osu body b g w0 = (Thrown "TypeError", w2))
    end.
    { unfold Router.insertCreators. rewrite Hbody. cbn [Router.isStringArray].
      destruct names as [|n rest]; [destruct Hin|].
      erewrite bind_returns by exact E2. rewrite Hrows. reflexivity. }
    erewrite bind_throws by exact E3. eexists _, _. reflexivity. }
  destruct Hthrows as [e [w2 Hthrows]].
  eexists. split.
  - apply (handle_throws _ _ _ e). unfold Router.nomination_edit_metadata. cbv zeta.
    rewrite Hallow. erewrite bind_returns by (unfold query; rewrite Hsel; reflexivity).
    cbv beta iota. apply transact_throws. exact Hthrows.
  - reflexivity.
Qed.

(** ** POST /nomination-edit-moderation *)

(** X20.  POST /nomination-edit-moderation turns away, with status 403
    and nothing changed, who has not the moderator capability.  To a
    moderator it always answers with the id and the state of the request,
    also when no nomination has the id, in which case nothing changes;
    otherwise the nomination is read back with the new moderator state and
    all else as before, and every other nomination as it was. *)
Theorem edit_moderation_sets_only_moderator_state body (w : World Router.DB S) :
  (Router.roles_moderator (Router.authRoles ctx) = false ->
   exists r,
     handle (Router.nomination_edit_moderation (S := S) ctx body) w = (r, w)
     /\ status_of r = 403)
  /\ (Router.roles_moderator (Router.authRoles ctx) = true ->
      exists w',
        handle (Router.nomination_edit_moderation (S := S) ctx body) w
        = (Json (Router.mkModerationJson (Router.moderation_nominationId body)
                                         (Router.moderation_state body)), w')
        /\ (forall other,
              Router.select_nomination other (db w')
              = option_map (fun n => if other =? Router.moderation_nominationId body
                                     then moderated (Router.moderation_state body) n else n)
                           (Router.select_nomination other (db w)))
        /\ (Router.select_nomination (Router.moderation_nominationId body) (db w) = None ->
            db w' = db w)
        /\ same_but_nominations (db w) (db w')).
Proof.
  unfold Router.nomination_edit_moderation, Router.isModerator. split; intros Hrole; rewrite Hrole.
  - eexists. split; reflexivity.
  - eexists. split; [reflexivity|]. cbn [db emit]. split; [|split].
    + intros other. unfold Router.select_nomination, Router.update_moderation.
      cbn [Router.nominations Router.set_nominations].
      apply (find_map_keyed Router.nomination_id). reflexivity.
    + intros Hnone. unfold Router.update_moderation, Router.set_nominations.
      unfold Router.select_nomination in Hnone.
      rewrite (map_keyed_absent Router.nomination_id) by exact Hnone.
      destruct (db w). reflexivity.
    + unfold same_but_nominations. cbn. repeat split.
Qed.

(** ** POST /update-nomination-order *)

Lemma update_order_loop entries (w : World Router.DB S) :
  NoDup (map fst entries) ->
  exists w',
    forEach entries (fun entry : Z * Z =>
      let '(nominationId, order_) := entry in
      execute (SqlUpdate t_nominations) (Router.update_order order_ nominationId)) w
    = (Ret tt, w')
    /\ (forall nominationId,
          Router.select_nomination nominationId (db w')
          = option_map (fun n => match requested_order entries nominationId with
                                 | Some order_ => reordered order_ n
                                 | None => n
                                 end)
                       (Router.select_nomination nominationId (db w)))
    /\ same_but_nominations (db w) (db w').
Proof.
  revert w. induction entries as [|[k o] entries IH]; intros w Hnd.
  - exists w. split; [reflexivity|]. split.
    + intros m. cbn. destruct (Router.select_nomination m (db w)); reflexivity.
    + unfold same_but_nominations. repeat split.
  - cbn [map fst] in Hnd. apply NoDup_cons_iff in Hnd. destruct Hnd as [Hk Hnd].
    cbn [forEach]. step.
    destruct (IH (emit (SqlUpdate t_nominations)
                       (mkWorld (Router.update_order o k (db w)) (osu_store w) (trace w))) Hnd)
      as [w' [E [Hsel Hsame]]].
    exists w'. split; [exact E|]. split.
    + intros m. rewrite Hsel. cbn [db emit].
      unfold Router.select_nomination at 1, Router.update_order.
      cbn [Router.nominations Router.set_nominations].
      rewrite (find_map_keyed Router.nomination_id) by reflexivity.
      fold (Router.select_nomination m (db w)).
      destruct (Router.select_nomination m (db w)) as [n|]; [|reflexivity].
      cbn [option_map]. unfold requested_order. cbn [find fst].
      rewrite (Z.eqb_sym k m).
      destruct (m =? k) eqn:Em.
      * cbn [option_map snd]. apply Z.eqb_eq in Em. subst m.
        assert (Hnone : find (fun entry : Z * Z => fst entry =? k) entries = None).
        { apply find_none_all. intros [k' o'] Hin. cbn. apply Z.eqb_neq. intros ->.
          apply Hk. apply (in_map fst) in Hin. exact Hin. }
        rewrite Hnone. reflexivity.
      * reflexivity.
    + unfold same_but_nominations in *. cbn [db emit] in Hsame. cbn in Hsame.
      exact Hsame.
Qed.

(** X21.  POST /update-nomination-order turns away, with status 403 and
    nothing changed, who is not a captain.  For a captain it gives every
    nomination named in the body the order the body has for it, leaves the
    nominations it does not name, and all else of the ones it names, as they
    were, and answers with 204; ids that no nomination has are passed over
    in silence. *)
Theorem update_nomination_order_applies captain entries (w : World Router.DB S) :
  NoDup (map fst entries) ->
  (captain = false ->
   exists r,
     handle (Router.update_nomination_order (S := S) captain entries) w = (r, w)
     /\ status_of r = 403)
  /\ (captain = true ->
      exists w',
        handle (Router.update_nomination_order (S := S) captain entries) w = (Empty 204, w')
        /\ (forall nominationId,
              Router.select_nomination nominationId (db w')
              = option_map (fun n => match requested_order entries nominationId with
                                     | Some order_ => reordered order_ n
                                     | None => n
                                     end)
                           (Router.select_nomination nominationId (db w)))
        /\ same_but_nominations (db w) (db w')).
Proof.
  intros Hnd. unfold Router.update_nomination_order, Router.isCaptain.
  split; intros ->; [eexists; split; reflexivity|].
  destruct (update_order_loop entries w Hnd) as [w' [E H]].
  exists w'. split; [|exact H].
  apply handle_returns.
  erewrite bind_returns by (apply transact_returns; exact E). reflexivity.
Qed.

(** ** POST /update-nominators *)

Lemma updateNominatorsTransaction_run body (w : World Router.DB S) :
  exists w',
    Router.updateNominatorsTransaction (S := S) body w = (Ret tt, w')
    /\ osu_store w' = osu_store w
    /\ db w' = Router.set_nomination_nominators
                 (fun l => filter (fun r => negb (Router.nominator_nomination_id r
                                                  =? Router.nominators_nominationId body)) l
                           ++ map (fun i => Router.mkNominator
                                              (Router.nominators_nominationId body) i)
                                  match Router.isNumberArray (Router.body_nominatorIds body) with
                                  | Some ids => ids
                                  | None => []
                                  end)
                 (db w).
Proof.
  unfold Router.updateNominatorsTransaction. step.
  destruct (Router.isNumberArray (Router.body_nominatorIds body)) as [[|i ids]|];
    eexists; (split; [reflexivity|]); (split; [reflexivity|]);
    cbn [db emit]; unfold Router.delete_nominators, Router.set_nomination_nominators;
    cbn [map]; rewrite ?app_nil_r; reflexivity.
Qed.

(** X22.  POST /update-nominators turns away, with status 403 and nothing
    changed, who is not a captain.  For a captain it replaces the nominators
    of the nomination by the ids of the request, in their order, and answers
    with the users they join with; a body without an array of numbers leaves
    the nomination without nominators.  The nominators of the other
    nominations and the other tables stay as they were. *)
Theorem update_nominators_replaces captain body (w : World Router.DB S) ids :
  ids = match Router.isNumberArray (Router.body_nominatorIds body) with
        | Some ids => ids
        | None => []
        end ->
  NoDup ids ->
  (captain = false ->
   exists r,
     handle (Router.update_nominators osu captain body) w = (r, w) /\ status_of r = 403)
  /\ (captain = true ->
      exists w',
        handle (Router.update_nominators osu captain body) w
        = (Json (Router.mkNominatorsJson (Router.nominators_nominationId body)
                                         (Router.join_users osu (osu_store w) ids)), w')
        /\ filter (fun r => Router.nominator_nomination_id r
                            =? Router.nominators_nominationId body)
                  (Router.nomination_nominators (db w'))
           = map (fun i => Router.mkNominator (Router.nominators_nominationId body) i) ids
        /\ filter (fun r => negb (Router.nominator_nomination_id r
                                  =? Router.nominators_nominationId body))
                  (Router.nomination_nominators (db w'))
           = filter (fun r => negb (Router.nominator_nomination_id r
                                    =? Router.nominators_nominationId body))
                    (Router.nomination_nominators (db w))
        /\ db w' = Router.set_nomination_nominators
                     (fun _ => Router.nomination_nominators (db w')) (db w)).
Proof.
  intros Hids _. unfold Router.update_nominators, Router.isCaptain.
  split; intros ->; [eexists; split; reflexivity|].
  destruct (updateNominatorsTransaction_run body w) as [w1 [E [Hs Hdb]]].
  rewrite <- Hids in Hdb.
  assert (Hnew : forall x, In x (map (fun i => Router.mkNominator
                                               (Router.nominators_nominationId body) i) ids) ->
                           (Router.nominator_nomination_id x
                            =? Router.nominators_nominationId body) = true).
  { intros x Hx. apply in_map_iff in Hx. destruct Hx as [i [<- _]]. apply Z.eqb_refl. }
  exists w1. split; [|split; [|split]].
  - apply handle_returns.
    erewrite bind_returns by (apply transact_returns; exact E).
    unfold bind, query_join, ret. rewrite Hs. do 3 f_equal.
    unfold Router.select_nominators. f_equal. rewrite Hdb.
    cbn [Router.nomination_nominators Router.set_nomination_nominators].
    rewrite (replace_rows_selected _ _ _ Hnew), map_map. cbn. f_equal. apply map_id.
  - rewrite Hdb. cbn [Router.nomination_nominators Router.set_nomination_nominators].
    apply (replace_rows_selected _ _ _ Hnew).
  - rewrite Hdb. cbn [Router.nomination_nominators Router.set_nomination_nominators].
    apply (replace_rows_rest _ _ _ Hnew).
  - rewrite Hdb. reflexivity.
Qed.

(** ** POST /update-excluded-beatmaps *)

Lemma updateExcludedTransaction_run body (w : World Router.DB S) :
  exists w',
    Router.updateExcludedTransaction (S := S) body w = (Ret tt, w')
    /\ db w' = Router.set_nomination_excluded_beatmaps
                 (fun l => filter (fun r => negb (Router.excluded_nomination_id r
                                                  =? Router.excluded_nominationId body)) l
                           ++ map (fun i => Router.mkExcluded i
                                              (Router.excluded_nominationId body))
                                  match Router.isNumberArray
                                          (Router.body_excludedBeatmapIds body) with
                                  | Some ids => ids
                                  | None => []
                                  end)
                 (db w).
Proof.
  unfold Router.updateExcludedTransaction. step.
  destruct (Router.isNumberArray (Router.body_excludedBeatmapIds body)) as [[|i ids]|];
    eexists; (split; [reflexivity|]);
    cbn [db emit]; unfold Router.delete_excluded_beatmaps,
                     Router.set_nomination_excluded_beatmaps;
    cbn [map]; rewrite ?app_nil_r; reflexivity.
Qed.

(** X23.  POST /update-excluded-beatmaps turns away, with status 403 and
    nothing changed, who is not a captain.  For a captain it replaces the
    excluded beatmaps of the nomination by the ids of the request, in their
    order, and answers with 204; a body without an array of numbers leaves
    the nomination without excluded beatmaps.  The excluded beatmaps of the
    other nominations and the other tables stay as they were. *)
Theorem update_excluded_beatmaps_replaces captain body (w : World Router.DB S) ids :
  ids = match Router.isNumberArray (Router.body_excludedBeatmapIds body) with
        | Some ids => ids
        | None => []
        end ->
  NoDup ids ->
  (captain = false ->
   exists r,
     handle (Router.update_excluded_beatmaps (S := S) captain body) w = (r, w)
     /\ status_of r = 403)
  /\ (captain = true ->
      exists w',
        handle (Router.update_excluded_beatmaps (S := S) captain body) w = (Empty 204, w')
        /\ filter (fun r => Router.excluded_nomination_id r
                            =? Router.excluded_nominationId body)
                  (Router.nomination_excluded_beatmaps (db w'))
           = map (fun i => Router.mkExcluded i (Router.excluded_nominationId body)) ids
        /\ filter (fun r => negb (Router.excluded_nomination_id r
                                  =? Router.excluded_nominationId body))
                  (Router.nomination_excluded_beatmaps (db w'))
           = filter (fun r => negb (Router.excluded_nomination_id r
                                    =? Router.excluded_nominationId body))
                    (Router.nomination_excluded_beatmaps (db w))
        /\ db w' = Router.set_nomination_excluded_beatmaps
                     (fun _ => Router.nomination_excluded_beatmaps (db w')) (db w)).
Proof.
  intros Hids _. unfold Router.update_excluded_beatmaps, Router.isCaptain.
  split; intros ->; [eexists; split; reflexivity|].
  destruct (updateExcludedTransaction_run body w) as [w1 [E Hdb]].
  rewrite <- Hids in Hdb.
  assert (Hnew : forall x, In x (map (fun i => Router.mkExcluded i
                                               (Router.excluded_nominationId body)) ids) ->
                           (Router.excluded_nomination_id x
                            =? Router.excluded_nominationId body) = true).
  { intros x Hx. apply in_map_iff in Hx. destruct Hx as [i [<- _]]. apply Z.eqb_refl. }
  exists w1. split; [|split; [|split]].
  - apply handle_returns.
    erewrite bind_returns by (apply transact_returns; exact E). reflexivity.
  - rewrite Hdb. cbn [Router.nomination_excluded_beatmaps Router.set_nomination_excluded_beatmaps].
    apply (replace_rows_selected _ _ _ Hnew).
  - rewrite Hdb. cbn [Router.nomination_excluded_beatmaps Router.set_nomination_excluded_beatmaps].
    apply (replace_rows_rest _ _ _ Hnew).
  - rewrite Hdb. reflexivity.
Qed.

(** ** POST /update-nomination-assignees *)

Lemma updateAssigneesTransaction_run nominationId type assigneeIds (w : World Router.DB S) :
  exists w',
    Router.updateAssigneesTransaction (S := S) nominationId type assigneeIds w = (Ret tt, w')
    /\ osu_store w' = osu_store w
    /\ db w' = Router.set_nomination_assignees
                 (fun l => filter (fun r => negb ((Router.assignee_nomination_id r =? nominationId)
                                                  && (Router.assignee_type r =? type))) l
                           ++ map (fun i => Router.mkAssignee i nominationId type)
                                  match Router.isNumberArray assigneeIds with
                                  | Some ids => ids
                                  | None => []
                                  end)
                 (db w).
Proof.
  unfold Router.updateAssigneesTransaction. step.
  destruct (Router.isNumberArray assigneeIds) as [[|i ids]|];
    eexists; (split; [reflexivity|]); (split; [reflexivity|]);
    cbn [db emit]; unfold Router.delete_assignees_of_type, Router.set_nomination_assignees;
    cbn [map]; rewrite ?app_nil_r; reflexivity.
Qed.

(** X24.  POST /update-nomination-assignees by a news author or by a holder of
    the role of the type replaces the assignees of that type of the
    nomination by the ids of the request and answers with the users they join
    with; the assignees of the other type and of the other nominations, and
    the other tables, stay as they were. *)
Theorem update_assignees_replaces_type body (w : World Router.DB S) type ids :
  Router.isAssigneeType (Router.body_type body) = Some type ->
  Router.roles_news (Router.authRoles ctx) = true
  \/ Router.hasTypeRole (Router.authRoles ctx) type = true ->
  ids = match Router.isNumberArray (Router.body_assigneeIds body) with
        | Some ids => ids
        | None => []
        end ->
  NoDup ids ->
  exists w',
    handle (Router.update_nomination_assignees osu ctx body) w
    = (Json (Router.mkAssigneesJson (Router.assignees_nominationId body)
               (String.append (Router.typeString type) "_assignees")
               (Router.join_users osu (osu_store w) ids)), w')
    /\ filter (fun r => (Router.assignee_nomination_id r =? Router.assignees_nominationId body)
                        && (Router.assignee_type r =? type))
              (Router.nomination_assignees (db w'))
       = map (fun i => Router.mkAssignee i (Router.assignees_nominationId body) type) ids
    /\ filter (fun r => negb ((Router.assignee_nomination_id r
                               =? Router.assignees_nominationId body)
                              && (Router.assignee_type r =? type)))
              (Router.nomination_assignees (db w'))
       = filter (fun r => negb ((Router.assignee_nomination_id r
                                 =? Router.assignees_nominationId body)
                                && (Router.assignee_type r =? type)))
                (Router.nomination_assignees (db w))
    /\ db w' = Router.set_nomination_assignees
                 (fun _ => Router.nomination_assignees (db w')) (db w).
Proof.
  intros Htype Hrole Hids _.
  destruct (updateAssigneesTransaction_run (Router.assignees_nominationId body) type
              (Router.body_assigneeIds body) w) as [w1 [E [Hs Hdb]]].
  rewrite <- Hids in Hdb.
  assert (Hallow : negb (Router.roles_news (Router.authRoles ctx))
                  && negb (Router.hasTypeRole (Router.authRoles ctx) type) = false).
  { destruct Hrole as [-> | ->]; [reflexivity|apply andb_false_r]. }
  assert (Hnew : forall x,
            In x (map (fun i => Router.mkAssignee i (Router.assignees_nominationId body) type)
                      ids) ->
            (Router.assignee_nomination_id x =? Router.assignees_nominationId body)
            && (Router.assignee_type x =? type) = true).
  { intros x Hx. apply in_map_iff in Hx. destruct Hx as [i [<- _]]. cbn.
    rewrite !Z.eqb_refl. reflexivity. }
  exists w1. split; [|split; [|split]].
  - apply handle_returns. unfold Router.update_nomination_assignees. rewrite Htype. cbv zeta.
    rewrite Hallow.
    erewrite bind_returns by (apply transact_returns; exact E).
    unfold bind, query_join, ret. rewrite Hs. do 3 f_equal.
    unfold Router.select_assignees. f_equal. rewrite Hdb.
    cbn [Router.nomination_assignees Router.set_nomination_assignees].
    rewrite (replace_rows_selected _ _ _ Hnew), map_map. cbn. f_equal. apply map_id.
  - rewrite Hdb. cbn [Router.nomination_assignees Router.set_nomination_assignees].
    apply (replace_rows_selected _ _ _ Hnew).
  - rewrite Hdb. cbn [Router.nomination_assignees Router.set_nomination_assignees].
    apply (replace_rows_rest _ _ _ Hnew).
  - rewrite Hdb. reflexivity.
Qed.

(** POST /update-nomination-assignees answers with the assignees only to a
    news author or a holder of the role of the requested type; every other
    request is answered with status 422 or 403 and changes nothing. *)
Lemma update_assignees_authorisation body (w w' : World Router.DB S) r :
  handle (Router.update_nomination_assignees osu ctx body) w = (r, w') ->
  (exists j type,
     r = Json j
     /\ Router.isAssigneeType (Router.body_type body) = Some type
     /\ (Router.roles_news (Router.authRoles ctx) = true
         \/ Router.hasTypeRole (Router.authRoles ctx) type = true))
  \/ (w' = w /\ (status_of r = 422 \/ status_of r = 403)).
Proof.
  unfold Router.update_nomination_assignees, handle.
  destruct (Router.isAssigneeType (Router.body_type body)) as [type|];
    [|intros H; injection H as <- <-; right; auto].
  cbv zeta.
  destruct (Router.roles_news (Router.authRoles ctx)) eqn:Hnews;
    destruct (Router.hasTypeRole (Router.authRoles ctx) type) eqn:Hrole; cbn [negb andb];
    try (intros H; injection H as <- <-; right; auto; fail).
  all: destruct (updateAssigneesTransaction_run (Router.assignees_nominationId body) type
                   (Router.body_assigneeIds body) w) as [w1 [E _]];
    erewrite bind_returns by (apply transact_returns; exact E);
    unfold bind, query_join, ret; intros H; injection H as <- <-; left;
    eexists _, type; auto.
Qed.

(** ** POST /lock-nominations *)

(** X25.  POST /lock-nominations answers with 204 only to a news author or a
    captain of the game mode; every other request changes nothing.  A 204
    sets the lock of the rows of the round and game mode and of no other
    row, keeps the rows in place with their thresholds, and also answers a
    request for a round that has no such row. *)
Theorem lock_nominations_sets_one_flag body (w w' : World Router.DB S) r :
  handle (Router.lock_nominations (S := S) ctx body) w = (r, w') ->
  (r <> Empty 204 /\ w' = w)
  \/ exists gameMode,
       r = Empty 204
       /\ isGameMode (Router.lock_gameMode body) = Some gameMode
       /\ (Router.roles_news (Router.authRoles ctx) = true
           \/ Router.roles_gameModes (Router.authRoles ctx) gameMode = true)
       /\ Forall2 (fun m m' =>
                     Router.rgm_round_id m' = Router.rgm_round_id m
                     /\ Router.rgm_game_mode m' = Router.rgm_game_mode m
                     /\ Router.voting_threshold m' = Router.voting_threshold m
                     /\ Router.nominations_locked m'
                        = if (Router.rgm_round_id m =? Router.lock_roundId body)
                             && (Router.rgm_game_mode m =? gameMode)
                          then Router.body_lock body
                          else Router.nominations_locked m)
                  (Router.round_game_modes (db w)) (Router.round_game_modes (db w'))
       /\ db w' = Router.set_round_game_modes (fun _ => Router.round_game_modes (db w')) (db w).
Proof.
  unfold Router.lock_nominations, handle.
  destruct (isGameMode (Router.lock_gameMode body)) as [g|];
    [|intros H; injection H as <- <-; left; split; [discriminate|reflexivity]].
  cbv zeta.
  destruct (Router.roles_news (Router.authRoles ctx)) eqn:Hnews;
    destruct (Router.roles_gameModes (Router.authRoles ctx) g) eqn:Hcap; cbn [negb andb];
    try (intros H; injection H as <- <-; left; split; [discriminate|reflexivity]).
  all: unfold bind, execute, ret; intros H; injection H as <- <-; right; exists g;
    (split; [reflexivity|]); (split; [reflexivity|]); (split; [auto|]);
    cbn [db emit]; (split; [|reflexivity]);
    unfold Router.set_locked; cbn [Router.round_game_modes Router.set_round_game_modes];
    induction (Router.round_game_modes (db w)) as [|m l IH]; cbn [map]; constructor;
    try exact IH;
    destruct ((Router.rgm_round_id m =? Router.lock_roundId body)
              && (Router.rgm_game_mode m =? g)); cbn; auto.
Qed.

(** POST /lock-nominations keeps the round of every row of
    [round_game_modes], so it keeps [rounds_fresh]. *)
Lemma lock_nominations_keeps_rounds_fresh body (w w' : World Router.DB S) r :
  handle (Router.lock_nominations (S := S) ctx body) w = (r, w') ->
  rounds_fresh (db w) ->
  rounds_fresh (db w').
Proof.
  unfold Router.lock_nominations, handle.
  destruct (isGameMode (Router.lock_gameMode body)) as [g|];
    [|intros H; injection H as _ <-; auto].
  cbv zeta.
  destruct (negb (Router.roles_news (Router.authRoles ctx))
            && negb (Router.roles_gameModes (Router.authRoles ctx) g));
    [intros H; injection H as _ <-; auto|].
  unfold bind, execute, ret. intros H. injection H as _ <-. cbn [db emit].
  intros [Hr Hm]. split; [exact Hr|].
  intros m Hin. cbn in Hin. apply in_map_iff in Hin. destruct Hin as [m0 [<- Hin]].
  apply Hm in Hin.
  destruct ((Router.rgm_round_id m0 =? Router.lock_roundId body)
            && (Router.rgm_game_mode m0 =? g)); exact Hin.
Qed.

(** X26.  Locking the nominations of a round and game mode that were open and
    opening them again brings the table back to what it was. *)
Theorem lock_then_unlock body_locking body_opening (w w1 w2 : World Router.DB S) gameMode :
  isGameMode (Router.lock_gameMode body_locking) = Some gameMode ->
  isGameMode (Router.lock_gameMode body_opening) = Some gameMode ->
  Router.lock_roundId body_opening = Router.lock_roundId body_locking ->
  Router.body_lock body_locking = true ->
  Router.body_lock body_opening = false ->
  (forall m, In m (Router.round_game_modes (db w)) ->
             Router.rgm_round_id m = Router.lock_roundId body_locking ->
             Router.rgm_game_mode m = gameMode ->
             Router.nominations_locked m = false) ->
  handle (Router.lock_nominations (S := S) ctx body_locking) w = (Empty 204, w1) ->
  handle (Router.lock_nominations (S := S) ctx body_opening) w1 = (Empty 204, w2) ->
  db w2 = db w.
Proof.
  intros Hg1 Hg2 Hround Hlock Hopen Hwas.
  unfold Router.lock_nominations, handle. rewrite Hg1, Hg2, Hround, Hlock, Hopen. cbv zeta.
  destruct (negb (Router.roles_news (Router.authRoles ctx))
            && negb (Router.roles_gameModes (Router.authRoles ctx) gameMode));
    [discriminate|].
  unfold bind, execute, ret. intros H1 H2. injection H1 as <-. injection H2 as <-.
  cbn [db emit]. unfold Router.set_locked, Router.set_round_game_modes. cbn.
  rewrite map_map.
  assert (Hmap : map (fun m =>
                   if (Router.rgm_round_id
                         (if (Router.rgm_round_id m =? Router.lock_roundId body_locking)
                             && (Router.rgm_game_mode m =? gameMode)
                          then Router.mkRoundGameMode (Router.rgm_round_id m)
                                 (Router.rgm_game_mode m) (Router.voting_threshold m) true
                          else m) =? Router.lock_roundId body_locking)
                      && (Router.rgm_game_mode
                            (if (Router.rgm_round_id m =? Router.lock_roundId body_locking)
                                && (Router.rgm_game_mode m =? gameMode)
                             then Router.mkRoundGameMode (Router.rgm_round_id m)
                                    (Router.rgm_game_mode m) (Router.voting_threshold m) true
                             else m) =? gameMode)
                   then Router.mkRoundGameMode
                          (Router.rgm_round_id
                             (if (Router.rgm_round_id m =? Router.lock_roundId body_locking)
                                 && (Router.rgm_game_mode m =? gameMode)
                              then Router.mkRoundGameMode (Router.rgm_round_id m)
                                     (Router.rgm_game_mode m) (Router.voting_threshold m) true
                              else m))
                          (Router.rgm_game_mode
                             (if (Router.rgm_round_id m =? Router.lock_roundId body_locking)
                                 && (Router.rgm_game_mode m =? gameMode)
                              then Router.mkRoundGameMode (Router.rgm_round_id m)
                                     (Router.rgm_game_mode m) (Router.voting_threshold m) true
                              else m))
                          (Router.voting_threshold
                             (if (Router.rgm_round_id m =? Router.lock_roundId body_locking)
                                 && (Router.rgm_game_mode m =? gameMode)
                              then Router.mkRoundGameMode (Router.rgm_round_id m)
                                     (Router.rgm_game_mode m) (Router.voting_threshold m) true
                              else m))
                          false
                   else (if (Router.rgm_round_id m =? Router.lock_roundId body_locking)
                            && (Router.rgm_game_mode m =? gameMode)
                         then Router.mkRoundGameMode (Router.rgm_round_id m)
                                (Router.rgm_game_mode m) (Router.voting_threshold m) true
                         else m))
                   (Router.round_game_modes (db w))
                 = Router.round_game_modes (db w)).
  { rewrite <- (map_id (Router.round_game_modes (db w))) at 2.
    apply map_ext_in. intros m Hm.
    destruct ((Router.rgm_round_id m =? Router.lock_roundId body_locking)
              && (Router.rgm_game_mode m =? gameMode)) eqn:E.
    - cbn. rewrite E. apply andb_true_iff in E. destruct E as [E1 E2].
      apply Z.eqb_eq in E1. apply Z.eqb_eq in E2.
      rewrite <- (Hwas m Hm E1 E2). destruct m. reflexivity.
    - rewrite E. reflexivity. }
  rewrite Hmap. destruct (db w). reflexivity.
Qed.

(** ** The creators of POST /nomination-edit-metadata *)

Lemma resolveCreators_length names (w w2 : World Router.DB S) users :
  Router.resolveCreators osu names w = (Ret users, w2) ->
  List.length users = List.length names /\ db w2 = db w.
Proof.
  revert w users w2. induction names as [|n names IH]; intros w users w2.
  - cbn. unfold ret. intros H. injection H as <- <-. auto.
  - cbn [Router.resolveCreators]. unfold bind at 1, call at 1.
    destruct (createOrRefreshUser osu (ByName n) (osu_store w)) as [user s1].
    destruct (resolveCreators_run S osu names
                (emit (OsuUser (ByName n)) (mkWorld (db w) s1 (trace w)))) as [users' [s2 E]].
    pose proof (IH _ _ _ E) as [Hl Hd].
    erewrite bind_returns by exact E. unfold ret. intros H. injection H as <- <-.
    cbn [List.length]. rewrite Hl. split; [reflexivity|]. reflexivity.
Qed.

Lemma creatorRows_present beatmapsetId gameMode creators rows :
  Router.creatorRows beatmapsetId gameMode creators = Some rows ->
  rows = map (fun u => Router.mkCreator beatmapsetId (user_id u) gameMode)
             (Router.present creators)
  /\ List.length (Router.present creators) = List.length creators.
Proof.
  revert rows. induction creators as [|[u|] creators IH]; intros rows; cbn [Router.creatorRows].
  - intros H. injection H as <-. auto.
  - destruct (Router.creatorRows beatmapsetId gameMode creators) as [rows'|];
      [|discriminate].
    cbn [option_map]. intros H. injection H as <-.
    destruct (IH rows' eq_refl) as [-> Hl]. unfold Router.present in *. cbn.
    rewrite Hl. auto.
  - discriminate.
Qed.

Lemma insertCreators_result body beatmapsetId gameMode (w1 w2 : World Router.DB S) creators :
  Router.insertCreators osu body beatmapsetId gameMode w1 = (Ret creators, w2) ->
  db w2 = Router.set_beatmapset_creators
            (fun l => l ++ map (fun u => Router.mkCreator beatmapsetId (user_id u) gameMode)
                               (Router.present creators))
            (db w1)
  /\ List.length (Router.present creators)
     = List.length match Router.isStringArray (Router.body_creators body) with
                   | Some names => names
                   | None => []
                   end.
Proof.
  unfold Router.insertCreators.
  destruct (Router.isStringArray (Router.body_creators body)) as [[|n rest]|].
  1, 3: unfold ret; intros H; injection H as <- <-; cbn;
    unfold Router.set_beatmapset_creators; rewrite app_nil_r; destruct (db w1); auto.
  destruct (resolveCreators_run S osu (n :: rest) w1) as [users [s2 E]].
  pose proof (resolveCreators_length _ _ _ _ E) as [Hl _].
  erewrite bind_returns by exact E.
  destruct (Router.creatorRows beatmapsetId gameMode users) as [rows|] eqn:Hrows;
    [|discriminate].
  apply creatorRows_present in Hrows. destruct Hrows as [-> Hp].
  unfold bind, execute, ret. intros H. injection H as <- <-. cbn [db emit].
  split; [reflexivity|]. rewrite Hp. exact Hl.
Qed.

(** X27.  After an accepted POST /nomination-edit-metadata the creator credits
    of the beatmapset and game mode of the nomination are exactly the users
    of the answer, in their order, one for every name of the request; the
    credits of other beatmapsets and game modes are as they were. *)
Theorem edit_metadata_replaces_creators body (w w' : World Router.DB S) r :
  handle (Router.nomination_edit_metadata osu ctx body) w = (Json r, w') ->
  exists nomination,
    Router.select_nomination (Router.metadata_nominationId body) (db w) = Some nomination
    /\ filter (credited nomination) (Router.beatmapset_creators (db w'))
       = map (fun u => Router.mkCreator (Router.nomination_beatmapset_id nomination) (user_id u)
                                        (Router.game_mode nomination))
             (Router.json_creators r)
    /\ List.length (Router.json_creators r)
       = List.length match Router.isStringArray (Router.body_creators body) with
                     | Some names => names
                     | None => []
                     end
    /\ filter (fun c => negb (credited nomination c)) (Router.beatmapset_creators (db w'))
       = filter (fun c => negb (credited nomination c)) (Router.beatmapset_creators (db w)).
Proof.
  unfold Router.nomination_edit_metadata. cbv zeta. unfold handle.
  destruct (negb (Router.roles_metadata (Router.authRoles ctx))
            && negb (Router.roles_news (Router.authRoles ctx))); [discriminate|].
  unfold bind at 1, query at 1.
  destruct (Router.select_nomination (Router.metadata_nominationId body) (db w))
    as [nomination|] eqn:Hsel; [|cbn; discriminate].
  destruct (checkerUpdate_run S osu ctx body nomination w) as [s1 E1].
  set (w1 := if Router.roles_metadata (Router.authRoles ctx) then _ else _) in E1.
  destruct (reread_after_checker S ctx body nomination w s1
              (trace w ++ checker_events body nomination) Hsel) as [n1 Hn1].
  fold w1 in Hn1.
  destruct (reread_keys S osu (Router.metadata_nominationId body) nomination (osu_store w1)
                        (db w1)) as [Kb Kg]; [exists n1; exact Hn1|].
  assert (Hcre : Router.beatmapset_creators (db w1) = Router.beatmapset_creators (db w)).
  { subst w1. destruct (Router.roles_metadata (Router.authRoles ctx)); reflexivity. }
  unfold transact, Router.metadataTransaction.
  erewrite bind_returns by exact E1. step. cbv zeta. rewrite Kb, Kg.
  unfold bind at 1, execute at 1.
  match goal with
  | |- context [bind (Router.insertCreators _ _ ?b ?g) _ ?w0] =>
      destruct (Router.insertCreators osu body b g w0) as [[creators|e] w2] eqn:E2
  end.
  - erewrite bind_returns by exact E2.
    apply insertCreators_result in E2. destruct E2 as [Hdb Hlen]. unfold ret. intros H. injection H as <- <-.
    cbn [Router.json_creators]. exists nomination. split; [reflexivity|].
    assert (Hnew : forall x,
              In x (map (fun u => Router.mkCreator (Router.nomination_beatmapset_id nomination)
                                    (user_id u) (Router.game_mode nomination))
                        (Router.present creators)) ->
              credited nomination x = true).
    { intros x Hx. apply in_map_iff in Hx. destruct Hx as [u [<- _]]. unfold credited. cbn.
      rewrite !Z.eqb_refl. reflexivity. }
    rewrite Hdb. cbn [db emit Router.beatmapset_creators Router.set_beatmapset_creators
                      Router.delete_creators].
    rewrite Hcre. split; [|split].
    + apply (replace_rows_selected (credited nomination) _ _ Hnew).
    + exact Hlen.
    + apply (replace_rows_rest (credited nomination) _ _ Hnew).
  - erewrite bind_throws by exact E2. discriminate.
Qed.

End RouterExtra.

(** ** The rounds *)

Section RoundsExtra.
Variable S : Type.
Variable ctx : Router.Context.

(** POST /add-round takes the ids it writes from the key and moves the
    key on, so it keeps [rounds_fresh]. *)
Lemma add_round_keeps_rounds_fresh (w w' : World Router.DB S) r :
  handle (Router.add_round ctx) w = (r, w') ->
  rounds_fresh (db w) ->
  rounds_fresh (db w').
Proof.
  unfold Router.add_round, Router.isNewsAuthor.
  destruct (Router.roles_news (Router.authRoles ctx)).
  - unfold handle, transact, Router.addRoundTransaction.
    unfold bind, insert, Router.insert_round, forEach, bind, execute, ret, emit.
    cbn [db osu_store trace]. intros H. injection H as _ <-.
    intros [Hr Hm]. cbn [db]. split.
    + cbn. intros x Hx. apply in_app_or in Hx. destruct Hx as [Hx|[<-|[]]].
      * apply Hr in Hx. lia.
      * cbn. lia.
    + cbn. intros x Hx. rewrite <- !app_assoc in Hx. apply in_app_or in Hx.
      destruct Hx as [Hx|Hx].
      * apply Hm in Hx. lia.
      * cbn in Hx. destruct Hx as [<-|[<-|[<-|[<-|[]]]]]; cbn; lia.
  - unfold handle, ret. intros H. injection H as _ <-. auto.
Qed.

(** POST /add-round keeps the rounds well formed: distinct ids, and no
    round and no row of [round_game_modes] with an id that the key is yet to
    give out. *)
Lemma add_round_keeps_rounds_wf (w w' : World Router.DB S) r :
  handle (Router.add_round ctx) w = (r, w') ->
  rounds_wf (db w) ->
  rounds_wf (db w').
Proof.
  unfold Router.add_round, Router.isNewsAuthor.
  destruct (Router.roles_news (Router.authRoles ctx)).
  - unfold handle, transact, Router.addRoundTransaction.
    unfold bind, insert, Router.insert_round, forEach, bind, execute, ret, emit.
    cbn [db osu_store trace]. intros H. injection H as _ <-.
    intros [Hnd [Hr Hm]]. cbn [db]. split; [|split].
    + cbn. rewrite map_app. cbn [map]. apply NoDup_app_iff_snoc; [exact Hnd|].
      intros Hin. apply in_map_iff in Hin. destruct Hin as [x [Hx Hin]].
      apply Hr in Hin. cbn in Hx. lia.
    + cbn. intros x Hx. apply in_app_or in Hx. destruct Hx as [Hx|[<-|[]]].
      * apply Hr in Hx. lia.
      * cbn. lia.
    + cbn. intros x Hx. rewrite <- !app_assoc in Hx. apply in_app_or in Hx.
      destruct Hx as [Hx|Hx].
      * apply Hm in Hx. lia.
      * cbn in Hx. destruct Hx as [<-|[<-|[<-|[<-|[]]]]]; cbn; lia.
  - unfold handle, ret. intros H. injection H as _ <-. auto.
Qed.

Lemma insert_by_id_perm r l : Permutation (Router.insert_by_id r l) (r :: l).
Proof.
  induction l as [|x l IH]; cbn [Router.insert_by_id]; [reflexivity|].
  destruct (Router.id r <=? Router.id x); [reflexivity|].
  rewrite IH. apply perm_swap.
Qed.

Lemma order_by_id_perm l : Permutation (Router.order_by_id l) l.
Proof.
  induction l as [|x l IH]; [reflexivity|].
  unfold Router.order_by_id in *. cbn [fold_right]. rewrite insert_by_id_perm, IH. reflexivity.
Qed.

Lemma insert_by_id_sorted r l :
  StronglySorted (fun a b => Router.id a <= Router.id b) l ->
  StronglySorted (fun a b => Router.id a <= Router.id b) (Router.insert_by_id r l).
Proof.
  intros Hs. induction Hs as [|x l Hs IH Hall]; cbn [Router.insert_by_id].
  - constructor; constructor.
  - destruct (Router.id r <=? Router.id x) eqn:E.
    + apply Z.leb_le in E. constructor; [constructor; assumption|].
      constructor; [exact E|]. apply Forall_forall. intros y Hy.
      rewrite Forall_forall in Hall. specialize (Hall y Hy). lia.
    + apply Z.leb_gt in E. constructor; [exact IH|].
      apply Forall_forall. intros y Hy. apply insert_by_id_In in Hy.
      destruct Hy as [->|Hy]; [lia|]. rewrite Forall_forall in Hall. apply Hall, Hy.
Qed.

Lemma order_by_id_sorted l :
  StronglySorted (fun a b => Router.id a <= Router.id b) (Router.order_by_id l).
Proof.
  induction l as [|x l IH]; [constructor|].
  unfold Router.order_by_id in *. cbn [fold_right]. apply insert_by_id_sorted. exact IH.
Qed.

Lemma select_rounds_ascending d : ascending (listed_ids (Router.select_rounds d)).
Proof.
  unfold ascending, listed_ids, Router.select_rounds. rewrite map_map. cbn [Router.json_round].
  induction (order_by_id_sorted (Router.rounds d)) as [|x l Hs IH Hall]; cbn [map];
    constructor; [exact IH|].
  apply Forall_forall. intros y Hy. apply in_map_iff in Hy. destruct Hy as [z [<- Hz]].
  rewrite Forall_forall in Hall. apply Hall, Hz.
Qed.

Lemma ascending_filter (p : Router.RoundJson -> bool) l :
  ascending (listed_ids l) -> ascending (listed_ids (filter p l)).
Proof.
  unfold ascending, listed_ids. induction l as [|x l IH]; cbn [map filter]; [auto|].
  intros Hs. apply StronglySorted_inv in Hs. destruct Hs as [Hs Hall].
  destruct (p x); [|apply IH, Hs]. cbn [map]. constructor; [apply IH, Hs|].
  apply Forall_forall. intros y Hy. apply in_map_iff in Hy. destruct Hy as [z [<- Hz]].
  apply filter_In in Hz. destruct Hz as [Hz _].
  rewrite Forall_forall in Hall. apply Hall. apply in_map_iff. exists z. auto.
Qed.

Lemma descending_snoc l x :
  descending l -> Forall (fun y => y >= x) l -> descending (l ++ [x]).
Proof.
  unfold descending. intros Hs Hall. induction Hs as [|y l Hs IH Hy]; cbn [app].
  - constructor; constructor.
  - apply Forall_cons_iff in Hall. destruct Hall as [Hyx Hall].
    constructor; [apply IH, Hall|]. apply Forall_app. split; [exact Hy|].
    constructor; [exact Hyx|constructor].
Qed.

Lemma ascending_rev l : ascending l -> descending (rev l).
Proof.
  unfold ascending. intros Hs. induction Hs as [|x l Hs IH Hall]; cbn [rev].
  - constructor.
  - apply descending_snoc; [exact IH|]. apply Forall_forall. intros y Hy.
    apply in_rev in Hy. rewrite Forall_forall in Hall. specialize (Hall y Hy). lia.
Qed.

Lemma filter_partition_perm {A} (p : A -> bool) (l : list A) :
  Permutation (filter p l ++ filter (fun x => negb (p x)) l) l.
Proof.
  induction l as [|x l IH]; [reflexivity|]. cbn [filter].
  destruct (p x); cbn [negb app].
  - constructor. exact IH.
  - rewrite <- Permutation_middle. constructor. exact IH.
Qed.

(** X28.  GET /rounds reads only.  It lists every round once, the rounds that
    are done by descending id and the others by ascending id, each with the
    number of its nominations. *)
Theorem get_rounds_partition (w : World Router.DB S) :
  exists listed,
    handle (Router.get_rounds (S := S)) w = (Json listed, w)
    /\ Permutation (map Router.json_round
                        (Router.complete_rounds listed ++ Router.incomplete_rounds listed))
                   (Router.rounds (db w))
    /\ (forall round, In round (Router.complete_rounds listed) ->
                      Router.done (Router.json_round round) = true)
    /\ (forall round, In round (Router.incomplete_rounds listed) ->
                      Router.done (Router.json_round round) = false)
    /\ descending (listed_ids (Router.complete_rounds listed))
    /\ ascending (listed_ids (Router.incomplete_rounds listed))
    /\ (forall round,
          In round (Router.complete_rounds listed ++ Router.incomplete_rounds listed) ->
          Router.nomination_count round
          = nominations_of_round (Router.id (Router.json_round round)) (db w)).
Proof.
  eexists. split; [reflexivity|]. cbn [Router.complete_rounds Router.incomplete_rounds].
  split; [|split; [|split; [|split; [|split]]]].
  - rewrite <- (order_by_id_perm (Router.rounds (db w))).
    assert (Hmap : Router.order_by_id (Router.rounds (db w))
                   = map Router.json_round (Router.select_rounds (db w))).
    { unfold Router.select_rounds. rewrite map_map. cbn. symmetry. apply map_id. }
    rewrite Hmap. apply Permutation_map.
    rewrite <- (filter_partition_perm (fun round => Router.done (Router.json_round round))
                                      (Router.select_rounds (db w))) at 3.
    apply Permutation_app_tail. symmetry. apply Permutation_rev.
  - intros round Hin. apply in_rev in Hin. apply filter_In in Hin. apply Hin.
  - intros round Hin. apply filter_In in Hin. destruct Hin as [_ Hin].
    apply negb_true_iff in Hin. exact Hin.
  - unfold listed_ids. rewrite map_rev. apply ascending_rev.
    apply (ascending_filter _ _ (select_rounds_ascending (db w))).
  - apply (ascending_filter _ _ (select_rounds_ascending (db w))).
  - intros round Hin. apply in_app_or in Hin.
    assert (Hsel : In round (Router.select_rounds (db w))).
    { destruct Hin as [Hin|Hin]; [apply in_rev in Hin|]; apply filter_In in Hin; apply Hin. }
    unfold Router.select_rounds in Hsel. apply in_map_iff in Hsel.
    destruct Hsel as [x [<- _]]. reflexivity.
Qed.

End RoundsExtra.

(** ** router.ts: the review routes of the captains *)

Section CaptainReviews.
Variable S : Type.
Variable osu : Collaborator S.
Variable ctx : RouterReviews.Context.

(** X29.  POST /review of router.ts answers with a review only for a score
    from -4 to 3 other than 0, to a captain of the game mode, and to a
    score of -3 or more only when the acting user has the captain role.  The
    acting user then holds a review of the beatmapset in the game mode with
    the reason, score and time of the request, and neither the log nor the
    submissions have changed.  A review that exists is rewritten without a
    call of the osu! API. *)
Theorem captain_review_accepted body (w w' : World Anyone.DB S) j :
  handle (RouterReviews.review osu ctx body) w = (Json j, w') ->
  exists beatmapsetId gameMode reason score,
    RouterReviews.body_beatmapsetId body = Some beatmapsetId
    /\ RouterReviews.body_gameMode body = Some gameMode
    /\ RouterReviews.body_reason body = Some reason
    /\ RouterReviews.body_score body = Some score
    /\ 0 <= gameMode <= 3
    /\ -4 <= score <= 3 /\ score <> 0
    /\ RouterReviews.roles_gameModes ctx gameMode = true
    /\ (-3 <= score -> RouterReviews.roles_captain ctx = true)
    /\ holds_review beatmapsetId (RouterReviews.actor_id ctx) gameMode reason score
                    (RouterReviews.now ctx) (db w')
    /\ Anyone.logs (db w') = Anyone.logs (db w)
    /\ Anyone.submissions (db w') = Anyone.submissions (db w)
    /\ (Anyone.select_review beatmapsetId (RouterReviews.actor_id ctx) gameMode (db w) <> None ->
        osu_store w' = osu_store w /\ trace w' = trace w ++ [SqlUpdate t_reviews]).
Proof.
  unfold RouterReviews.review, handle.
  destruct (RouterReviews.body_beatmapsetId body) as [b|] eqn:Hb; [|cbn; discriminate].
  destruct (RouterReviews.body_gameMode body) as [g|] eqn:Hg; [|cbn; discriminate].
  destruct ((g <? 0) || (g >? 3)) eqn:Hrange; [cbn; discriminate|].
  destruct (RouterReviews.body_reason body) as [reason|] eqn:Hr; [|cbn; discriminate].
  destruct (RouterReviews.body_score body) as [score|] eqn:Hs; [|cbn; discriminate].
  destruct ((score =? 0) || (score <? -4) || (score >? 3)) eqn:Hscore; [cbn; discriminate|].
  destruct (RouterReviews.roles_gameModes ctx g) eqn:Hmode; [|cbn; discriminate].
  cbn [negb].
  destruct ((score >=? -3) && negb (RouterReviews.roles_captain ctx)) eqn:Hcap;
    [cbn; discriminate|].
  apply orb_false_iff in Hrange. destruct Hrange as [Hg0 Hg3].
  apply Z.ltb_ge in Hg0. rewrite Z.gtb_ltb in Hg3. apply Z.ltb_ge in Hg3.
  apply orb_false_iff in Hscore. destruct Hscore as [Hscore Hs3].
  apply orb_false_iff in Hscore. destruct Hscore as [Hs0 Hs4].
  apply Z.eqb_neq in Hs0. apply Z.ltb_ge in Hs4. rewrite Z.gtb_ltb in Hs3. apply Z.ltb_ge in Hs3.
  assert (Hcaptain : -3 <= score -> RouterReviews.roles_captain ctx = true).
  { intros Hle. apply andb_false_iff in Hcap. destruct Hcap as [Hcap|Hcap].
    - rewrite Z.geb_leb in Hcap. apply Z.leb_gt in Hcap. lia.
    - apply negb_false_iff in Hcap. exact Hcap. }
  unfold bind at 1, query at 1.
  destruct (Anyone.select_review b (RouterReviews.actor_id ctx) g (db w)) as [ex|] eqn:Hex.
  - unfold bind, execute, query, ret. cbn [db emit osu_store trace].
    intros H. injection H as _ <-. cbn [db osu_store trace emit].
    exists b, g, reason, score. do 4 (split; [reflexivity|]).
    split; [lia|]. split; [lia|]. split; [exact Hs0|]. split; [exact Hmode|].
    split; [exact Hcaptain|]. split; [|auto].
    exists (rewritten reason (RouterReviews.now ctx) score (Anyone.review_id ex) ex).
    rewrite (select_review_updated _ _ _ _ _ _ _ (db w) _ eq_refl), Hex.
    split; [reflexivity|]. unfold rewritten. rewrite Z.eqb_refl. cbn. auto.
  - unfold bind at 1, call at 1.
    destruct (createOrRefreshBeatmapset osu b false (osu_store w)) as [[beatmapset|] s1];
      [|cbn; discriminate].
    destruct (negb (existsb (Z.eqb g) (game_modes beatmapset))); [cbn; discriminate|].
    unfold bind, insert, Anyone.insert_review, query, ret. cbn [db emit osu_store trace].
    intros H. injection H as _ <-. cbn [db osu_store trace emit].
    exists b, g, reason, score. do 4 (split; [reflexivity|]).
    split; [lia|]. split; [lia|]. split; [exact Hs0|]. split; [exact Hmode|].
    split; [exact Hcaptain|]. split; [|split; [reflexivity|split; [reflexivity|]]].
    + exists (Anyone.mkReview (Anyone.reviews_auto_increment (db w)) b g reason
                              (RouterReviews.now ctx) (RouterReviews.actor_id ctx) score).
      rewrite (select_review_appended _ _ _
                 (Anyone.mkReview (Anyone.reviews_auto_increment (db w)) b g reason
                                  (RouterReviews.now ctx) (RouterReviews.actor_id ctx) score)
                 (db w)) by reflexivity.
      rewrite Hex. cbn. rewrite !Z.eqb_refl. cbn. auto.
    + intros Hn. exfalso. apply Hn. exact Hex.
Qed.

(** X30.  DELETE /review of router.ts turns away, with status 403 and
    nothing changed, who has not the captain role.  It answers a captain
    with 204 exactly when the review exists and is the captain's own; the
    review is then gone and every other review is as it was, and nothing is
    logged.  Every other request changes nothing. *)
Theorem captain_delete_review_owner_only reviewId (w w' : World Anyone.DB S) r :
  handle (RouterReviews.delete_review (S := S) ctx reviewId) w = (r, w') ->
  (r = Empty 204
   /\ RouterReviews.roles_captain ctx = true
   /\ (exists review,
         Anyone.select_review_by_id reviewId (db w) = Some review
         /\ Anyone.reviewer_id review = RouterReviews.actor_id ctx)
   /\ Anyone.select_review_by_id reviewId (db w') = None
   /\ (forall x, In x (Anyone.reviews (db w')) <->
                 In x (Anyone.reviews (db w)) /\ Anyone.review_id x <> reviewId)
   /\ Anyone.logs (db w') = Anyone.logs (db w))
  \/ (w' = w
      /\ (status_of r = 403
          /\ RouterReviews.roles_captain ctx = false
          \/ r = ErrorJson 404 "Review not found"
             /\ RouterReviews.roles_captain ctx = true
             /\ Anyone.select_review_by_id reviewId (db w) = None
          \/ r = ErrorJson 403 "This isn't your review"
             /\ RouterReviews.roles_captain ctx = true
             /\ exists review,
                  Anyone.select_review_by_id reviewId (db w) = Some review
                  /\ Anyone.reviewer_id review <> RouterReviews.actor_id ctx)).
Proof.
  unfold RouterReviews.delete_review, RouterReviews.isCaptain, handle.
  destruct (RouterReviews.roles_captain ctx) eqn:Hcap;
    [|unfold ret; intros H; injection H as <- <-; right; split; [reflexivity|]; left; auto].
  unfold bind at 1, query at 1.
  destruct (Anyone.select_review_by_id reviewId (db w)) as [review|] eqn:Hsel.
  - destruct (Anyone.reviewer_id review =? RouterReviews.actor_id ctx) eqn:Hown; cbn [negb].
    + unfold bind, execute, ret. cbn [db emit]. intros H. injection H as <- <-. left.
      apply Z.eqb_eq in Hown. split; [reflexivity|]. split; [reflexivity|].
      split; [exists review; auto|].
      cbn [db emit Anyone.reviews Anyone.set_reviews]. split; [|split].
      * unfold Anyone.select_review_by_id. cbn [Anyone.reviews Anyone.set_reviews].
        apply find_none_all. intros x Hx. apply filter_In in Hx. destruct Hx as [_ Hx].
        apply negb_true_iff in Hx. exact Hx.
      * intros x. rewrite filter_In. rewrite negb_true_iff, Z.eqb_neq. reflexivity.
      * reflexivity.
    + unfold ret. intros H. injection H as <- <-. right. split; [reflexivity|]. right. right.
      split; [reflexivity|]. split; [reflexivity|]. exists review. split; [reflexivity|].
      apply Z.eqb_neq. exact Hown.
  - unfold ret. intros H. injection H as <- <-. right. split; [reflexivity|]. right. left. auto.
Qed.

End CaptainReviews.

(** * Runs of the example deployment for the further properties *)

Lemma review_world_wf : reviews_wf (db review_world).
Proof.
  split.
  - repeat constructor. intros [].
  - intros r [<-|[]]. reflexivity.
Defined.

Lemma review_rejection_writes_nothing_witness :
  db (snd (handle (Anyone.review review_osu review_ctx captain_score_body) review_world))
  = db review_world.
Proof.
  apply (review_rejection_writes_nothing unit review_osu review_ctx captain_score_body
           review_world _ _ eq_refl).
  vm_compute. discriminate.
Defined.

Lemma review_keeps_reviews_wf_witness :
  reviews_wf (db (snd (handle (Anyone.review review_osu review_ctx create_body) review_world))).
Proof.
  apply (review_keeps_reviews_wf unit review_osu review_ctx create_body review_world
           review_world_wf).
Defined.

Lemma review_captain_scores_witness :
  handle (Anyone.review review_osu review_ctx captain_score_body) review_world
  = (ErrorJson 403 "Must be a captain to use review score -4", review_world).
Proof.
  apply (proj1 (review_captain_scores unit review_osu review_ctx captain_score_body review_world
                  100 0 "nice" (-4) eq_refl eq_refl eq_refl eq_refl (or_introl eq_refl))
               eq_refl).
Defined.

Lemma review_create_path_witness :
  exists activeCaptain w',
    handle (Anyone.review review_osu review_ctx create_body) review_world
    = (Json (Anyone.mkReviewJson (Anyone.mkReview 2 100 3 "fine" 60 7 1) activeCaptain), w')
    /\ Anyone.reviews (db w')
       = [Anyone.mkReview 1 100 0 "nice" 50 7 2; Anyone.mkReview 2 100 3 "fine" 60 7 1].
Proof.
  destruct (review_create_path unit review_osu review_ctx create_body review_world
              100 3 "fine" 1 example_beatmapset)
    as [ac [w' [E [Hr _]]]].
  - reflexivity.
  - reflexivity.
  - reflexivity.
  - reflexivity.
  - lia.
  - lia.
  - intros [H|H]; discriminate H.
  - reflexivity.
  - split; [reflexivity|]. split; [apply Z.leb_le; reflexivity|]. cbn. auto.
  - intros r [<-|[]]. reflexivity.
  - exists ac, w'. split; [exact E|exact Hr].
Defined.

Lemma delete_review_owner_only_witness :
  snd (handle (Anyone.delete_review review_osu other_ctx (Some 1)) review_world) = review_world.
Proof.
  apply (proj2 (delete_review_owner_only unit review_osu other_ctx (Some 1) review_world _ _
                  eq_refl)).
  vm_compute. discriminate.
Defined.

Lemma delete_review_removes_witness :
  Anyone.select_review_by_id 1
    (db (snd (handle (Anyone.delete_review review_osu review_ctx (Some 1)) review_world)))
  = None.
Proof.
  apply (delete_review_removes unit review_osu review_ctx 1 review_world _ eq_refl).
Defined.

Lemma review_create_then_delete_witness :
  exists w2,
    handle (Anyone.delete_review review_osu review_ctx (Some 2)) (snd created_review)
    = (Empty 204, w2)
    /\ Anyone.reviews (db w2) = Anyone.reviews (db review_world).
Proof.
  assert (E : handle (Anyone.review review_osu review_ctx create_body) review_world
              = created_review) by (vm_compute; reflexivity).
  apply (review_create_then_delete unit review_osu review_ctx create_body review_world
           (snd created_review) 100 3 _ example_beatmapset
           review_world_wf eq_refl eq_refl eq_refl E eq_refl).
Defined.

Lemma review_many_reviews_every_mode_witness :
  exists w',
    handle (Anyone.review_many review_osu review_ctx (many_body [0; 3] 1)) review_world
    = (Empty 204, w')
    /\ holds_review 100 7 0 "both" 1 60 (db w')
    /\ holds_review 100 7 3 "both" 1 60 (db w').
Proof.
  destruct (review_many_reviews_every_mode unit review_osu review_ctx (many_body [0; 3] 1)
              review_world 100 [0; 3] "both" 1 example_beatmapset tt)
    as [w' [E [Hh _]]].
  - reflexivity.
  - reflexivity.
  - discriminate.
  - reflexivity.
  - reflexivity.
  - left. reflexivity.
  - reflexivity.
  - apply Z.leb_le. reflexivity.
  - intros g [<-|[<-|[]]]; cbn; auto.
  - exists w'. split; [exact E|]. split; apply Hh; cbn; auto.
Defined.

Lemma review_many_missing_modes_witness :
  exists w',
    handle (Anyone.review_many review_osu review_ctx (many_body [2; 0; 1; 2] 3)) review_world
    = (ErrorJson 422 "Beatmapset has no beatmaps in game mode 2, 1", w')
    /\ db w' = db review_world
    /\ first_before 2 1 [2; 0; 1; 2].
Proof.
  destruct (review_many_missing_modes unit review_osu review_ctx (many_body [2; 0; 1; 2] 3)
              review_world 100 [2; 0; 1; 2] "both" 3 example_beatmapset tt 1)
    as [w' [missing [E [Hdb [Hmissing [_ [_ Horder]]]]]]].
  - reflexivity.
  - reflexivity.
  - reflexivity.
  - reflexivity.
  - right. reflexivity.
  - reflexivity.
  - apply Z.leb_le. reflexivity.
  - cbn. auto.
  - intros [H|[H|[]]]; discriminate H.
  - exists w'. split; [rewrite E, Hmissing; reflexivity|]. split; [exact Hdb|].
    apply (Horder [] 2 [] 1 []). rewrite Hmissing. reflexivity.
Defined.

Lemma review_many_rejection_writes_nothing_witness :
  db (snd (handle (Anyone.review_many review_osu review_ctx (many_body [0; 3] 2)) review_world))
  = db review_world.
Proof.
  apply (review_many_rejection_writes_nothing unit review_osu review_ctx (many_body [0; 3] 2)
           review_world _ _ eq_refl).
  vm_compute. discriminate.
Defined.

Lemma mapper_consent_outcomes_witness :
  db (snd (handle (Anyone.mapper_consent stale_osu consent_ctx (consent_body validated_request))
                  consent_world))
  = db consent_world.
Proof.
  destruct (mapper_consent_outcomes unit stale_osu consent_ctx (consent_body validated_request)
              consent_world _ _ eq_refl)
    as [[H _]|[H|[j [c [u [s1 [H _]]]]]]].
  - exact H.
  - vm_compute in H. discriminate H.
  - vm_compute in H. discriminate H.
Defined.

(** ** The nomination routes *)

Lemma router_world_wf : nominations_wf (db router_world).
Proof.
  split.
  - repeat constructor. intros [].
  - exact router_world_fresh.
Defined.

Lemma delete_nomination_authorisation_witness :
  handle (Router.delete_nomination stranger_ctx 5) router_world = (Empty 403, router_world).
Proof.
  destruct (delete_nomination_authorisation unit stranger_ctx 5 router_world _ _ eq_refl)
    as [[H _]|[H [Hw _]]].
  - vm_compute in H. discriminate H.
  - reflexivity.
Defined.

Lemma nomination_submit_invariant_witness : nominations_wf (db (snd first_submit)).
Proof.
  assert (E : handle (Router.nomination_submit router_osu nominator_ctx (submit_body 101))
                     router_world = first_submit) by (vm_compute; reflexivity).
  apply (proj2 (nomination_submit_invariant unit router_osu nominator_ctx (submit_body 101)
                  router_world (snd first_submit) (fst first_submit) E)).
  exact router_world_wf.
Defined.

Lemma nomination_submit_twice_rejected_witness :
  exists w2,
    handle (Router.nomination_submit router_osu stranger_ctx (submit_body 101))
           (snd first_submit)
    = (ErrorJson 422 "Duplicate nomination. Refresh the page if you don't see it", w2)
    /\ db w2 = db (snd first_submit).
Proof.
  assert (E : handle (Router.nomination_submit router_osu nominator_ctx (submit_body 101))
                     router_world = first_submit) by (vm_compute; reflexivity).
  apply (nomination_submit_twice_rejected unit router_osu nominator_ctx stranger_ctx
           (submit_body 101) router_world (snd first_submit) _ 101 0
           (mkBeatmapset 101 0 [0]) (mkBeatmapset 101 0 [0]) tt tt
           E eq_refl eq_refl eq_refl eq_refl eq_refl).
  cbn. auto.
Defined.

Lemma router_world_unreferenced : unreferenced 6 (db router_world).
Proof.
  repeat split.
  - intros r [<-|[]]. discriminate.
  - intros r [<-|[]]. discriminate.
  - intros r [<-|[<-|[]]]; discriminate.
Defined.

Lemma nomination_submit_then_delete_witness :
  exists w2,
    handle (Router.delete_nomination nominator_ctx 6) (snd first_submit) = (Empty 204, w2)
    /\ Router.nominations (db w2) = Router.nominations (db router_world)
    /\ Router.nomination_nominators (db w2) = Router.nomination_nominators (db router_world).
Proof.
  assert (E : handle (Router.nomination_submit router_osu nominator_ctx (submit_body 101))
                     router_world = first_submit) by (vm_compute; reflexivity).
  destruct (nomination_submit_then_delete unit router_osu nominator_ctx (submit_body 101)
              router_world (snd first_submit) _ router_world_fresh router_world_unreferenced E)
    as [w2 [Ed [Hn [Hm _]]]].
  exists w2. split; [exact Ed|]. split; [exact Hn|exact Hm].
Defined.

Lemma edit_description_refused_witness :
  exists r,
    handle (Router.nomination_edit_description router_osu editor_ctx (description_body None))
           router_world = (r, router_world)
    /\ status_of r = 403.
Proof.
  apply (edit_description_refused unit router_osu editor_ctx (description_body None)
           router_world example_nomination eq_refl).
  right. split; [reflexivity|]. right. reflexivity.
Defined.

Lemma edit_description_frame_witness :
  Router.select_nomination 6 (db (snd description_edited))
  = Router.select_nomination 6 (db (snd first_submit)).
Proof.
  assert (E : handle (Router.nomination_edit_description router_osu nominator_ctx
                        (description_body (Some "new text"))) (snd first_submit)
              = description_edited) by (vm_compute; reflexivity).
  apply (proj1 (edit_description_frame unit router_osu nominator_ctx
                  (description_body (Some "new text")) (snd first_submit)
                  (snd description_edited) _ E) 6).
  discriminate.
Defined.

Lemma edit_metadata_news_only_keeps_nominations_witness :
  Router.nominations
    (db (snd (handle (Router.nomination_edit_metadata router_osu news_ctx
                        (metadata_body Router.creatorsAbsent)) router_world)))
  = Router.nominations (db router_world).
Proof.
  apply (edit_metadata_news_only_keeps_nominations unit router_osu news_ctx
           (metadata_body Router.creatorsAbsent) router_world _ _ eq_refl eq_refl).
Defined.

Lemma edit_metadata_unresolved_creator_rolls_back_witness :
  exists w',
    handle (Router.nomination_edit_metadata router_osu checker_ctx
              (metadata_body (Router.creatorsArray ["mapper"; "nobody"]))) router_world
    = (serverError, w')
    /\ db w' = db router_world.
Proof.
  apply (edit_metadata_unresolved_creator_rolls_back unit router_osu checker_ctx
           (metadata_body (Router.creatorsArray ["mapper"; "nobody"])) router_world
           example_nomination ["mapper"; "nobody"] "nobody"
           (or_introl eq_refl) eq_refl eq_refl).
  - cbn. auto.
  - intros s. reflexivity.
Defined.

Lemma edit_metadata_replaces_creators_witness :
  exists nomination,
    Router.select_nomination 5 (db router_world) = Some nomination
    /\ filter (credited nomination) (Router.beatmapset_creators (db (snd creators_replaced)))
       = [Router.mkCreator 100 8 0; Router.mkCreator 100 7 0].
Proof.
  assert (E : handle (Router.nomination_edit_metadata router_osu checker_ctx
                        (metadata_body (Router.creatorsArray ["captain"; "mapper"])))
                     router_world = creators_replaced) by (vm_compute; reflexivity).
  destruct (edit_metadata_replaces_creators unit router_osu checker_ctx
              (metadata_body (Router.creatorsArray ["captain"; "mapper"])) router_world
              (snd creators_replaced) _ E)
    as [nomination [Hsel [Hf _]]].
  exists nomination. split; [exact Hsel|].
  vm_compute in Hsel. injection Hsel as <-. exact Hf.
Defined.

Lemma edit_moderation_sets_only_moderator_state_witness :
  (exists r,
     handle (Router.nomination_edit_moderation (S := unit) news_ctx moderation_body)
            router_world = (r, router_world)
     /\ status_of r = 403)
  /\ exists w',
       handle (Router.nomination_edit_moderation (S := unit) moderator_ctx moderation_body)
              router_world
       = (Json (Router.mkModerationJson 5 2), w')
       /\ option_map Router.moderator_state (Router.select_nomination 5 (db w')) = Some 2.
Proof.
  split.
  - apply (proj1 (edit_moderation_sets_only_moderator_state unit news_ctx moderation_body
                    router_world)).
    reflexivity.
  - destruct (proj2 (edit_moderation_sets_only_moderator_state unit moderator_ctx
                       moderation_body router_world) eq_refl)
      as [w' [E [Hsel _]]].
    exists w'. split; [exact E|]. rewrite Hsel. reflexivity.
Defined.

Lemma order_entries_distinct : NoDup (map fst order_entries).
Proof.
  constructor; [intros [H|[]]; discriminate H|]. constructor; [intros []|constructor].
Defined.

Lemma update_nomination_order_applies_witness :
  (exists r,
     handle (Router.update_nomination_order (S := unit) false order_entries)
            (snd first_submit) = (r, snd first_submit)
     /\ status_of r = 403)
  /\ exists w',
       handle (Router.update_nomination_order (S := unit) true order_entries) (snd first_submit)
       = (Empty 204, w')
       /\ option_map Router.order (Router.select_nomination 5 (db w')) = Some 3
       /\ option_map Router.order (Router.select_nomination 6 (db w')) = Some 0.
Proof.
  split.
  - apply (proj1 (update_nomination_order_applies unit false order_entries (snd first_submit)
                    order_entries_distinct)).
    reflexivity.
  - destruct (proj2 (update_nomination_order_applies unit true order_entries (snd first_submit)
                       order_entries_distinct) eq_refl)
      as [w' [E [Hsel _]]].
    exists w'. split; [exact E|]. rewrite !Hsel. split; reflexivity.
Defined.

Lemma update_nominators_replaces_witness :
  (exists r,
     handle (Router.update_nominators router_osu false nominators_body) router_world
     = (r, router_world)
     /\ status_of r = 403)
  /\ exists w',
       handle (Router.update_nominators router_osu true nominators_body) router_world
       = (Json (Router.mkNominatorsJson 5 [mkUser 8 "captain"; mkUser 7 "mapper"]), w')
       /\ filter (fun r => Router.nominator_nomination_id r =? 5)
                 (Router.nomination_nominators (db w'))
          = [Router.mkNominator 5 8; Router.mkNominator 5 7].
Proof.
  assert (Hnd : NoDup [8; 7]).
  { constructor; [intros [H|[]]; discriminate H|]. constructor; [intros []|constructor]. }
  split.
  - apply (proj1 (update_nominators_replaces unit router_osu false nominators_body router_world
                    [8; 7] eq_refl Hnd)).
    reflexivity.
  - destruct (proj2 (update_nominators_replaces unit router_osu true nominators_body
                       router_world [8; 7] eq_refl Hnd) eq_refl)
      as [w' [E [Hf _]]].
    exists w'. split; [exact E|exact Hf].
Defined.

Lemma update_excluded_beatmaps_replaces_witness :
  (exists r,
     handle (Router.update_excluded_beatmaps (S := unit) false excluded_body) router_world
     = (r, router_world)
     /\ status_of r = 403)
  /\ exists w',
       handle (Router.update_excluded_beatmaps (S := unit) true excluded_body) router_world
       = (Empty 204, w')
       /\ filter (fun r => Router.excluded_nomination_id r =? 5)
                 (Router.nomination_excluded_beatmaps (db w'))
          = [Router.mkExcluded 1001 5; Router.mkExcluded 1002 5].
Proof.
  assert (Hnd : NoDup [1001; 1002]).
  { constructor; [intros [H|[]]; discriminate H|]. constructor; [intros []|constructor]. }
  split.
  - apply (proj1 (update_excluded_beatmaps_replaces unit false excluded_body router_world
                    [1001; 1002] eq_refl Hnd)).
    reflexivity.
  - destruct (proj2 (update_excluded_beatmaps_replaces unit true excluded_body router_world
                       [1001; 1002] eq_refl Hnd) eq_refl)
      as [w' [E [Hf _]]].
    exists w'. split; [exact E|exact Hf].
Defined.

Lemma update_assignees_replaces_type_witness :
  exists w',
    handle (Router.update_nomination_assignees router_osu checker_ctx assignees_body)
           router_world
    = (Json (Router.mkAssigneesJson 5 "metadata_assignees" [mkUser 7 "mapper"]), w')
    /\ filter (fun r => (Router.assignee_nomination_id r =? 5) && (Router.assignee_type r =? 0))
              (Router.nomination_assignees (db w'))
       = [Router.mkAssignee 7 5 0].
Proof.
  destruct (update_assignees_replaces_type unit router_osu checker_ctx assignees_body
              router_world 0 [7])
    as [w' [E [Hf _]]].
  - reflexivity.
  - right. reflexivity.
  - reflexivity.
  - constructor; [intros []|constructor].
  - exists w'. split; [exact E|exact Hf].
Defined.

Lemma lock_nominations_sets_one_flag_witness :
  snd (handle (Router.lock_nominations (S := unit) nominator_ctx (lock_body true))
              (snd round_added))
  = snd round_added.
Proof.
  destruct (lock_nominations_sets_one_flag unit nominator_ctx (lock_body true) (snd round_added)
              _ _ eq_refl)
    as [[_ H]|[g [H _]]].
  - exact H.
  - vm_compute in H. discriminate H.
Defined.

Lemma lock_then_unlock_witness : db (snd round_opened) = db (snd round_added).
Proof.
  assert (E1 : handle (Router.lock_nominations (S := unit) news_ctx (lock_body true))
                      (snd round_added) = round_locked) by (vm_compute; reflexivity).
  assert (E2 : handle (Router.lock_nominations (S := unit) news_ctx (lock_body false))
                      (snd round_locked) = round_opened) by (vm_compute; reflexivity).
  apply (lock_then_unlock unit news_ctx (lock_body true) (lock_body false)
           (snd round_added) (snd round_locked) (snd round_opened) 3
           eq_refl eq_refl eq_refl eq_refl eq_refl).
  - intros m Hm _ _. vm_compute in Hm.
    destruct Hm as [<-|[<-|[<-|[<-|[]]]]]; reflexivity.
  - exact E1.
  - exact E2.
Defined.

(** ** The review routes of router.ts *)

Lemma captain_review_accepted_witness :
  holds_review 100 7 0 "nice" 2 60
    (db (snd (handle (RouterReviews.review review_osu (captain_ctx 7) captain_review_body)
                     review_world))).
Proof.
  destruct (captain_review_accepted unit review_osu (captain_ctx 7) captain_review_body review_world
              _ _ eq_refl)
    as [b [g [reason [score [Hb [Hg [Hr [Hs [_ [_ [_ [_ [_ [Hh _]]]]]]]]]]]]]].
  cbn in Hb, Hg, Hr, Hs.
  injection Hb as <-. injection Hg as <-. injection Hr as <-. injection Hs as <-.
  exact Hh.
Defined.

Lemma captain_delete_review_owner_only_witness :
  snd (handle (RouterReviews.delete_review (S := unit) reviewer_only_ctx 1) review_world)
  = review_world
  /\ Anyone.select_review_by_id 1
       (db (snd (handle (RouterReviews.delete_review (S := unit) (captain_ctx 7) 1)
                        review_world)))
     = None.
Proof.
  split.
  - destruct (captain_delete_review_owner_only unit reviewer_only_ctx 1 review_world _ _ eq_refl)
      as [[H _]|[H _]].
    + vm_compute in H. discriminate H.
    + exact H.
  - destruct (captain_delete_review_owner_only unit (captain_ctx 7) 1 review_world _ _ eq_refl)
      as [[_ [_ [_ [H _]]]]|[_ [[H _]|[[H _]|[H _]]]]].
    + exact H.
    + vm_compute in H. discriminate H.
    + vm_compute in H. discriminate H.
    + vm_compute in H. discriminate H.
Defined.
